(** * btgym: the episodic data sampler of [btgym/datafeed/base.py]

    A shallow embedding of [BTgymBaseData]: partition planning ([_reset]),
    cached sampling ([_sample]) and the two constrained retry searches
    ([_sample_interval], [_sample_random]).

    Conventions of the embedding:
    - a pandas timestamp is the number of seconds since 1970-01-01 00:00 (a
      Thursday), a [datetime.timedelta] is its number of seconds, both in [Z];
    - a Python float is an exact rational ([Q]); [int()] and [round()] are
      written out on rationals;
    - the instance [self] is a record, the objects it creates live in a heap
      addressed by position, and every method is a function from the world
      before the call to an outcome and the world after it: what a method
      assigned before raising stays assigned;
    - the random generators are streams read at a running position. *)

From Stdlib Require Import ZArith QArith Qround String Bool Lia Lqa List.
Import ListNotations.
Open Scope Z_scope.

(** ** Python arithmetic and slicing *)

(** [int(x)] on a float: truncation toward zero. *)
Definition py_int (x : Q) : Z :=
  if Qle_bool 0 x then Qfloor x else Qceiling x.

(** [round(x)] on a float, no [ndigits]: nearest integer, halves to even. *)
Definition py_round (x : Q) : Z :=
  let f := Qfloor x in
  match Qcompare (x - inject_Z f) (1 # 2) with
  | Lt => f
  | Gt => f + 1
  | Eq => if Z.even f then f else f + 1
  end.

(** A slice bound as Python resolves it against a sequence of length [len]:
    negative bounds count from the end, everything is clipped to [0, len]. *)
Definition slice_bound (len i : Z) : Z :=
  if i <? 0 then Z.max 0 (i + len) else Z.min i len.

(** [l[start:stop]] *)
Definition py_slice {A : Type} (l : list A) (start stop : Z) : list A :=
  let len := Z.of_nat (length l) in
  let s := slice_bound len start in
  let e := slice_bound len stop in
  firstn (Z.to_nat (e - s)) (skipn (Z.to_nat s) l).

(** [x in l] for integers. *)
Definition py_in (x : Z) (l : list Z) : bool := existsb (Z.eqb x) l.

(** ** Timestamps and durations *)

Definition Timestamp := Z.

(** [Timestamp.weekday()]: Monday is 0, Sunday is 6. *)
Definition weekday (t : Timestamp) : Z := (t / 86400 + 3) mod 7.

(** A calendar date, as its day number since the epoch. *)
Definition date (t : Timestamp) : Z := t / 86400.

(** A date looked up in a datetime index stands for its midnight. *)
Definition midnight (day : Z) : Timestamp := 86400 * day.

(** The keyword dictionaries given to [datetime.timedelta]. *)
Record Duration := mkDuration { days : Z; hours : Z; minutes : Z }.

(** [datetime.timedelta( **d ).total_seconds()] *)
Definition total_seconds (d : Duration) : Z :=
  86400 * days d + 3600 * hours d + 60 * minutes d.

(** ** The data frame *)

Record Row := mkRow { index : Timestamp; values : list Q }.

Definition DataFrame := list Row.

(** [df.shape[0]] *)
Definition shape0 (df : DataFrame) : Z := Z.of_nat (length df).

(** [current_dataframe[~current_dataframe.index.duplicated(keep='first')]] *)
Fixpoint drop_duplicated (seen : list Timestamp) (df : DataFrame) : DataFrame :=
  match df with
  | [] => []
  | r :: rest =>
      if py_in (index r) seen then drop_duplicated seen rest
      else r :: drop_duplicated (index r :: seen) rest
  end.

Fixpoint nearest_from (idx : list Timestamp) (t : Timestamp)
    (i best bestd : Z) : Z :=
  match idx with
  | [] => best
  | x :: rest =>
      let d := Z.abs (x - t) in
      if d <? bestd then nearest_from rest t (i + 1) i d
      else nearest_from rest t (i + 1) best bestd
  end.

(** Modelled from the spec: [nearestRowForTimestamp], the pandas lookup
    [index.get_loc(t, method='nearest')], which is not part of the
    repository: the row whose timestamp is closest to [t], the earlier row on
    a tie; an empty index has no such row.  The spec describes the lookup on
    a series without repeated timestamps, and pandas refuses an index that
    has some: what is stated on the success of the lookup is stated for an
    index without repeats. *)
Definition get_loc_nearest (idx : list Timestamp) (t : Timestamp) : option Z :=
  match idx with
  | [] => None
  | x :: rest => Some (nearest_from rest t 1 0 (Z.abs (x - t)))
  end.

(** ** Python values, metadata, exceptions *)

Inductive PyVal :=
| PyNone
| PyInt (z : Z)
| PyStr (s : string).

(** The [metadata] dictionary: [__init__] creates it with its first two keys,
    the other three are added when a sample is made. *)
Record Metadata := mkMetadata {
  md_sample_num : PyVal;
  md_type : PyVal;
  md_first_row : option PyVal;
  md_parent_sample_num : option PyVal;
  md_parent_sample_type : option PyVal
}.

Inductive ExcClass :=
| AssertionError
| AttributeError
| RuntimeError
| FileNotFoundError
| IndexError
| KeyError
| TypeError
| ValueError
| ZeroDivisionError.

(** The outcome of a call: a value, or an exception with the attempt count
    reported with it, in its message or in the log line written as it is
    raised (when there is one).  [OutOfFuel] is the
    embedding's own: a loop of the model that was cut short, which no call
    ever yields (see [sample_interval_total], [sample_random_total]). *)
Inductive Result (A : Type) :=
| Ok (a : A)
| Raise (e : ExcClass) (reported_attempts : option Z)
| OutOfFuel.

Arguments Ok {A} a.
Arguments Raise {A} e reported_attempts.
Arguments OutOfFuel {A}.

(** ** The instance *)

(** What [self.filename] holds: the source file name or names, or, on a
    sample, the arguments of its id format
    [name + 'num_{}_at_{}'.format(sample_num, adj_timedate)]. *)
Inductive Anchor :=
| AtDate (day : Z)
| AtTimestamp (t : Timestamp).

Inductive Filename :=
| FileStr (s : string)
| FileList (l : list string)
| SampleId (prefix : string) (num : Z) (at_ : Anchor).

Definition loc := nat.

(** The sampling parameters of the constructor. *)
Record SamplingParams := mkSamplingParams {
  p_start_weekdays : list Z;
  p_start_00 : bool;
  p_sample_duration : Duration;
  p_time_gap : Duration;
  p_test_period : Duration
}.

(** An entry of [_config_stack]: the class of the samples an instance makes
    and the constructor arguments they are built with. *)
Record NestedConfig := mkNestedConfig {
  class_ref : option string;
  kw_timeframe : Z;
  kw_sampling_params : SamplingParams;
  kw_name : string
}.

Record Instance := mkInstance {
  filename : option Filename;
  timeframe : Z;
  start_weekdays : list Z;
  start_00 : bool;
  sample_duration : Duration;
  time_gap : Duration;
  test_period : Duration;
  data : option DataFrame;
  is_ready : bool;
  data_range_delta : option Z;
  max_time_gap : option Z;
  max_sample_len_delta : option Z;
  sample_num_records : Z;
  sample_instance : option loc;
  test_range_delta : option Z;
  train_range_delta : option Z;
  test_num_records : Z;
  train_num_records : Z;
  train_interval : list Z;
  test_interval : list Z;
  sample_num : Z;
  metadata : Metadata;
  nested_class_ref : option string;
  nested_params : NestedConfig;
  config_stack : list NestedConfig;
  sample_name : string
}.

(** The defaults [__init__] uses when [sampling_params] is [None]. *)
Definition default_sampling_params : SamplingParams :=
  mkSamplingParams [] false (mkDuration 0 0 0) (mkDuration 0 0 0)
    (mkDuration 0 0 0).

(** [__init__]: the last entry of [_config_stack] is popped and configures the
    samples of this instance; with an empty stack there is no sample class.
    [task] is reset to 0 before [sample_name] is formatted. *)
Definition init (fname : option Filename) (tf : Z) (sp : SamplingParams)
    (stack : list NestedConfig) : Instance :=
  let nested_config :=
    match rev stack with
    | top :: _ => top
    | [] => mkNestedConfig None tf default_sampling_params "data_stream"
    end in
  mkInstance fname tf (p_start_weekdays sp) (p_start_00 sp)
    (p_sample_duration sp) (p_time_gap sp) (p_test_period sp)
    None false None None None 0 None None None 0 0 [0; 0] [0; 0] 0
    (mkMetadata (PyInt 0) PyNone None None None)
    (class_ref nested_config) nested_config (removelast stack)
    (kw_name nested_config ++ "_w_0_")%string.

(** Attribute assignments. *)
Definition set_filename v (s : Instance) : Instance :=
  mkInstance v (timeframe s) (start_weekdays s) (start_00 s)
    (sample_duration s) (time_gap s) (test_period s) (data s) (is_ready s)
    (data_range_delta s) (max_time_gap s) (max_sample_len_delta s)
    (sample_num_records s) (sample_instance s) (test_range_delta s)
    (train_range_delta s) (test_num_records s) (train_num_records s)
    (train_interval s) (test_interval s) (sample_num s) (metadata s)
    (nested_class_ref s) (nested_params s) (config_stack s) (sample_name s).

Definition set_sampling_params (sp : SamplingParams) (s : Instance) : Instance :=
  mkInstance (filename s) (timeframe s) (p_start_weekdays sp) (p_start_00 sp)
    (p_sample_duration sp) (p_time_gap sp) (p_test_period sp) (data s)
    (is_ready s)
    (data_range_delta s) (max_time_gap s) (max_sample_len_delta s)
    (sample_num_records s) (sample_instance s) (test_range_delta s)
    (train_range_delta s) (test_num_records s) (train_num_records s)
    (train_interval s) (test_interval s) (sample_num s) (metadata s)
    (nested_class_ref s) (nested_params s) (config_stack s) (sample_name s).

Definition set_data v (s : Instance) : Instance :=
  mkInstance (filename s) (timeframe s) (start_weekdays s) (start_00 s)
    (sample_duration s) (time_gap s) (test_period s) v (is_ready s)
    (data_range_delta s) (max_time_gap s) (max_sample_len_delta s)
    (sample_num_records s) (sample_instance s) (test_range_delta s)
    (train_range_delta s) (test_num_records s) (train_num_records s)
    (train_interval s) (test_interval s) (sample_num s) (metadata s)
    (nested_class_ref s) (nested_params s) (config_stack s) (sample_name s).

Definition set_is_ready v (s : Instance) : Instance :=
  mkInstance (filename s) (timeframe s) (start_weekdays s) (start_00 s)
    (sample_duration s) (time_gap s) (test_period s) (data s) v
    (data_range_delta s) (max_time_gap s) (max_sample_len_delta s)
    (sample_num_records s) (sample_instance s) (test_range_delta s)
    (train_range_delta s) (test_num_records s) (train_num_records s)
    (train_interval s) (test_interval s) (sample_num s) (metadata s)
    (nested_class_ref s) (nested_params s) (config_stack s) (sample_name s).

Definition set_data_range_delta v (s : Instance) : Instance :=
  mkInstance (filename s) (timeframe s) (start_weekdays s) (start_00 s)
    (sample_duration s) (time_gap s) (test_period s) (data s) (is_ready s)
    v (max_time_gap s) (max_sample_len_delta s)
    (sample_num_records s) (sample_instance s) (test_range_delta s)
    (train_range_delta s) (test_num_records s) (train_num_records s)
    (train_interval s) (test_interval s) (sample_num s) (metadata s)
    (nested_class_ref s) (nested_params s) (config_stack s) (sample_name s).

(** The two deltas [_reset] computes first. *)
Definition set_max_deltas gap len (s : Instance) : Instance :=
  mkInstance (filename s) (timeframe s) (start_weekdays s) (start_00 s)
    (sample_duration s) (time_gap s) (test_period s) (data s) (is_ready s)
    (data_range_delta s) gap len
    (sample_num_records s) (sample_instance s) (test_range_delta s)
    (train_range_delta s) (test_num_records s) (train_num_records s)
    (train_interval s) (test_interval s) (sample_num s) (metadata s)
    (nested_class_ref s) (nested_params s) (config_stack s) (sample_name s).

Definition set_sample_num_records n (s : Instance) : Instance :=
  mkInstance (filename s) (timeframe s) (start_weekdays s) (start_00 s)
    (sample_duration s) (time_gap s) (test_period s) (data s) (is_ready s)
    (data_range_delta s) (max_time_gap s) (max_sample_len_delta s)
    n (sample_instance s) (test_range_delta s)
    (train_range_delta s) (test_num_records s) (train_num_records s)
    (train_interval s) (test_interval s) (sample_num s) (metadata s)
    (nested_class_ref s) (nested_params s) (config_stack s) (sample_name s).

(** The train/test deltas and record counts of [_reset]. *)
Definition set_split test_d train_d test_n train_n (s : Instance) : Instance :=
  mkInstance (filename s) (timeframe s) (start_weekdays s) (start_00 s)
    (sample_duration s) (time_gap s) (test_period s) (data s) (is_ready s)
    (data_range_delta s) (max_time_gap s) (max_sample_len_delta s)
    (sample_num_records s) (sample_instance s) test_d
    train_d test_n train_n
    (train_interval s) (test_interval s) (sample_num s) (metadata s)
    (nested_class_ref s) (nested_params s) (config_stack s) (sample_name s).

(** The four assignments that close [_reset]. *)
Definition set_plan train test (s : Instance) : Instance :=
  mkInstance (filename s) (timeframe s) (start_weekdays s) (start_00 s)
    (sample_duration s) (time_gap s) (test_period s) (data s) true
    (data_range_delta s) (max_time_gap s) (max_sample_len_delta s)
    (sample_num_records s) (sample_instance s) (test_range_delta s)
    (train_range_delta s) (test_num_records s) (train_num_records s)
    train test 0 (metadata s)
    (nested_class_ref s) (nested_params s) (config_stack s) (sample_name s).

Definition set_sample_instance v (s : Instance) : Instance :=
  mkInstance (filename s) (timeframe s) (start_weekdays s) (start_00 s)
    (sample_duration s) (time_gap s) (test_period s) (data s) (is_ready s)
    (data_range_delta s) (max_time_gap s) (max_sample_len_delta s)
    (sample_num_records s) v (test_range_delta s)
    (train_range_delta s) (test_num_records s) (train_num_records s)
    (train_interval s) (test_interval s) (sample_num s) (metadata s)
    (nested_class_ref s) (nested_params s) (config_stack s) (sample_name s).

Definition set_sample_num v (s : Instance) : Instance :=
  mkInstance (filename s) (timeframe s) (start_weekdays s) (start_00 s)
    (sample_duration s) (time_gap s) (test_period s) (data s) (is_ready s)
    (data_range_delta s) (max_time_gap s) (max_sample_len_delta s)
    (sample_num_records s) (sample_instance s) (test_range_delta s)
    (train_range_delta s) (test_num_records s) (train_num_records s)
    (train_interval s) (test_interval s) v (metadata s)
    (nested_class_ref s) (nested_params s) (config_stack s) (sample_name s).

Definition set_metadata v (s : Instance) : Instance :=
  mkInstance (filename s) (timeframe s) (start_weekdays s) (start_00 s)
    (sample_duration s) (time_gap s) (test_period s) (data s) (is_ready s)
    (data_range_delta s) (max_time_gap s) (max_sample_len_delta s)
    (sample_num_records s) (sample_instance s) (test_range_delta s)
    (train_range_delta s) (test_num_records s) (train_num_records s)
    (train_interval s) (test_interval s) (sample_num s) v
    (nested_class_ref s) (nested_params s) (config_stack s) (sample_name s).

(** ** The world *)

(** The random generators: [numpy.random.beta(a, b)] and [random.random()],
    each a stream of draws, read at the shared position [pos]. *)
Record Rng := mkRng {
  beta : Q -> Q -> nat -> Q;
  uniform : nat -> Q;
  pos : nat
}.

(** The instance [obj] the methods are called on, the objects it has created
    (a sample is referred to by its position in [heap]), the files as the
    ingestion would parse them, and the random generators. *)
Record World := mkWorld {
  obj : Instance;
  heap : list Instance;
  files : string -> option DataFrame;
  rng : Rng
}.

Definition M (A : Type) : Type := World -> Result A * World.

Definition ret {A} (a : A) : M A := fun w => (Ok a, w).

Definition raise {A} (e : ExcClass) (n : option Z) : M A :=
  fun w => (Raise e n, w).

Definition out_of_fuel {A} : M A := fun w => (OutOfFuel, w).

Definition bind {A B} (m : M A) (k : A -> M B) : M B :=
  fun w =>
    match m w with
    | (Ok a, w') => k a w'
    | (Raise e n, w') => (Raise e n, w')
    | (OutOfFuel, w') => (OutOfFuel, w')
    end.

Notation "x <- m ;; k" := (bind m (fun x => k))
  (at level 61, m at next level, right associativity).
Notation "m ;;; k" := (bind m (fun _ => k))
  (at level 61, right associativity).

(** Read [self]. *)
Definition self : M Instance := fun w => (Ok (obj w), w).

(** The files the ingestion can see. *)
Definition file_system : M (string -> option DataFrame) :=
  fun w => (Ok (files w), w).

(** Assign attributes of [self]. *)
Definition assign (f : Instance -> Instance) : M unit :=
  fun w => (Ok tt, mkWorld (f (obj w)) (heap w) (files w) (rng w)).

(** [assert c], re-raised as a bare [AssertionError]. *)
Definition py_assert (c : bool) : M unit :=
  if c then ret tt else raise AssertionError None.

(** [o] when it is not [None], else the exception [e]. *)
Definition some_or {A} (e : ExcClass) (o : option A) : M A :=
  match o with Some a => ret a | None => raise e None end.

(** ** Loading and partition planning *)

(** The loop of [read_csv] over the file names: any name that is empty or
    does not resolve raises [FileNotFoundError]. *)
Fixpoint read_files (fs : string -> option DataFrame) (names : list string)
    : option (list DataFrame) :=
  match names with
  | [] => Some []
  | f :: rest =>
      match (if String.eqb f "" then None else fs f) with
      | None => None
      | Some df =>
          match read_files fs rest with
          | None => None
          | Some dfs => Some (drop_duplicated [] df :: dfs)
          end
      end
  end.

(** Whether a [data_filename] argument is truthy. *)
Definition truthy (f : option Filename) : bool :=
  match f with
  | None => false
  | Some (FileStr s) => negb (String.eqb s "")
  | Some (FileList l) => match l with [] => false | _ => true end
  | Some (SampleId _ _ _) => true
  end.

(** The file names [self.filename] iterates over once a string is wrapped in
    a list; [None] is not iterable. *)
Definition names_of (f : option Filename) : option (list string) :=
  match f with
  | None => None
  | Some (FileStr s) => Some [s]
  | Some (FileList l) => Some l
  | Some (SampleId p _ _) => Some [p]
  end.

(** [read_csv(data_filename)], [force_reload=False]. *)
Definition read_csv (data_filename : option Filename) : M unit :=
  s <- self ;;
  match data s with
  | Some _ => ret tt
  | None =>
      (if truthy data_filename then assign (set_filename data_filename)
       else ret tt) ;;;
      s <- self ;;
      names <- some_or TypeError (names_of (filename s)) ;;
      assign (set_filename (Some (FileList names))) ;;;
      fs <- file_system ;;
      dataframes <- some_or FileNotFoundError (read_files fs names) ;;
      (match dataframes with [] => raise ValueError None | _ => ret tt end) ;;;
      let df := concat dataframes in
      assign (set_data (Some df)) ;;;
      match df with
      | [] => raise IndexError None
      | first :: _ =>
          assign (set_data_range_delta
                    (Some (index (last df first) - index first)))
      end
  end.

(** [x / (60 * self.timeframe)] on floats; division by zero raises. *)
Definition per_timeframe (secs tf : Z) : M Q :=
  if 60 * tf =? 0 then raise ZeroDivisionError None
  else ret (inject_Z secs / inject_Z (60 * tf))%Q.

(** [_reset(data_filename)] *)
Definition _reset (data_filename : option Filename) : M unit :=
  read_csv data_filename ;;;
  s <- self ;;
  let gap := total_seconds (time_gap s) in
  let len := total_seconds (sample_duration s) in
  assign (set_max_deltas (Some gap) (Some len)) ;;;
  q <- per_timeframe len (timeframe s) ;;
  let n := py_int q in
  assign (set_sample_num_records n) ;;;
  let test_d := total_seconds (test_period s) in
  let train_d := len - test_d in
  qt <- per_timeframe test_d (timeframe s) ;;
  let test_n := py_round qt in
  df <- some_or AttributeError (data s) ;;
  let train_n := shape0 df - test_n in
  assign (set_split (Some test_d) (Some train_d) test_n train_n) ;;;
  let break_point := train_n in
  py_assert (n <=? train_n) ;;;
  (if 0 <? test_n then py_assert (n <=? test_n) else ret tt) ;;;
  assign (set_plan [0; break_point] [break_point; shape0 df]).

(** ** Sampling *)

Definition advance (r : Rng) : Rng := mkRng (beta r) (uniform r) (S (pos r)).

(** [random_beta(a=b_alpha, b=b_beta)] *)
Definition random_beta (a b : Q) : M Q :=
  fun w =>
    (Ok (beta (rng w) a b (pos (rng w))),
     mkWorld (obj w) (heap w) (files w) (advance (rng w))).

(** [random.random()] *)
Definition random_random : M Q :=
  fun w =>
    (Ok (uniform (rng w) (pos (rng w))),
     mkWorld (obj w) (heap w) (files w) (advance (rng w))).

(** A new object: its reference is its position in the heap. *)
Definition alloc (o : Instance) : M loc :=
  fun w =>
    (Ok (length (heap w)), mkWorld (obj w) (heap w ++ [o]) (files w) (rng w)).

Fixpoint update_nth {A : Type} (n : nat) (f : A -> A) (l : list A) : list A :=
  match l, n with
  | [], _ => []
  | x :: rest, O => f x :: rest
  | x :: rest, S n' => x :: update_nth n' f rest
  end.

(** Assign attributes of the object at [l]. *)
Definition assign_at (l : loc) (f : Instance -> Instance) : M unit :=
  fun w =>
    (Ok tt, mkWorld (obj w) (update_nth l f (heap w)) (files w) (rng w)).

(** The first and the last timestamp of a frame, if it has a row. *)
Definition time_first (df : DataFrame) : option Timestamp :=
  match df with
  | [] => None
  | r :: _ => Some (index r)
  end.

Definition time_last (df : DataFrame) : option Timestamp :=
  match df with
  | [] => None
  | r :: _ => Some (index (last df r))
  end.

(** [df.index[0]] and [df.index[-1]] *)
Definition index_first (df : DataFrame) : M Timestamp :=
  some_or IndexError (time_first df).

Definition index_last (df : DataFrame) : M Timestamp :=
  some_or IndexError (time_last df).

(** The moment an anchor is looked up at. *)
Definition anchor_time (a : Anchor) : Timestamp :=
  match a with
  | AtDate day => midnight day
  | AtTimestamp t => t
  end.

(** [adj_timedate]: with [start_00], the date of the candidate record, else
    its own timestamp. *)
Definition anchor_of (s : Instance) (cand : Timestamp) : Anchor :=
  if start_00 s then AtDate (date cand) else AtTimestamp cand.

(** [assert not self.data.empty]; a missing frame fails the same way. *)
Definition loaded_data (s : Instance) : M DataFrame :=
  match data s with
  | Some (r :: rest) => ret (r :: rest)
  | _ => raise AssertionError None
  end.

Definition Qltb (x y : Q) : bool := negb (Qle_bool y x).

Definition max_attempts : Z := 100.

(** Enough iterations for either loop of a search: each iteration that does
    not leave a loop adds one to [attempts], which starts at 0 and stops the
    loops once above [max_attempts]. *)
Definition loop_fuel : nat := Z.to_nat (max_attempts + 2).

(** [self.nested_class_ref( **self.nested_params )], then the four
    assignments that make the new object a sample. *)
Definition new_sample (s : Instance) (id : Filename) (sampled_data : DataFrame)
    (type : string) (first_row : Z) : M loc :=
  match nested_class_ref s with
  | None => raise TypeError None
  | Some _ =>
      let new_instance :=
        init None (kw_timeframe (nested_params s))
          (kw_sampling_params (nested_params s)) (config_stack s) in
      let md := metadata new_instance in
      alloc
        (set_metadata
           (mkMetadata (md_sample_num md) (PyStr type)
              (Some (PyInt first_row)) (md_parent_sample_num md)
              (md_parent_sample_type md))
           (set_data (Some sampled_data)
              (set_filename (Some id) new_instance)))
  end.

(** The first-row formula of [_sample_interval] at its first draw (line 686)
    and at its redraws (line 699). *)
Definition interval_first_row (lo hi n : Z) (u : Q) : Z :=
  lo + py_int (inject_Z (hi - lo - n) * u).

Definition interval_redraw_row (lo hi n : Z) (u : Q) : Z :=
  lo + py_round (inject_Z (hi - lo - n) * u).

(** The inner loop of [_sample_interval]: "keep sampling until good day". *)
Fixpoint seek_weekday_interval (fuel : nat) (s : Instance) (df : DataFrame)
    (lo hi n : Z) (b_alpha b_beta : Q)
    (first_row : Z) (sample_first_day : Timestamp) (attempts : Z)
    : M (Z * Timestamp * Z) :=
  if negb (py_in (weekday sample_first_day) (start_weekdays s))
     && (attempts <=? max_attempts)
  then
    match fuel with
    | O => out_of_fuel
    | S fuel' =>
        u <- random_beta b_alpha b_beta ;;
        let first_row := interval_redraw_row lo hi n u in
        sample_first_day <- index_first (py_slice df first_row (first_row + 1)) ;;
        seek_weekday_interval fuel' s df lo hi n b_alpha b_beta
          first_row sample_first_day (attempts + 1)
    end
  else ret (first_row, sample_first_day, attempts).

(** The outer loop of [_sample_interval]. *)
Fixpoint sample_interval_loop (fuel : nat) (s : Instance) (df : DataFrame)
    (lo hi n : Z) (b_alpha b_beta : Q) (name : string) (attempts : Z)
    : M loc :=
  if attempts <=? max_attempts then
    match fuel with
    | O => out_of_fuel
    | S fuel' =>
        u <- random_beta b_alpha b_beta ;;
        let first_row := interval_first_row lo hi n u in
        sample_first_day <- index_first (py_slice df first_row (first_row + 1)) ;;
        found <- seek_weekday_interval loop_fuel s df lo hi n b_alpha b_beta
                   first_row sample_first_day attempts ;;
        let '(_, sample_first_day, attempts) := found in
        if negb (attempts <=? max_attempts)
        then raise RuntimeError (Some attempts)
        else
          let adj_timedate := anchor_of s sample_first_day in
          first_row <- some_or KeyError
                         (get_loc_nearest (map index df)
                            (anchor_time adj_timedate)) ;;
          let last_row := first_row + n in
          let sampled_data := py_slice df first_row last_row in
          t_last <- index_last sampled_data ;;
          t_first <- index_first sampled_data ;;
          let sample_len := t_last - t_first in
          len_delta <- some_or TypeError (max_sample_len_delta s) ;;
          gap <- some_or TypeError (max_time_gap s) ;;
          if sample_len - len_delta <? gap then
            new_sample s
              (SampleId (name ++ "num_") (sample_num s) adj_timedate)
              sampled_data "interval_sample" first_row
          else
            sample_interval_loop fuel' s df lo hi n b_alpha b_beta name
              (attempts + 1)
    end
  else raise RuntimeError (Some attempts).

(** [_sample_interval(interval, b_alpha, b_beta, name)] *)
Definition _sample_interval (interval : list Z) (b_alpha b_beta : Q)
    (name : string) : M loc :=
  s <- self ;;
  df <- loaded_data s ;;
  py_assert (Nat.eqb (length interval) 2) ;;;
  py_assert (Qltb 0 b_alpha && Qltb 0 b_beta) ;;;
  let sample_num_records := sample_num_records s in
  let lo := nth 0 interval 0 in
  let hi := last interval 0 in
  py_assert ((lo <? hi) && (hi <=? shape0 df)) ;;;
  sample_interval_loop loop_fuel s df lo hi sample_num_records
    b_alpha b_beta name 0.

(** The first-row formula of [_sample_random], at every draw. *)
Definition random_first_row (rows n : Z) (u : Q) : Z :=
  py_int (inject_Z (rows - n - 1) * u).

(** The inner loop of [_sample_random]. *)
Fixpoint seek_weekday_random (fuel : nat) (s : Instance) (df : DataFrame)
    (first_row : Z) (sample_first_day : Timestamp) (attempts : Z)
    : M (Z * Timestamp * Z) :=
  if negb (py_in (weekday sample_first_day) (start_weekdays s))
     && (attempts <=? max_attempts)
  then
    match fuel with
    | O => out_of_fuel
    | S fuel' =>
        u <- random_random ;;
        let first_row := random_first_row (shape0 df) (sample_num_records s) u in
        sample_first_day <- index_first (py_slice df first_row (first_row + 1)) ;;
        seek_weekday_random fuel' s df first_row sample_first_day (attempts + 1)
    end
  else ret (first_row, sample_first_day, attempts).

(** The outer loop of [_sample_random]. *)
Fixpoint sample_random_loop (fuel : nat) (s : Instance) (df : DataFrame)
    (name : string) (attempts : Z) : M loc :=
  if attempts <=? max_attempts then
    match fuel with
    | O => out_of_fuel
    | S fuel' =>
        u <- random_random ;;
        let first_row := random_first_row (shape0 df) (sample_num_records s) u in
        sample_first_day <- index_first (py_slice df first_row (first_row + 1)) ;;
        found <- seek_weekday_random loop_fuel s df
                   first_row sample_first_day attempts ;;
        let '(_, sample_first_day, attempts) := found in
        if negb (attempts <=? max_attempts)
        then raise AssertionError (Some attempts)
        else
          let adj_timedate := anchor_of s sample_first_day in
          first_row <- some_or KeyError
                         (get_loc_nearest (map index df)
                            (anchor_time adj_timedate)) ;;
          let last_row := first_row + sample_num_records s in
          let sampled_data := py_slice df first_row last_row in
          t_last <- index_last sampled_data ;;
          t_first <- index_first sampled_data ;;
          let sample_len := t_last - t_first in
          len_delta <- some_or TypeError (max_sample_len_delta s) ;;
          gap <- some_or TypeError (max_time_gap s) ;;
          if sample_len - len_delta <? gap then
            new_sample s
              (SampleId (name ++ "n") (sample_num s) adj_timedate)
              sampled_data "random_sample" first_row
          else sample_random_loop fuel' s df name (attempts + 1)
    end
  else raise RuntimeError (Some attempts).

(** [_sample_random(name)] *)
Definition _sample_random (name : string) : M loc :=
  s <- self ;;
  df <- loaded_data s ;;
  sample_random_loop loop_fuel s df name 0.

(** The four metadata assignments of [_sample] on the new sample. *)
Definition stamp (sample_type : Z) (parent : Instance) (o : Instance)
    : Instance :=
  set_metadata
    (mkMetadata (PyInt (sample_num parent)) (PyInt sample_type)
       (md_first_row (metadata o))
       (Some (md_sample_num (metadata parent)))
       (Some (md_type (metadata parent))))
    o.

(** [_sample(get_new, sample_type, b_alpha, b_beta)] *)
Definition _sample (get_new : bool) (sample_type : Z) (b_alpha b_beta : Q)
    : M loc :=
  s <- self ;;
  py_assert (is_ready s) ;;;
  py_assert (py_in sample_type [0; 1]) ;;;
  match sample_instance s, get_new with
  | Some cached, false => ret cached
  | _, _ =>
      l <- (if sample_type =? 0 then
              _sample_interval (train_interval s) b_alpha b_beta
                ("train_" ++ sample_name s)
            else
              _sample_interval (test_interval s) 1 1
                ("test_" ++ sample_name s)) ;;
      assign (set_sample_instance (Some l)) ;;;
      s <- self ;;
      assign_at l (stamp sample_type s) ;;;
      assign (set_sample_num (sample_num s + 1)) ;;;
      ret l
  end.

(** [set_params(sampling_params)] *)
Definition set_params (sp : SamplingParams) : M unit :=
  assign (set_sampling_params sp).

(** ** Conversion and summary *)

(** What [to_btfeed] hands to backtrader: the frame, the timeframe and the
    number of records it sets on the feed.  The column roles ([datetime],
    [open], ...) are parsing parameters, which the instance of this
    embedding does not carry. *)
Record Feed := mkFeed {
  dataname : DataFrame;
  feed_timeframe : Z;
  numrecords : Z
}.

(** [to_btfeed()]: a missing or empty frame is re-raised as an
    [AssertionError]. *)
Definition to_btfeed : M Feed :=
  s <- self ;;
  match data s with
  | Some (r :: rest) =>
      ret (mkFeed (r :: rest) (timeframe s) (shape0 (r :: rest)))
  | _ => raise AssertionError None
  end.

(** [describe()].  [summary] is pandas' [DataFrame.describe].  [data_stat] is
    an attribute that this method alone reads or writes: the instance of the
    other methods does not carry it, so [describe] runs on the world together
    with [data_stat], and assigns the summary to it before it returns it.
    Without data, or with an empty frame, the data is loaded for the summary
    and flushed after it; when the load raises, [data_stat] is what it
    was. *)
Definition describe {S : Type} (summary : DataFrame -> S)
    (w : World) (data_stat : option S) : Result S * (World * option S) :=
  let frame : M (bool * DataFrame) :=
    s <- self ;;
    flush_data <- match data s with
                  | Some (_ :: _) => ret false
                  | _ => read_csv None ;;; ret true
                  end ;;
    s <- self ;;
    df <- some_or AttributeError (data s) ;;
    ret (flush_data, df) in
  match frame w with
  | (Ok (flush_data, df), w1) =>
      let data_stat := summary df in
      let w2 :=
        if flush_data : bool then snd (assign (set_data None) w1) else w1 in
      (Ok data_stat, (w2, Some data_stat))
  | (Raise e m, w1) => (Raise e m, (w1, data_stat))
  | (OutOfFuel, w1) => (OutOfFuel, (w1, data_stat))
  end.

(** ** Notions for the properties *)

(** [post m w Q]: the call [m] made in the world [w] ends in an outcome [r]
    and a world [w'] with [Q r w']. *)
Definition post {A} (m : M A) (w : World) (Q : Result A -> World -> Prop)
    : Prop :=
  Q (fst (m w)) (snd (m w)).

(** The world after a call, whatever its outcome. *)
Definition after {A} (m : M A) (w : World) : World := snd (m w).

(** The world with another state of the instance. *)
Definition with_obj (s : Instance) (w : World) : World :=
  mkWorld s (heap w) (files w) (rng w).

(** The world after [k] more draws. *)
Definition drawn (k : nat) (w : World) : World :=
  mkWorld (obj w) (heap w) (files w)
    (mkRng (beta (rng w)) (uniform (rng w)) (k + pos (rng w))).

(** The world after [k] draws and the creation of the object [o]. *)
Definition drawn_alloc (k : nat) (o : Instance) (w : World) : World :=
  mkWorld (obj w) (heap w ++ [o]) (files w) (rng (drawn k w)).

(** The object a reference stands for. *)
Definition sample_at (l : loc) (w : World) : option Instance :=
  nth_error (heap w) l.

(** The weekday of the first row of a sample. *)
Definition first_weekday (ep : Instance) : option Z :=
  match data ep with
  | Some (r :: _) => Some (weekday (index r))
  | _ => None
  end.

(** What [read_csv] leaves as it was. *)
Definition same_config (s s' : Instance) : Prop :=
  timeframe s' = timeframe s /\ sample_duration s' = sample_duration s /\
  time_gap s' = time_gap s /\ test_period s' = test_period s /\
  is_ready s' = is_ready s /\ sample_instance s' = sample_instance s.

(** [x / (60 * timeframe)] when [timeframe] is not 0. *)
Definition rows_per (secs tf : Z) : Q :=
  (inject_Z secs / inject_Z (60 * tf))%Q.

(** The instance once [_reset] has assigned its deltas and record counts,
    before it checks them. *)
Definition counted (s : Instance) (df : DataFrame) : Instance :=
  let len := total_seconds (sample_duration s) in
  let test_d := total_seconds (test_period s) in
  let test_n := py_round (rows_per test_d (timeframe s)) in
  set_split (Some test_d) (Some (len - test_d)) test_n (shape0 df - test_n)
    (set_sample_num_records (py_int (rows_per len (timeframe s)))
       (set_max_deltas (Some (total_seconds (time_gap s))) (Some len) s)).

(** Last timestamp minus first timestamp of a frame. *)
Definition realized_duration (df : DataFrame) : option Z :=
  match time_last df, time_first df with
  | Some t_last, Some t_first => Some (t_last - t_first)
  | _, _ => None
  end.

(** What an accepted sample [ep] of the instance [s] over [df] is made of: a
    candidate record, at [cand], of an allowed weekday, the anchor it gives,
    the row [first_row] nearest to the anchor, and the rows from there on,
    whose duration exceeds the nominal one by less than the tolerated gap. *)
Definition accepted_at (s : Instance) (df : DataFrame) (prefix type : string)
    (ep : Instance) (cand : Timestamp) (first_row : Z) : Prop :=
  let sampled_data := py_slice df first_row (first_row + sample_num_records s) in
  In cand (map index df) /\
  py_in (weekday cand) (start_weekdays s) = true /\
  get_loc_nearest (map index df) (anchor_time (anchor_of s cand))
    = Some first_row /\
  data ep = Some sampled_data /\
  filename ep = Some (SampleId prefix (sample_num s) (anchor_of s cand)) /\
  md_type (metadata ep) = PyStr type /\
  md_first_row (metadata ep) = Some (PyInt first_row) /\
  exists duration len gap,
    realized_duration sampled_data = Some duration /\
    max_sample_len_delta s = Some len /\
    max_time_gap s = Some gap /\
    duration - len < gap.

Definition accepted (s : Instance) (prefix type : string) (ep : Instance)
    : Prop :=
  exists df cand first_row,
    data s = Some df /\ accepted_at s df prefix type ep cand first_row.

(** The outcome of a search started in [w]: a new object, accepted, after some
    draws; or an exception after some draws and nothing else, where running
    out of attempts reports [max_attempts + 1] of them. *)
Definition search_post (prefix type : string) (w : World)
    (r : Result loc) (w' : World) : Prop :=
  match r with
  | Ok l =>
      exists k ep,
        w' = drawn_alloc k ep w /\ l = length (heap w) /\
        accepted (obj w) prefix type ep
  | Raise e m =>
      (exists k, w' = drawn k w) /\
      (m <> None -> m = Some (max_attempts + 1))
  | OutOfFuel => False
  end.

(** The world once [_sample] has cached the new sample at [l], stamped its
    metadata and counted it. *)
Definition stamped (sample_type : Z) (l : loc) (w : World) : World :=
  let s := set_sample_instance (Some l) (obj w) in
  mkWorld (set_sample_num (sample_num s + 1) s)
    (update_nth l (stamp sample_type s) (heap w)) (files w) (rng w).

(** The search a fresh [_sample] of the given type runs. *)
Definition dispatched (sample_type : Z) (b_alpha b_beta : Q) (s : Instance)
    : M loc :=
  if sample_type =? 0 then
    _sample_interval (train_interval s) b_alpha b_beta
      ("train_" ++ sample_name s)
  else
    _sample_interval (test_interval s) 1 1 ("test_" ++ sample_name s).

(** Whether a request makes a new sample: it asks for one, or none is
    cached. *)
Definition fresh_request (get_new : bool) (s : Instance) : Prop :=
  get_new = true \/ sample_instance s = None.

(** No record of the frame falls on an allowed weekday. *)
Definition no_start_day (s : Instance) (df : DataFrame) : Prop :=
  forall t, In t (map index df) ->
    py_in (weekday t) (start_weekdays s) = false.

(** Every beta draw lies in [0, 1]. *)
Definition unit_draws (a b : Q) (w : World) : Prop :=
  forall k, (0 <= beta (rng w) a b k)%Q /\ (beta (rng w) a b k <= 1)%Q.

(** Two samples with the same rows, the same first row and the same number
    and anchor in their ids: they differ in the prefix of the id and in the
    type label at most. *)
Definition same_sample (ep_r ep_i : Instance) : Prop :=
  data ep_r = data ep_i /\
  md_first_row (metadata ep_r) = md_first_row (metadata ep_i) /\
  exists p_r p_i num anchor,
    filename ep_r = Some (SampleId p_r num anchor) /\
    filename ep_i = Some (SampleId p_i num anchor).

(** Two outcomes of a search that differ in the labels of the new sample and
    in the class of the exception that reports the attempts at most. *)
Definition same_search (out_r out_i : Result loc * World) : Prop :=
  match fst out_r, fst out_i with
  | Ok l_r, Ok l_i =>
      l_r = l_i /\
      exists h ep_r ep_i,
        heap (snd out_r) = h ++ [ep_r] /\ heap (snd out_i) = h ++ [ep_i] /\
        l_r = length h /\ same_sample ep_r ep_i /\
        obj (snd out_r) = obj (snd out_i) /\
        rng (snd out_r) = rng (snd out_i)
  | Raise e_r m_r, Raise e_i m_i =>
      m_r = m_i /\ snd out_r = snd out_i /\
      (e_r = e_i \/
       (e_r = AssertionError /\ e_i = RuntimeError /\ m_r <> None))
  | OutOfFuel, OutOfFuel => True
  | _, _ => False
  end.

(** From the current position on, the uniform draws are the beta(1, 1) draws
    and rounding them to a row is truncating them. *)
Definition draws_agree (rows n : Z) (w : World) : Prop :=
  forall k, (pos (rng w) <= k)%nat ->
    uniform (rng w) k = beta (rng w) 1 1 k /\
    interval_redraw_row 0 (rows - 1) n (beta (rng w) 1 1 k)
      = interval_first_row 0 (rows - 1) n (beta (rng w) 1 1 k).

(** The object [new_sample] creates. *)
Definition made_sample (s : Instance) (id : Filename) (rows : DataFrame)
    (type : string) (first_row : Z) : Instance :=
  let new_instance :=
    init None (kw_timeframe (nested_params s))
      (kw_sampling_params (nested_params s)) (config_stack s) in
  let md := metadata new_instance in
  set_metadata
    (mkMetadata (md_sample_num md) (PyStr type) (Some (PyInt first_row))
       (md_parent_sample_num md) (md_parent_sample_type md))
    (set_data (Some rows) (set_filename (Some id) new_instance)).

(** The sample cut at [first_row] for the candidate record [d]. *)
Definition cut_sample (s : Instance) (df : DataFrame) (prefix type : string)
    (d : Timestamp) (first_row : Z) : Instance :=
  made_sample s (SampleId prefix (sample_num s) (anchor_of s d))
    (py_slice df first_row (first_row + sample_num_records s)) type first_row.

(** Every uniform draw lies in [0, 1]. *)
Definition unit_uniform (w : World) : Prop :=
  forall k, (0 <= uniform (rng w) k)%Q /\ (uniform (rng w) k <= 1)%Q.

(** The outcome of a search whose candidate rows all lie in [lo, top]: a
    sample cut for a candidate row of an allowed weekday, at the row nearest
    to its anchor, within the gap tolerance; or the attempts run out, with a
    runtime error or, in the weekday loop, with [weekday_exc]; or a type
    error for want of a sample class or of the planned deltas. *)
Definition window_post (s : Instance) (df : DataFrame) (lo top : Z)
    (prefix type : string) (weekday_exc : ExcClass)
    (w : World) (r : Result loc) (w' : World) : Prop :=
  match r with
  | Ok l =>
      exists k c d first_row duration len gap,
        w' = drawn_alloc k (cut_sample s df prefix type d first_row) w /\
        l = length (heap w) /\
        lo <= c <= top /\
        nth_error (map index df) (Z.to_nat c) = Some d /\
        py_in (weekday d) (start_weekdays s) = true /\
        get_loc_nearest (map index df) (anchor_time (anchor_of s d))
          = Some first_row /\
        realized_duration
          (py_slice df first_row (first_row + sample_num_records s))
          = Some duration /\
        max_sample_len_delta s = Some len /\
        max_time_gap s = Some gap /\
        duration - len < gap /\
        nested_class_ref s <> None
  | Raise e m =>
      (exists k, w' = drawn k w) /\
      ((m = Some (max_attempts + 1) /\
        (e = RuntimeError \/ e = weekday_exc)) \/
       (e = TypeError /\ m = None /\
        (nested_class_ref s = None \/ max_sample_len_delta s = None \/
         max_time_gap s = None)))
  | OutOfFuel => False
  end.

(** The checks [_sample_interval] makes before it draws. *)
Definition valid_request (s : Instance) (interval : list Z) (a b : Q) : bool :=
  match data s with
  | Some (r :: rest) =>
      Nat.eqb (length interval) 2 && (Qltb 0 a && Qltb 0 b)
      && ((nth 0 interval 0 <? last interval 0)
          && (last interval 0 <=? shape0 (r :: rest)))
  | _ => false
  end.

(** The exceptions a search can raise once it draws. *)
Definition search_exception (e : ExcClass) : Prop :=
  e = RuntimeError \/ e = IndexError \/ e = KeyError \/ e = TypeError.

(** The plan a successful [_reset] leaves on an instance that holds [df]:
    it is ready, the train rows come first and the test rows after them, and
    a sample fits into the train rows, and into the test rows when there are
    any. *)
Definition planned (s : Instance) (df : DataFrame) : Prop :=
  data s = Some df /\ is_ready s = true /\
  train_interval s = [0; train_num_records s] /\
  test_interval s = [train_num_records s; shape0 df] /\
  train_num_records s = shape0 df - test_num_records s /\
  sample_num_records s <= train_num_records s /\
  (0 < test_num_records s -> sample_num_records s <= test_num_records s).

(** The instance a successful [_reset] leaves. *)
Definition plan_of (s : Instance) (df : DataFrame) : Instance :=
  set_plan [0; train_num_records (counted s df)]
    [train_num_records (counted s df); shape0 df] (counted s df).

(** The instance after a load of the files [names] that gave [df]. *)
Definition loaded (names : list string) (df : DataFrame) (first : Row)
    (s : Instance) : Instance :=
  set_data_range_delta (Some (index (last df first) - index first))
    (set_data (Some df) (set_filename (Some (FileList names)) s)).

(** ** Example data *)

(** A row at minute [minute] of day [day]; day 4 is Monday 1970-01-05. *)
Definition at_minute (day minute : Z) : Row :=
  mkRow (86400 * day + 60 * minute) [].

Definition episode_config : NestedConfig :=
  mkNestedConfig (Some "BTgymDataset"%string) 1 default_sampling_params
    "episode".

Definition one_file (df : DataFrame) : string -> option DataFrame :=
  fun f => if String.eqb f "data.csv" then Some df else None.

(** Draws of one half. *)
Definition half : nat -> Q := fun _ => 1 # 2.

(** A first draw of 0, then draws of one half. *)
Definition zero_then_half : nat -> Q :=
  fun k => match k with O => 0%Q | S _ => 1 # 2 end.

(** A fresh instance over one file, with one-minute rows and a stack of one
    sample class, in a world whose generators both replay [draws]. *)
Definition fresh_world (df : DataFrame) (sp : SamplingParams)
    (draws : nat -> Q) : World :=
  mkWorld (init (Some (FileStr "data.csv")) 1 sp [episode_config]) []
    (one_file df) (mkRng (fun _ _ => draws) draws 0).

(** Ten rows, two a day from Monday to Friday. *)
Definition weekdays_rows : DataFrame :=
  [at_minute 4 720; at_minute 4 721; at_minute 5 720; at_minute 5 721;
   at_minute 6 720; at_minute 6 721; at_minute 7 720; at_minute 7 721;
   at_minute 8 720; at_minute 8 721].

(** The last record of a Sunday, then four Monday records. *)
Definition monday_rows : DataFrame :=
  [at_minute 10 1439; at_minute 11 0; at_minute 11 1; at_minute 11 2;
   at_minute 11 3].

(** The last two records of a Sunday, then Monday from 00:05 on. *)
Definition monday_gap_rows : DataFrame :=
  [at_minute 10 1438; at_minute 10 1439; at_minute 11 5; at_minute 11 6;
   at_minute 11 7; at_minute 11 8].

(** Four Monday records for training, two more for testing. *)
Definition monday_test_rows : DataFrame :=
  [at_minute 11 0; at_minute 11 1; at_minute 11 2; at_minute 11 3;
   at_minute 11 4; at_minute 11 5].

(** Two-minute samples that may only start on a Sunday. *)
Definition sunday_params : SamplingParams :=
  mkSamplingParams [6] false (mkDuration 0 0 2) (mkDuration 0 1 0)
    (mkDuration 0 0 0).

(** Two-minute samples that may only start on a Monday. *)
Definition monday_params : SamplingParams :=
  mkSamplingParams [0] false (mkDuration 0 0 2) (mkDuration 0 1 0)
    (mkDuration 0 0 0).

(** Two-minute samples that may only start on a Monday, at midnight. *)
Definition monday_00_params : SamplingParams :=
  mkSamplingParams [0] true (mkDuration 0 0 2) (mkDuration 0 1 0)
    (mkDuration 0 0 0).

(** Two-minute samples starting on a Monday, with a one-minute test period:
    a test set too short for one sample. *)
Definition short_test_params : SamplingParams :=
  mkSamplingParams [0] false (mkDuration 0 0 2) (mkDuration 0 1 0)
    (mkDuration 0 0 1).

(** Two-minute samples starting on a Monday, with a two-minute test
    period. *)
Definition test_params : SamplingParams :=
  mkSamplingParams [0] false (mkDuration 0 0 2) (mkDuration 0 1 0)
    (mkDuration 0 0 2).

(** The ten weekday rows, planned for samples that start on a Sunday. *)
Definition planned_weekdays_world (draws : nat -> Q) : World :=
  after (_reset None) (fresh_world weekdays_rows sunday_params draws).

(** The Monday rows, planned. *)
Definition planned_monday_world : World :=
  after (_reset None) (fresh_world monday_rows monday_params half).

(** The Monday rows after a first sample. *)
Definition sampled_monday_world : World :=
  after (_sample true 0 1 1) planned_monday_world.

(** The planned Monday rows, given a test period too short for a sample. *)
Definition changed_monday_world : World :=
  after (set_params short_test_params) planned_monday_world.

(** The same, planned again. *)
Definition replanned_monday_world : World :=
  after (_reset None) changed_monday_world.

(** Four training rows and two test rows, planned. *)
Definition planned_test_world : World :=
  after (_reset None) (fresh_world monday_test_rows test_params half).

(** The Sunday-to-Monday rows, planned for samples at Monday midnight. *)
Definition planned_gap_world : World :=
  after (_reset None) (fresh_world monday_gap_rows monday_00_params half).

(** The Monday rows, planned, with a first draw of 0. *)
Definition planned_redraw_world : World :=
  after (_reset None) (fresh_world monday_rows monday_params zero_then_half).

(** Four daily records, Monday to Thursday at midnight. *)
Definition daily_rows : DataFrame :=
  [at_minute 4 0; at_minute 5 0; at_minute 6 0; at_minute 7 0].

(** Two-minute samples that may start on any day. *)
Definition any_day_params : SamplingParams :=
  mkSamplingParams [0; 1; 2; 3; 4; 5; 6] false (mkDuration 0 0 2)
    (mkDuration 0 1 0) (mkDuration 0 0 0).

(** The daily rows, planned. *)
Definition planned_daily_world : World :=
  after (_reset None) (fresh_world daily_rows any_day_params half).

(** The Monday rows, planned with the default sampling parameters. *)
Definition planned_default_world : World :=
  after (_reset None) (fresh_world monday_rows default_sampling_params half).

(** The Monday rows, planned on an instance made with an empty stack: it has
    no sample class. *)
Definition planned_leaf_world : World :=
  after (_reset None)
    (mkWorld (init (Some (FileStr "data.csv")) 1 monday_params []) []
       (one_file monday_rows) (mkRng (fun _ _ => half) half 0)).

(** A fresh instance over a file without rows. *)
Definition empty_file_world : World := fresh_world [] monday_params half.

(** A fresh instance over the Monday rows. *)
Definition fresh_monday_world : World :=
  fresh_world monday_rows monday_params half.

(** The fresh instance over the Monday rows after a summary that counts the
    rows. *)
Definition described_monday_world : World :=
  fst (snd (describe shape0 fresh_monday_world None)).

(** * Properties *)

(** ** Arithmetic of the draws *)

Lemma inject_Z_nonneg (m : Z) : 0 <= m -> (0 <= inject_Z m)%Q.
Proof. intros H. change 0%Q with (inject_Z 0). now rewrite <- Zle_Qle. Qed.

Lemma py_int_nonneg (x : Q) : (0 <= x)%Q -> py_int x = Qfloor x.
Proof.
  intros H. unfold py_int. apply Qle_bool_iff in H. now rewrite H.
Qed.

Lemma scaled_bounds (m : Z) (u : Q) :
  0 <= m -> (0 <= u)%Q -> (u <= 1)%Q ->
  (0 <= inject_Z m * u)%Q /\ (inject_Z m * u <= inject_Z m)%Q.
Proof.
  intros Hm H0 H1. pose proof (inject_Z_nonneg m Hm). split; nra.
Qed.

Lemma Qfloor_range (m : Z) (x : Q) :
  (0 <= x)%Q -> (x <= inject_Z m)%Q -> 0 <= Qfloor x <= m.
Proof.
  intros H0 H1. split.
  - change 0 with (Qfloor (inject_Z 0)). now apply Qfloor_resp_le.
  - rewrite <- (Qfloor_Z m). now apply Qfloor_resp_le.
Qed.

Lemma py_int_scaled (m : Z) (u : Q) :
  0 <= m -> (0 <= u)%Q -> (u <= 1)%Q -> 0 <= py_int (inject_Z m * u) <= m.
Proof.
  intros Hm H0 H1. destruct (scaled_bounds m u Hm H0 H1) as [Ha Hb].
  rewrite py_int_nonneg by assumption. now apply Qfloor_range.
Qed.

Lemma py_int_scaled_lt (m : Z) (u : Q) :
  0 < m -> (0 <= u)%Q -> (u < 1)%Q -> 0 <= py_int (inject_Z m * u) < m.
Proof.
  intros Hm H0 H1.
  assert (Hp : (0 < inject_Z m)%Q)
    by (change 0%Q with (inject_Z 0); now rewrite <- Zlt_Qlt).
  assert (Ha : (0 <= inject_Z m * u)%Q) by nra.
  assert (Hb : (inject_Z m * u < inject_Z m)%Q) by nra.
  rewrite py_int_nonneg by assumption. split.
  - change 0 with (Qfloor (inject_Z 0)). now apply Qfloor_resp_le.
  - pose proof (Qfloor_le (inject_Z m * u)) as Hf.
    assert (Hlt : (inject_Z (Qfloor (inject_Z m * u)) < inject_Z m)%Q)
      by (eapply Qle_lt_trans; eassumption).
    now rewrite <- Zlt_Qlt in Hlt.
Qed.

Lemma py_round_range (m : Z) (x : Q) :
  (0 <= x)%Q -> (x <= inject_Z m)%Q -> 0 <= py_round x <= m.
Proof.
  intros H0 H1. pose proof (Qfloor_range m x H0 H1) as [Hf0 Hfm].
  pose proof (Qfloor_le x) as Hle.
  unfold py_round.
  destruct (Qcompare_spec (x - inject_Z (Qfloor x)) (1 # 2)) as [He|Hl|Hg];
    try lia.
  - destruct (Z.even (Qfloor x)); [lia|].
    assert (Hlt : (inject_Z (Qfloor x) < inject_Z m)%Q) by lra.
    rewrite <- Zlt_Qlt in Hlt. lia.
  - assert (Hlt : (inject_Z (Qfloor x) < inject_Z m)%Q) by lra.
    rewrite <- Zlt_Qlt in Hlt. lia.
Qed.

Lemma py_round_scaled (m : Z) (u : Q) :
  0 <= m -> (0 <= u)%Q -> (u <= 1)%Q -> 0 <= py_round (inject_Z m * u) <= m.
Proof.
  intros Hm H0 H1. destruct (scaled_bounds m u Hm H0 H1) as [Ha Hb].
  now apply py_round_range.
Qed.

(** Every row below [m] is the truncation of some draw in [0, 1). *)
Lemma py_int_scaled_onto (m k : Z) :
  0 <= k < m ->
  (0 <= inject_Z k / inject_Z m)%Q /\ (inject_Z k / inject_Z m < 1)%Q /\
  py_int (inject_Z m * (inject_Z k / inject_Z m)) = k.
Proof.
  intros Hk.
  assert (Hm : (0 < inject_Z m)%Q)
    by (change 0%Q with (inject_Z 0); rewrite <- Zlt_Qlt; lia).
  assert (Hk0 : (0 <= inject_Z k)%Q) by (apply inject_Z_nonneg; lia).
  assert (Hkm : (inject_Z k < inject_Z m)%Q) by (rewrite <- Zlt_Qlt; lia).
  assert (Hne : ~ inject_Z m == 0) by lra.
  assert (He : inject_Z m * (inject_Z k / inject_Z m) == inject_Z k)
    by (now apply Qmult_div_r).
  split; [|split].
  - apply Qle_shift_div_l; [assumption|lra].
  - apply Qlt_shift_div_r; [assumption|lra].
  - rewrite py_int_nonneg by (rewrite He; assumption).
    rewrite (Qfloor_comp _ _ He). apply Qfloor_Z.
Qed.


(** ** Rules for calls *)

Lemma post_run {A} (m : M A) w r w' Q :
  post m w Q -> m w = (r, w') -> Q r w'.
Proof. unfold post. intros H E. now rewrite E in H. Qed.

Lemma post_mono {A} (m : M A) w (Q Q' : Result A -> World -> Prop) :
  post m w Q -> (forall r w', Q r w' -> Q' r w') -> post m w Q'.
Proof. unfold post. auto. Qed.

Lemma post_bind {A B} (m : M A) (k : A -> M B) w Q :
  post m w (fun r w1 =>
    match r with
    | Ok a => post (k a) w1 Q
    | Raise e n => Q (Raise e n) w1
    | OutOfFuel => Q OutOfFuel w1
    end) ->
  post (bind m k) w Q.
Proof. unfold post, bind. destruct (m w) as [[a|e n|] w1]; simpl; auto. Qed.

Lemma post_ret {A} (a : A) w Q : Q (Ok a) w -> post (ret a) w Q.
Proof. auto. Qed.

Lemma post_raise {A} e n w (Q : Result A -> World -> Prop) :
  Q (Raise e n) w -> post (raise e n) w Q.
Proof. auto. Qed.

Lemma post_out_of_fuel {A} w (Q : Result A -> World -> Prop) :
  Q OutOfFuel w -> post out_of_fuel w Q.
Proof. auto. Qed.

Lemma post_self w Q : Q (Ok (obj w)) w -> post self w Q.
Proof. auto. Qed.

Lemma post_file_system w Q : Q (Ok (files w)) w -> post file_system w Q.
Proof. auto. Qed.

Lemma post_assign f w Q :
  Q (Ok tt) (mkWorld (f (obj w)) (heap w) (files w) (rng w)) ->
  post (assign f) w Q.
Proof. auto. Qed.

Lemma post_assign_at l f w Q :
  Q (Ok tt) (mkWorld (obj w) (update_nth l f (heap w)) (files w) (rng w)) ->
  post (assign_at l f) w Q.
Proof. auto. Qed.

Lemma post_alloc o w Q :
  Q (Ok (length (heap w)))
    (mkWorld (obj w) (heap w ++ [o]) (files w) (rng w)) ->
  post (alloc o) w Q.
Proof. auto. Qed.

Lemma post_random_beta a b w Q :
  Q (Ok (beta (rng w) a b (pos (rng w))))
    (mkWorld (obj w) (heap w) (files w) (advance (rng w))) ->
  post (random_beta a b) w Q.
Proof. auto. Qed.

Lemma post_random_random w Q :
  Q (Ok (uniform (rng w) (pos (rng w))))
    (mkWorld (obj w) (heap w) (files w) (advance (rng w))) ->
  post random_random w Q.
Proof. auto. Qed.

(** One step of a call: the rule of its head operation, a case analysis on
    the value it branches on. *)
Ltac wp_step :=
  lazymatch goal with
  | |- post (bind _ _) _ _ => apply post_bind
  | |- post self _ _ => apply post_self
  | |- post file_system _ _ => apply post_file_system
  | |- post (ret _) _ _ => apply post_ret
  | |- post (raise _ _) _ _ => apply post_raise
  | |- post out_of_fuel _ _ => apply post_out_of_fuel
  | |- post (assign _) _ _ => apply post_assign
  | |- post (assign_at _ _) _ _ => apply post_assign_at
  | |- post (alloc _) _ _ => apply post_alloc
  | |- post (random_beta _ _) _ _ => apply post_random_beta
  | |- post random_random _ _ => apply post_random_random
  | |- post (py_assert _) _ _ => unfold py_assert
  | |- post (some_or _ _) _ _ => unfold some_or
  | |- post (index_first _) _ _ => unfold index_first
  | |- post (index_last _) _ _ => unfold index_last
  | |- post (loaded_data _) _ _ => unfold loaded_data
  | |- post (per_timeframe _ _) _ _ => unfold per_timeframe
  | |- post (new_sample _ _ _ _ _) _ _ => unfold new_sample
  | |- post (let _ := _ in _) _ _ => cbv zeta
  | |- post (match ?x with _ => _ end) _ _ => destruct x eqn:?
  | |- post (if ?c then _ else _) _ _ => destruct c eqn:?
  end; cbv beta iota.

Ltac wp := repeat wp_step.

(** ** Partition planning *)

Lemma read_csv_loaded fn w :
  post (read_csv fn) w (fun r w1 =>
    same_config (obj w) (obj w1) /\
    (r = Ok tt -> exists df, data (obj w1) = Some df)).
Proof.
  unfold read_csv. wp.
  all: simpl; unfold same_config; simpl.
  all: split; [tauto | try discriminate; eauto].
Qed.

Lemma reset_outcome fn w w1 df :
  read_csv fn w = (Ok tt, w1) -> data (obj w1) = Some df ->
  timeframe (obj w1) <> 0 ->
  let s := counted (obj w1) df in
  _reset fn w =
    if (sample_num_records s <=? train_num_records s)
       && (negb (0 <? test_num_records s)
           || (sample_num_records s <=? test_num_records s))
    then (Ok tt,
          with_obj (set_plan [0; train_num_records s]
                      [train_num_records s; shape0 df] s) w1)
    else (Raise AssertionError None, with_obj s w1).
Proof.
  intros Hload Hdf Htf s.
  unfold _reset. unfold bind at 1. rewrite Hload.
  cbv [bind self assign per_timeframe some_or py_assert ret raise].
  assert (E : (60 * timeframe (obj w1) =? 0) = false)
    by (apply Z.eqb_neq; lia).
  cbn [obj heap files rng]. rewrite E. cbv beta iota.
  cbn [obj heap files rng]. rewrite Hdf. cbv beta iota.
  cbn [obj heap files rng].
  subst s. unfold counted, rows_per, with_obj.
  cbn [sample_num_records train_num_records test_num_records set_split
       set_sample_num_records set_max_deltas timeframe sample_duration
       test_period time_gap].
  set (n := py_int _). set (tn := py_round _).
  destruct (n <=? shape0 df - tn); cbn [andb]; cbv beta iota; [|reflexivity].
  destruct (0 <? tn); cbn [negb orb]; cbv beta iota; [|reflexivity].
  destruct (n <=? tn); cbv beta iota; reflexivity.
Qed.

Lemma read_csv_config fn w r w1 :
  read_csv fn w = (r, w1) -> same_config (obj w) (obj w1).
Proof.
  intros H. exact (proj1 (post_run _ _ _ _ _ (read_csv_loaded fn w) H)).
Qed.

Lemma rows_per_nonneg (secs tf : Z) :
  0 <= secs -> 0 < tf -> (0 <= rows_per secs tf)%Q.
Proof.
  intros Hs Ht. unfold rows_per.
  assert (Hp : (0 < inject_Z (60 * tf))%Q)
    by (change 0%Q with (inject_Z 0); rewrite <- Zlt_Qlt; lia).
  pose proof (inject_Z_nonneg secs Hs).
  apply Qle_shift_div_l; [assumption|lra].
Qed.

(** C1.  Once the data is loaded ([read_csv] succeeds and holds [df]), with a
    positive timeframe and a sample duration that is not negative, [_reset]
    plans the partition from
    [testRowCount = round(test_period seconds / (60 * timeframe))],
    [trainRowCount = rowCount - testRowCount] and
    [episodeRowCount = floor(sample_duration seconds / (60 * timeframe))]:
    it succeeds whenever both subsets can hold one sample, and whenever it
    succeeds the instance is ready with [train_interval = [0, trainRowCount]]
    and [test_interval = [trainRowCount, rowCount]]. *)
Theorem reset_partition_plan fn w w1 df :
  read_csv fn w = (Ok tt, w1) -> data (obj w1) = Some df ->
  0 < timeframe (obj w) ->
  0 <= total_seconds (sample_duration (obj w)) ->
  let rowCount := shape0 df in
  let per_row := inject_Z (60 * timeframe (obj w)) in
  let episodeRowCount :=
    Qfloor (inject_Z (total_seconds (sample_duration (obj w))) / per_row) in
  let testRowCount :=
    py_round (inject_Z (total_seconds (test_period (obj w))) / per_row) in
  let trainRowCount := rowCount - testRowCount in
  (episodeRowCount <= trainRowCount ->
   (0 < testRowCount -> episodeRowCount <= testRowCount) ->
   exists w', _reset fn w = (Ok tt, w')) /\
  (forall w', _reset fn w = (Ok tt, w') ->
     data (obj w') = Some df /\ is_ready (obj w') = true /\
     sample_num_records (obj w') = episodeRowCount /\
     test_num_records (obj w') = testRowCount /\
     train_num_records (obj w') = trainRowCount /\
     train_interval (obj w') = [0; trainRowCount] /\
     test_interval (obj w') = [trainRowCount; rowCount]).
Proof.
  intros Hload Hdf Htf Hlen.
  destruct (read_csv_config _ _ _ _ Hload) as (Etf & Edur & _ & Etest & _).
  rewrite <- Etf in Htf. rewrite <- Edur in Hlen.
  rewrite <- Etf, <- Edur, <- Etest. cbv zeta.
  assert (Htf1 : timeframe (obj w1) <> 0) by lia.
  pose proof (reset_outcome fn w w1 df Hload Hdf Htf1) as Hout.
  cbv zeta in Hout. rewrite Hout. clear Hout.
  unfold counted.
  cbn [sample_num_records train_num_records test_num_records set_split
       set_sample_num_records set_max_deltas timeframe sample_duration
       test_period time_gap].
  rewrite py_int_nonneg by (apply rows_per_nonneg; lia).
  unfold rows_per.
  set (n := Qfloor _). set (tn := py_round _).
  split.
  - intros Htrain Htest.
    assert (E1 : (n <=? shape0 df - tn) = true) by (apply Z.leb_le; lia).
    rewrite E1. cbn [andb].
    destruct (0 <? tn) eqn:E2; cbn [negb orb]; [|eauto].
    apply Z.ltb_lt in E2.
    assert (E3 : (n <=? tn) = true) by (apply Z.leb_le; auto).
    rewrite E3. eauto.
  - intros w'.
    destruct ((n <=? shape0 df - tn) && (negb (0 <? tn) || (n <=? tn)));
      [|discriminate].
    intros H. inversion H; subst w'; clear H.
    unfold with_obj. cbn. rewrite Hdf. repeat split; reflexivity.
Qed.

(** A run of C1: the ten weekday rows, two-minute samples, no test period. *)
Lemma reset_partition_plan_witness :
  exists w',
    _reset None (fresh_world weekdays_rows sunday_params half) = (Ok tt, w') /\
    train_interval (obj w') = [0; 10] /\ test_interval (obj w') = [10; 10].
Proof.
  pose (w := fresh_world weekdays_rows sunday_params half).
  assert (Hload : read_csv None w = (Ok tt, after (read_csv None) w))
    by (vm_compute; reflexivity).
  assert (Hdf : data (obj (after (read_csv None) w)) = Some weekdays_rows)
    by (vm_compute; reflexivity).
  assert (Htf : 0 < timeframe (obj w)) by (vm_compute; reflexivity).
  assert (Hlen : 0 <= total_seconds (sample_duration (obj w))).
  { vm_compute; intro Hc; discriminate Hc. }
  destruct (reset_partition_plan None w _ _ Hload Hdf Htf Hlen)
    as [Hex Hplan].
  destruct Hex as [w' Hw'].
  - vm_compute; intro Hc; discriminate Hc.
  - intros Hc. vm_compute in Hc. discriminate Hc.
  - exists w'. split; [exact Hw'|].
    destruct (Hplan w' Hw') as (_ & _ & _ & _ & _ & Htr & Hte).
    split; [exact Htr | exact Hte].
Defined.

Lemma sample_not_ready get_new sample_type b_alpha b_beta w :
  is_ready (obj w) = false ->
  _sample get_new sample_type b_alpha b_beta w = (Raise AssertionError None, w).
Proof.
  intros H. unfold _sample, bind, self, py_assert. cbn [obj]. now rewrite H.
Qed.

(** C5, as the code has it.  Once the data is loaded and the timeframe is not
    0, [_reset] fails with its assertion error exactly when the train rows are
    fewer than the rows of one sample, or the test rows are more than 0 and
    fewer than that; such a failure leaves [is_ready] as it was before the
    call, so on an instance that was not ready every later [_sample] fails on
    its readiness assertion and changes nothing. *)
Theorem reset_failure_keeps_readiness fn w w1 df :
  read_csv fn w = (Ok tt, w1) -> data (obj w1) = Some df ->
  timeframe (obj w) <> 0 ->
  let per_row := inject_Z (60 * timeframe (obj w)) in
  let episodeRowCount :=
    py_int (inject_Z (total_seconds (sample_duration (obj w))) / per_row) in
  let testRowCount :=
    py_round (inject_Z (total_seconds (test_period (obj w))) / per_row) in
  let trainRowCount := shape0 df - testRowCount in
  ((exists w', _reset fn w = (Raise AssertionError None, w')) <->
   (trainRowCount < episodeRowCount \/
    (0 < testRowCount /\ testRowCount < episodeRowCount))) /\
  (forall n w', _reset fn w = (Raise AssertionError n, w') ->
     is_ready (obj w') = is_ready (obj w) /\
     (is_ready (obj w) = false ->
      forall get_new sample_type b_alpha b_beta,
        _sample get_new sample_type b_alpha b_beta w' =
          (Raise AssertionError None, w'))).
Proof.
  intros Hload Hdf Htf.
  destruct (read_csv_config _ _ _ _ Hload)
    as (Etf & Edur & _ & Etest & Eready & _).
  rewrite <- Etf in Htf.
  rewrite <- Etf, <- Edur, <- Etest, <- Eready. cbv zeta.
  pose proof (reset_outcome fn w w1 df Hload Hdf Htf) as Hout.
  cbv zeta in Hout. rewrite Hout. clear Hout.
  unfold counted, rows_per.
  cbn [sample_num_records train_num_records test_num_records set_split
       set_sample_num_records set_max_deltas timeframe sample_duration
       test_period time_gap].
  set (n := py_int _). set (tn := py_round _).
  destruct (n <=? shape0 df - tn) eqn:E1; cbn [andb].
  - apply Z.leb_le in E1.
    destruct (0 <? tn) eqn:E2; cbn [negb orb].
    + apply Z.ltb_lt in E2.
      destruct (n <=? tn) eqn:E3.
      * apply Z.leb_le in E3. split.
        -- split; [intros [w' H]; discriminate | lia].
        -- intros ? ? H; discriminate.
      * apply Z.leb_gt in E3. split.
        -- split; [intros _; lia | intros _; eauto].
        -- intros n0 w' H. inversion H; subst; clear H. split; [reflexivity|].
           intros Hr ? ? ? ?. now apply sample_not_ready.
    + apply Z.ltb_ge in E2. split.
      * split; [intros [w' H]; discriminate | lia].
      * intros ? ? H; discriminate.
  - apply Z.leb_gt in E1. split.
    + split; [intros _; lia | intros _; eauto].
    + intros n0 w' H. inversion H; subst; clear H. split; [reflexivity|].
      intros Hr ? ? ? ?. now apply sample_not_ready.
Qed.

(** A run of C5 as the code has it: a first load whose test period holds one row
    where a sample needs two. *)
Lemma reset_failure_keeps_readiness_witness :
  exists w',
    _reset None (fresh_world monday_rows short_test_params half)
      = (Raise AssertionError None, w') /\
    _sample true 0 1 1 w' = (Raise AssertionError None, w').
Proof.
  pose (w := fresh_world monday_rows short_test_params half).
  assert (Hload : read_csv None w = (Ok tt, after (read_csv None) w))
    by (vm_compute; reflexivity).
  assert (Hdf : data (obj (after (read_csv None) w)) = Some monday_rows)
    by (vm_compute; reflexivity).
  assert (Htf : timeframe (obj w) <> 0)
    by (vm_compute; intro Hc; discriminate Hc).
  destruct (reset_failure_keeps_readiness None w _ _ Hload Hdf Htf)
    as [[_ Hfail] Hkeep].
  destruct Hfail as [w' Hw'].
  - right. split; vm_compute; reflexivity.
  - exists w'. split; [exact Hw'|].
    destruct (Hkeep None w' Hw') as [_ Hs].
    apply Hs. vm_compute; reflexivity.
Defined.

(** C5 as stated fails: an instance that a first plan made ready, given a
    test period too short for one sample and planned again, fails to plan and
    stays ready with its old intervals; the next [_sample] does not fail on
    readiness but returns a sample. *)
Lemma reset_failure_stays_ready :
  is_ready (obj planned_monday_world) = true /\
  fst (_reset None changed_monday_world) = Raise AssertionError None /\
  is_ready (obj replanned_monday_world) = true /\
  fst (_sample true 0 1 1 replanned_monday_world) = Ok 0%nat.
Proof. vm_compute. repeat split; reflexivity. Qed.

(** ** The searches *)

Lemma drawn_0 w : drawn 0 w = w.
Proof. destruct w as [o h f [b u p]]. reflexivity. Qed.

Lemma drawn_1 w :
  mkWorld (obj w) (heap w) (files w) (advance (rng w)) = drawn 1 w.
Proof. reflexivity. Qed.

Lemma drawn_drawn k j w : drawn k (drawn j w) = drawn (k + j) w.
Proof. unfold drawn. cbn. now rewrite Nat.add_assoc. Qed.

Lemma In_firstn_inv {A} n (l : list A) x : In x (firstn n l) -> In x l.
Proof.
  revert l. induction n as [|n IH]; intros [|y l]; simpl; try tauto.
  intros [H|H]; auto.
Qed.

Lemma In_skipn_inv {A} n (l : list A) x : In x (skipn n l) -> In x l.
Proof.
  revert l. induction n as [|n IH]; intros [|y l]; simpl; try tauto.
  intros H; auto.
Qed.

Lemma py_slice_incl {A} (l : list A) a b x : In x (py_slice l a b) -> In x l.
Proof.
  unfold py_slice. intros H. apply In_firstn_inv in H.
  now apply In_skipn_inv in H.
Qed.

Lemma time_first_in df a b t :
  time_first (py_slice df a b) = Some t -> In t (map index df).
Proof.
  unfold time_first.
  destruct (py_slice df a b) as [|r rest] eqn:E; [discriminate|].
  intros H. inversion H; subst. apply in_map.
  apply (py_slice_incl df a b). rewrite E. now left.
Qed.

Lemma seek_exit (good : bool) att :
  negb good && (att <=? max_attempts) = false ->
  att <= max_attempts -> good = true.
Proof.
  intros H Hle. apply andb_false_iff in H. rewrite negb_false_iff in H.
  destruct H as [H|H]; [assumption|]. apply Z.leb_gt in H. lia.
Qed.

Lemma seek_enter (good : bool) att :
  negb good && (att <=? max_attempts) = true -> att <= max_attempts.
Proof. intros H. apply andb_prop in H as [_ H]. now apply Z.leb_le. Qed.

Lemma loop_fuel_enough att :
  0 <= att -> max_attempts + 1 - att <= Z.of_nat loop_fuel.
Proof. unfold loop_fuel, max_attempts. lia. Qed.

Ltac attempts := unfold max_attempts in *; lia.

(** The inner loop of [_sample_interval] ends: it only draws, once per
    attempt it adds, up to [max_attempts + 1] attempts; below that the day it
    stops on is an allowed weekday. *)
Lemma seek_weekday_interval_spec s df lo hi n a b fuel :
  forall fr d att w,
    max_attempts + 1 - att <= Z.of_nat fuel ->
    post (seek_weekday_interval fuel s df lo hi n a b fr d att) w
      (fun r w' =>
         exists k, w' = drawn k w /\
         match r with
         | Ok (_, d', att') =>
             att' = att + Z.of_nat k /\
             att' <= Z.max att (max_attempts + 1) /\
             (att' <= max_attempts ->
              py_in (weekday d') (start_weekdays s) = true) /\
             (In d (map index df) -> In d' (map index df))
         | Raise e m => e = IndexError /\ m = None
         | OutOfFuel => False
         end).
Proof.
  induction fuel as [|fuel IH]; intros fr d att w Hfuel;
    cbn [seek_weekday_interval]; wp_step.
  - apply seek_enter in Heqb0. lia.
  - wp_step. exists 0%nat. rewrite drawn_0. split; [reflexivity|].
    repeat split; try lia; eauto using seek_exit.
  - apply seek_enter in Heqb0. wp.
    + eapply post_mono; [apply IH; lia|].
      cbv beta. intros r w' [k [Hw Hr]].
      exists (S k). split.
      { rewrite Hw, drawn_1, drawn_drawn. f_equal. lia. }
      destruct r as [[[fr' d'] att']|e m|]; auto.
      destruct Hr as (Ha & Hb & Hc & Hd). repeat split; try lia; auto.
      intros _. apply Hd. eapply time_first_in; eauto.
    + exists 1%nat. split; [reflexivity|]. auto.
  - wp_step. exists 0%nat. rewrite drawn_0. split; [reflexivity|].
    repeat split; try lia; eauto using seek_exit.
Qed.

Lemma search_post_drawn prefix type j w r w' :
  search_post prefix type (drawn j w) r w' ->
  search_post prefix type w r w'.
Proof.
  destruct r as [l|e m|]; cbn; auto.
  - intros (k & ep & Hw & Hl & Hacc). exists (k + j)%nat, ep.
    split; [|split; assumption].
    rewrite Hw. unfold drawn_alloc. rewrite drawn_drawn. reflexivity.
  - intros [[k Hw] Hm]. split; [|assumption].
    exists (k + j)%nat. now rewrite Hw, drawn_drawn.
Qed.

Lemma sample_interval_loop_spec s df lo hi a b name fuel :
  data s = Some df ->
  forall att w,
    obj w = s ->
    0 <= att <= max_attempts + 1 ->
    max_attempts + 1 - att <= Z.of_nat fuel ->
    post (sample_interval_loop fuel s df lo hi (sample_num_records s)
            a b name att) w
      (search_post (name ++ "num_") "interval_sample" w).
Proof.
  intros Hdata.
  induction fuel as [|fuel IH]; intros att w Hobj Hatt Hfuel;
    cbn [sample_interval_loop]; wp_step.
  - apply Z.leb_le in Heqb0. attempts.
  - wp_step. apply Z.leb_gt in Heqb0. cbn. split.
    + exists 0%nat. now rewrite drawn_0.
    + intros _. f_equal. attempts.
  - apply Z.leb_le in Heqb0. do 6 wp_step.
    2:{ cbn. split; [exists 1%nat; reflexivity|congruence]. }
    do 2 wp_step.
    eapply post_mono;
      [apply seek_weekday_interval_spec; apply loop_fuel_enough; lia|].
    cbv beta. intros r w1 [k [Hw1 Hr]].
    rewrite drawn_1, drawn_drawn in Hw1.
    destruct r as [[[fr' d'] att']|e m|]; [| |contradiction].
    2:{ destruct Hr as [-> ->]. cbn. split; [eauto|congruence]. }
    destruct Hr as (Hatt' & Hmax & Hday & Hin).
    wp_step.
    { wp_step. apply negb_true_iff, Z.leb_gt in Heqb1. cbn. split; [eauto|].
      intros _. f_equal. attempts. }
    apply negb_false_iff, Z.leb_le in Heqb1.
    wp.
    all: try (cbn; split; [eauto|congruence]).
    + subst w1. cbn. eexists (k + 1)%nat, _. split; [reflexivity|].
      split; [reflexivity|].
      exists df, d', z. rewrite Hobj. split; [assumption|].
      unfold accepted_at. cbn.
      repeat split; auto.
      * apply Hin. eapply time_first_in; eauto.
      * exists (t0 - t1), z0, z1. unfold realized_duration.
        rewrite Heqo1, Heqo2. apply Z.ltb_lt in Heqb2. auto.
    + eapply post_mono; [apply IH; [subst w1; assumption|attempts..]|].
      cbv beta. intros r w' H. subst w1.
      eapply search_post_drawn; eauto.
  - wp_step. apply Z.leb_gt in Heqb0. cbn. split.
    + exists 0%nat. now rewrite drawn_0.
    + intros _. f_equal. attempts.
Qed.

(** [_sample_interval] always ends, in an accepted new sample or in an
    exception that left the instance and its objects as they were. *)
Lemma sample_interval_spec interval a b name w :
  post (_sample_interval interval a b name) w
    (search_post (name ++ "num_") "interval_sample" w).
Proof.
  unfold _sample_interval. wp.
  all: try (cbn; split; [exists 0%nat; now rewrite drawn_0|congruence]).
  eapply sample_interval_loop_spec; eauto.
  - attempts.
  - apply loop_fuel_enough; lia.
Qed.

(** ** Cached sampling *)

(** A fresh request runs the search of its type, then caches, stamps and
    counts what the search returned; what the search raised, it raises. *)
Lemma sample_fresh get_new sample_type b_alpha b_beta w :
  is_ready (obj w) = true -> py_in sample_type [0; 1] = true ->
  fresh_request get_new (obj w) ->
  _sample get_new sample_type b_alpha b_beta w =
    match dispatched sample_type b_alpha b_beta (obj w) w with
    | (Ok l, w1) => (Ok l, stamped sample_type l w1)
    | (Raise e m, w1) => (Raise e m, w1)
    | (OutOfFuel, w1) => (OutOfFuel, w1)
    end.
Proof.
  intros Hready Htype Hfresh.
  unfold _sample, dispatched.
  unfold bind at 1. unfold self at 1. cbv beta iota.
  unfold bind at 1. unfold py_assert at 1. rewrite Hready.
  unfold ret at 1. cbv beta iota.
  unfold bind at 1. unfold py_assert at 1. rewrite Htype.
  unfold ret at 1. cbv beta iota.
  assert (E : forall k : M loc,
             match sample_instance (obj w), get_new with
             | Some cached, false => ret cached
             | _, _ => k
             end = k).
  { intros k. destruct Hfresh as [-> | ->]; [|reflexivity].
    now destruct (sample_instance (obj w)). }
  rewrite E. unfold bind at 1.
  match goal with
  | |- _ = match ?c with _ => _ end => destruct c as [[l|e m|] w1]
  end; reflexivity.
Qed.

Lemma update_nth_last {A} (f : A -> A) (h : list A) (x : A) :
  update_nth (length h) f (h ++ [x]) = h ++ [f x].
Proof. induction h as [|y h IH]; cbn; [reflexivity | now rewrite IH]. Qed.

Lemma nth_error_last {A} (h : list A) (x : A) :
  nth_error (h ++ [x]) (length h) = Some x.
Proof. induction h as [|y h IH]; cbn; auto. Qed.

Lemma py_in_sample_type (sample_type : Z) :
  sample_type = 0 \/ sample_type = 1 -> py_in sample_type [0; 1] = true.
Proof. intros [-> | ->]; reflexivity. Qed.

(** C4.  On a ready instance that holds a cached sample, [_sample] with
    [get_new=False] (and a sample type of 0 or 1) returns the cached object
    and leaves the world as it was: the instance, its counter and metadata,
    and every object, the cached sample included; so two such calls in a row
    return the same object twice. *)
Theorem sample_reuse_cached w cached sample_type b_alpha b_beta :
  is_ready (obj w) = true ->
  sample_instance (obj w) = Some cached ->
  sample_type = 0 \/ sample_type = 1 ->
  _sample false sample_type b_alpha b_beta w = (Ok cached, w) /\
  (first <- _sample false sample_type b_alpha b_beta ;;
   second <- _sample false sample_type b_alpha b_beta ;;
   ret (first, second)) w = (Ok (cached, cached), w).
Proof.
  intros Hready Hcached Htype. apply py_in_sample_type in Htype.
  assert (H : _sample false sample_type b_alpha b_beta w = (Ok cached, w)).
  { unfold _sample, bind, self, py_assert, ret.
    rewrite Hready, Htype, Hcached. reflexivity. }
  split; [exact H|].
  unfold bind. rewrite H. rewrite H. reflexivity.
Qed.

(** A run of C4: a first sample of the Monday rows, then two reuses. *)
Lemma sample_reuse_cached_witness :
  (first <- _sample false 0 1 1 ;;
   second <- _sample false 0 1 1 ;;
   ret (first, second)) sampled_monday_world
  = (Ok (0%nat, 0%nat), sampled_monday_world).
Proof.
  refine (proj2 (sample_reuse_cached sampled_monday_world 0%nat 0 1 1 _ _ _)).
  - vm_compute; reflexivity.
  - vm_compute; reflexivity.
  - left; reflexivity.
Defined.

Lemma dispatched_spec sample_type b_alpha b_beta w :
  exists prefix,
    post (dispatched sample_type b_alpha b_beta (obj w)) w
      (search_post prefix "interval_sample" w).
Proof.
  unfold dispatched. destruct (sample_type =? 0); eexists;
    apply sample_interval_spec.
Qed.

(** Every outcome of [_sample]: an exception with nothing assigned, the
    cached sample with nothing assigned, or a new accepted sample, cached,
    stamped and counted. *)
Lemma sample_outcome get_new sample_type b_alpha b_beta w r w' :
  _sample get_new sample_type b_alpha b_beta w = (r, w') ->
  match r with
  | Raise _ _ => obj w' = obj w /\ heap w' = heap w
  | Ok l =>
      (w' = w /\ sample_instance (obj w) = Some l) \/
      (exists k ep prefix,
         w' = stamped sample_type l (drawn_alloc k ep w) /\
         l = length (heap w) /\
         accepted (obj w) prefix "interval_sample" ep)
  | OutOfFuel => False
  end.
Proof.
  intros H.
  destruct (is_ready (obj w)) eqn:Hready.
  2:{ rewrite sample_not_ready in H by assumption.
      inversion H; subst. auto. }
  destruct (py_in sample_type [0; 1]) eqn:Htype.
  2:{ unfold _sample, bind, self, py_assert, ret, raise in H.
      rewrite Hready, Htype in H. inversion H; subst. auto. }
  assert (Hcase : fresh_request get_new (obj w) \/
                  exists l, get_new = false /\ sample_instance (obj w) = Some l).
  { unfold fresh_request. destruct get_new; [auto|].
    destruct (sample_instance (obj w)); eauto. }
  destruct Hcase as [Hfresh | (l & -> & Hcached)].
  - rewrite sample_fresh in H by assumption.
    destruct (dispatched_spec sample_type b_alpha b_beta w) as [prefix Hd].
    unfold post in Hd.
    destruct (dispatched sample_type b_alpha b_beta (obj w) w)
      as [[l|e m|] w1]; cbn in Hd; inversion H; subst; clear H.
    + right. destruct Hd as (k & ep & -> & Hl & Hacc). eauto 6.
    + destruct Hd as [[k ->] _]. auto.
    + contradiction.
  - unfold _sample, bind, self, py_assert, ret in H.
    rewrite Hready, Htype, Hcached in H. inversion H; subst. auto.
Qed.

(** C9.  Whatever [_sample] raises, it raises before it assigns anything: the
    instance (cached sample, sample counter, metadata) and every object are
    as before the call.  A call that changed any of them has returned a
    sample: a new object made of accepted rows, which it cached, stamped and
    counted. *)
Theorem sample_all_or_nothing get_new sample_type b_alpha b_beta w r w' :
  _sample get_new sample_type b_alpha b_beta w = (r, w') ->
  (forall e m, r = Raise e m -> obj w' = obj w /\ heap w' = heap w) /\
  r <> OutOfFuel /\
  (obj w' <> obj w \/ heap w' <> heap w ->
   exists l ep found prefix,
     r = Ok l /\ sample_at l w' = Some ep /\
     sample_instance (obj w') = Some l /\
     sample_num (obj w') = sample_num (obj w) + 1 /\
     accepted (obj w) prefix "interval_sample" found /\
     data ep = data found).
Proof.
  intros H. pose proof (sample_outcome _ _ _ _ _ _ _ H) as Hs.
  split; [|split].
  - intros e m ->. exact Hs.
  - intros ->. exact Hs.
  - intros Hchanged. destruct r as [l|e m|]; [| |contradiction].
    + destruct Hs as [[-> _] | (k & ep & prefix & -> & -> & Hacc)].
      * destruct Hchanged as [Hc|Hc]; now elim Hc.
      * eexists _, _, ep, prefix. split; [reflexivity|].
        unfold sample_at, stamped, drawn_alloc. cbn [heap obj].
        rewrite update_nth_last, nth_error_last.
        repeat split; try reflexivity. assumption.
    + destruct Hs as [Ho Hh]. destruct Hchanged as [Hc|Hc]; now elim Hc.
Qed.

(** A run of C9: the search over the weekday rows, which have no Sunday,
    gives up; the instance and the heap are as the planning left them. *)
Lemma sample_all_or_nothing_witness :
  fst (_sample true 0 1 1 (planned_weekdays_world half))
    = Raise RuntimeError (Some 101) /\
  obj (after (_sample true 0 1 1) (planned_weekdays_world half))
    = obj (planned_weekdays_world half) /\
  heap (after (_sample true 0 1 1) (planned_weekdays_world half))
    = heap (planned_weekdays_world half).
Proof.
  set (w := planned_weekdays_world half).
  assert (E : _sample true 0 1 1 w
              = (Raise RuntimeError (Some 101), after (_sample true 0 1 1) w))
    by (vm_compute; reflexivity).
  split; [now rewrite E|].
  exact (proj1 (sample_all_or_nothing true 0 1 1 w _ _ E) _ _ eq_refl).
Defined.

Lemma sample_fresh_from get_new sample_type b_alpha b_beta w r w1 :
  is_ready (obj w) = true -> py_in sample_type [0; 1] = true ->
  fresh_request get_new (obj w) ->
  dispatched sample_type b_alpha b_beta (obj w) w = (r, w1) ->
  _sample get_new sample_type b_alpha b_beta w =
    match r with
    | Ok l => (Ok l, stamped sample_type l w1)
    | _ => (r, w1)
    end.
Proof.
  intros Hready Htype Hfresh Hd.
  rewrite sample_fresh by assumption. rewrite Hd.
  destruct r; reflexivity.
Qed.

(** C8.  On a ready instance, a request that makes a new sample is decided by
    one search: for [sample_type = 1] the search of [test_interval] with
    parameters (1, 1) and the name prefix "test_", whatever [b_alpha] and
    [b_beta] the caller gave; for [sample_type = 0] the search of
    [train_interval] with the caller's [b_alpha] and [b_beta] and the prefix
    "train_".  What the search returns is cached, stamped and counted; what
    it raises is raised. *)
Theorem sample_dispatch get_new b_alpha b_beta w :
  is_ready (obj w) = true ->
  fresh_request get_new (obj w) ->
  (forall r w1,
     _sample_interval (test_interval (obj w)) 1 1
       ("test_" ++ sample_name (obj w)) w = (r, w1) ->
     _sample get_new 1 b_alpha b_beta w =
       match r with Ok l => (Ok l, stamped 1 l w1) | _ => (r, w1) end) /\
  (forall r w1,
     _sample_interval (train_interval (obj w)) b_alpha b_beta
       ("train_" ++ sample_name (obj w)) w = (r, w1) ->
     _sample get_new 0 b_alpha b_beta w =
       match r with Ok l => (Ok l, stamped 0 l w1) | _ => (r, w1) end) /\
  (forall b_alpha' b_beta',
     _sample get_new 1 b_alpha b_beta w = _sample get_new 1 b_alpha' b_beta' w).
Proof.
  intros Hready Hfresh. split; [|split].
  - intros r w1 H. now apply sample_fresh_from.
  - intros r w1 H. now apply sample_fresh_from.
  - intros a' b'. rewrite !sample_fresh by (assumption || reflexivity).
    reflexivity.
Qed.

(** A run of C8 on six rows whose last two are the test set: a test request
    with parameters the train search would refuse returns the sample the
    (1, 1) search of the test interval finds. *)
Lemma sample_dispatch_witness :
  test_interval (obj planned_test_world) = [4; 6] /\
  fst (_sample true 1 0 (-1 # 1) planned_test_world) = Ok 0%nat /\
  fst (_sample true 0 0 (-1 # 1) planned_test_world)
    = Raise AssertionError None /\
  _sample true 1 0 (-1 # 1) planned_test_world
    = _sample true 1 1 1 planned_test_world.
Proof.
  set (w := planned_test_world).
  assert (Hready : is_ready (obj w) = true) by (vm_compute; reflexivity).
  assert (Hfresh : fresh_request true (obj w)) by (left; reflexivity).
  destruct (sample_dispatch true 0 (-1 # 1) w Hready Hfresh)
    as (Htest & Htrain & Hsame).
  split; [vm_compute; reflexivity|].
  split; [|split].
  - rewrite (Htest _ _ (surjective_pairing _)). vm_compute. reflexivity.
  - rewrite (Htrain _ _ (surjective_pairing _)). vm_compute. reflexivity.
  - apply Hsame.
Defined.

Lemma accepted_nonempty s prefix type ep :
  accepted s prefix type ep ->
  exists r rows, data ep = Some (r :: rows).
Proof.
  intros (df & cand & first_row & _ & Hacc).
  destruct Hacc as (_ & _ & _ & Hdata & _ & _ & _ & d & l & g & Hd & _).
  rewrite Hdata. unfold realized_duration, time_last in Hd.
  destruct (py_slice df first_row (first_row + sample_num_records s))
    as [|r rows]; [discriminate|eauto].
Qed.

(** C10.  On an instance with no cached sample, [_sample] with
    [get_new=False] is [_sample] with [get_new=True]: it never returns
    nothing; whenever the search of the requested type finds a sample, it
    returns it; and what it returns is a new object with rows, cached in
    [sample_instance], stamped with the sample type, the sample number and
    the instance's own [sample_num] and [type] metadata as its parent's, the
    instance's counter being one more than before. *)
Theorem sample_without_cache sample_type b_alpha b_beta w :
  sample_instance (obj w) = None ->
  _sample false sample_type b_alpha b_beta w
    = _sample true sample_type b_alpha b_beta w /\
  (is_ready (obj w) = true -> sample_type = 0 \/ sample_type = 1 ->
   forall l w1,
     dispatched sample_type b_alpha b_beta (obj w) w = (Ok l, w1) ->
     _sample false sample_type b_alpha b_beta w
       = (Ok l, stamped sample_type l w1)) /\
  (forall l w',
     _sample false sample_type b_alpha b_beta w = (Ok l, w') ->
     l = length (heap w) /\
     sample_instance (obj w') = Some l /\
     sample_num (obj w') = sample_num (obj w) + 1 /\
     exists ep r rows,
       nth_error (heap w') l = Some ep /\
       data ep = Some (r :: rows) /\
       md_sample_num (metadata ep) = PyInt (sample_num (obj w)) /\
       md_type (metadata ep) = PyInt sample_type /\
       md_parent_sample_num (metadata ep)
         = Some (md_sample_num (metadata (obj w))) /\
       md_parent_sample_type (metadata ep)
         = Some (md_type (metadata (obj w)))).
Proof.
  intros Hnone. split; [|split].
  - unfold _sample, bind, self. rewrite Hnone. reflexivity.
  - intros Hready Htype l w1 Hd. apply py_in_sample_type in Htype.
    rewrite (sample_fresh_from false sample_type b_alpha b_beta w _ _
               Hready Htype (or_intror Hnone) Hd).
    reflexivity.
  - intros l w' H.
    pose proof (sample_outcome _ _ _ _ _ _ _ H) as Hs. cbn in Hs.
    destruct Hs as [[_ Hc] | (k & ep & prefix & -> & Hl & Hacc)];
      [congruence|].
    destruct (accepted_nonempty _ _ _ _ Hacc) as (r & rows & Hdata).
    subst l. cbn. repeat split.
    exists (stamp sample_type (set_sample_instance (Some (length (heap w)))
                                 (obj w)) ep), r, rows.
    rewrite update_nth_last, nth_error_last. cbn.
    repeat split. exact Hdata.
Qed.

(** A run of C10: the first request on the Monday rows, with
    [get_new=False]. *)
Lemma sample_without_cache_witness :
  exists w',
    _sample false 0 1 1 planned_monday_world = (Ok 0%nat, w') /\
    sample_instance (obj w') = Some 0%nat /\
    sample_num (obj w') = 1.
Proof.
  set (w := planned_monday_world).
  assert (Hnone : sample_instance (obj w) = None) by (vm_compute; reflexivity).
  destruct (sample_without_cache 0 1 1 w Hnone) as (_ & Hfound & Hnew).
  assert (Hd : dispatched 0 1 1 (obj w) w
               = (Ok 0%nat, after (dispatched 0 1 1 (obj w)) w))
    by (vm_compute; reflexivity).
  assert (Hready : is_ready (obj w) = true) by (vm_compute; reflexivity).
  pose proof (Hfound Hready (or_introl eq_refl) _ _ Hd) as Hrun.
  eexists. split; [exact Hrun|].
  destruct (Hnew _ _ Hrun) as (_ & Hc & Hn & _).
  split; [exact Hc|]. rewrite Hn. vm_compute. reflexivity.
Defined.

(** ** Exhaustion of the search *)

Lemma py_slice_row {A} (l : list A) i :
  0 <= i < Z.of_nat (length l) ->
  exists r, py_slice l i (i + 1) = [r] /\ nth_error l (Z.to_nat i) = Some r.
Proof.
  intros Hi. unfold py_slice, slice_bound.
  assert (E1 : (i <? 0) = false) by (apply Z.ltb_ge; lia).
  assert (E2 : (i + 1 <? 0) = false) by (apply Z.ltb_ge; lia).
  rewrite E1, E2.
  replace (Z.min (i + 1) (Z.of_nat (length l)) - Z.min i (Z.of_nat (length l)))
    with 1 by lia.
  replace (Z.min i (Z.of_nat (length l))) with i by lia.
  pose proof (hd_error_skipn (Z.to_nat i) l) as Hhd.
  destruct (nth_error l (Z.to_nat i)) as [r|] eqn:En.
  - exists r. split; [|reflexivity].
    destruct (skipn (Z.to_nat i) l) as [|x rest]; [discriminate|].
    cbn in Hhd. inversion Hhd; subst. reflexivity.
  - apply nth_error_None in En. lia.
Qed.

Lemma time_first_row df i :
  0 <= i < shape0 df ->
  exists t, time_first (py_slice df i (i + 1)) = Some t /\ In t (map index df).
Proof.
  intros Hi. destruct (py_slice_row df i Hi) as (r & Hs & Hn).
  exists (index r). rewrite Hs. split; [reflexivity|].
  apply in_map. eapply nth_error_In; eauto.
Qed.

Lemma seek_weekday_interval_exhausts s df lo hi n a b fuel :
  no_start_day s df ->
  0 <= lo -> 0 <= hi - lo - n -> hi - n < shape0 df ->
  forall fr d att w,
    unit_draws a b w ->
    In d (map index df) ->
    att <= max_attempts + 1 ->
    max_attempts + 1 - att <= Z.of_nat fuel ->
    post (seek_weekday_interval fuel s df lo hi n a b fr d att) w
      (fun r w' =>
         w' = drawn (Z.to_nat (max_attempts + 1 - att)) w /\
         exists fr' d', r = Ok (fr', d', max_attempts + 1)).
Proof.
  intros Hno Hlo Hspan Hhi.
  induction fuel as [|fuel IH]; intros fr d att w Hu Hd Hatt Hfuel;
    cbn [seek_weekday_interval]; rewrite (Hno d Hd); cbn [negb andb];
    wp_step.
  - apply Z.leb_le in Heqb0. lia.
  - wp_step. apply Z.leb_gt in Heqb0.
    replace (max_attempts + 1 - att) with 0 by lia.
    rewrite drawn_0. split; [reflexivity|].
    exists fr, d. repeat f_equal. lia.
  - apply Z.leb_le in Heqb0. do 3 wp_step.
    destruct (Hu (pos (rng w))) as [Hu0 Hu1].
    pose proof (py_round_scaled (hi - lo - n) _ Hspan Hu0 Hu1) as Hr.
    destruct (time_first_row df
                (interval_redraw_row lo hi n (beta (rng w) a b (pos (rng w)))))
      as (t & Ht & Hin).
    { unfold interval_redraw_row. lia. }
    unfold index_first. rewrite Ht. do 2 wp_step.
    eapply post_mono.
    { apply IH; try assumption; try lia. }
    cbv beta. intros r w' [-> Hr']. split; [|assumption].
    rewrite drawn_1, drawn_drawn. f_equal. lia.
  - wp_step. apply Z.leb_gt in Heqb0.
    replace (max_attempts + 1 - att) with 0 by lia.
    rewrite drawn_0. split; [reflexivity|].
    exists fr, d. repeat f_equal. lia.
Qed.

Lemma post_eq {A} (m : M A) w r0 w0 :
  post m w (fun r w' => r = r0 /\ w' = w0) -> m w = (r0, w0).
Proof.
  unfold post. intros [Hr Hw]. rewrite (surjective_pairing (m w)).
  now rewrite Hr, Hw.
Qed.

(** With no record on an allowed weekday, the search of an interval that can
    hold a sample draws once, redraws [max_attempts + 1] times and gives up
    with its counter at [max_attempts + 1]. *)
Lemma sample_interval_exhausts lo hi a b name w df :
  data (obj w) = Some df ->
  no_start_day (obj w) df ->
  0 <= lo < hi -> hi <= shape0 df ->
  Qltb 0 a = true -> Qltb 0 b = true ->
  1 <= sample_num_records (obj w) <= hi - lo ->
  unit_draws a b w ->
  _sample_interval [lo; hi] a b name w =
    (Raise RuntimeError (Some (max_attempts + 1)),
     drawn (Z.to_nat (max_attempts + 2)) w).
Proof.
  intros Hdata Hno Hlo Hhi Ha Hb Hn Hu. apply post_eq.
  unfold _sample_interval. do 2 wp_step. unfold loaded_data. rewrite Hdata.
  destruct df as [|r0 rest] eqn:Edf.
  { cbn in Hhi. lia. }
  rewrite <- Edf in *. clear Edf r0 rest.
  do 2 wp_step. cbn [length Nat.eqb]. do 3 wp_step. rewrite Ha, Hb. cbn [andb].
  do 3 wp_step. cbn [nth last].
  assert (E1 : (lo <? hi) && (hi <=? shape0 df) = true).
  { apply andb_true_intro. split; [apply Z.ltb_lt|apply Z.leb_le]; lia. }
  rewrite E1. do 1 wp_step.
  change loop_fuel with (S (Nat.pred loop_fuel)).
  cbn [sample_interval_loop]. change (0 <=? max_attempts) with true.
  cbv beta iota. do 3 wp_step.
  destruct (Hu (pos (rng w))) as [Hu0 Hu1].
  assert (Hspan : 0 <= hi - lo - sample_num_records (obj w)) by lia.
  pose proof (py_int_scaled _ _ Hspan Hu0 Hu1) as Hr.
  destruct (time_first_row df
              (interval_first_row lo hi (sample_num_records (obj w))
                 (beta (rng w) a b (pos (rng w)))))
    as (t & Ht & Hin).
  { unfold interval_first_row. lia. }
  unfold index_first. rewrite Ht. do 3 wp_step.
  eapply post_mono.
  { apply seek_weekday_interval_exhausts; try assumption; try lia.
    - unfold max_attempts; lia.
    - unfold loop_fuel, max_attempts; lia. }
  cbv beta. intros r w' [-> (fr' & d' & ->)].
  change (negb (max_attempts + 1 <=? max_attempts)) with true. cbv beta iota.
  wp_step. split; [reflexivity|].
  rewrite drawn_1, drawn_drawn. reflexivity.
Qed.

Lemma no_start_day_check s df :
  forallb (fun r => negb (py_in (weekday (index r)) (start_weekdays s))) df
    = true ->
  no_start_day s df.
Proof.
  intros H t Hin. apply in_map_iff in Hin as (r & <- & Hr).
  rewrite forallb_forall in H. apply negb_true_iff. now apply H.
Qed.

(** C3, on the code.  Ten rows from Monday to Friday, samples that may only
    start on a Sunday: whatever the draws (in [0, 1]), the search of the
    whole file gives up with its one counter at 101, after 102 draws: the
    first one, which is not counted, and 101 counted redraws. *)
Theorem sample_interval_exhausts_at_101 (draws : nat -> Q) name :
  (forall k, (0 <= draws k)%Q /\ (draws k <= 1)%Q) ->
  _sample_interval [0; 10] 1 1 name (planned_weekdays_world draws)
    = (Raise RuntimeError (Some 101),
       drawn 102 (planned_weekdays_world draws)).
Proof.
  intros Hdraws. set (w := planned_weekdays_world draws).
  apply (sample_interval_exhausts 0 10 1 1 name w weekdays_rows).
  - reflexivity.
  - apply no_start_day_check. reflexivity.
  - lia.
  - cbn. lia.
  - reflexivity.
  - reflexivity.
  - cbn. lia.
  - intros k. apply Hdraws.
Qed.

Lemma sample_interval_exhausts_at_101_witness :
  _sample_interval [0; 10] 1 1 "train_" (planned_weekdays_world half)
    = (Raise RuntimeError (Some 101),
       drawn 102 (planned_weekdays_world half)).
Proof.
  apply (sample_interval_exhausts_at_101 half).
  intros k. split; discriminate.
Defined.

(** ** Accepted samples *)

(** The nearest row to a timestamp the index holds is a row with that
    timestamp. *)
Lemma nearest_from_exact rest :
  forall pre t i best bestd x,
    i = Z.of_nat (length pre) ->
    0 <= best < i ->
    nth_error pre (Z.to_nat best) = Some x ->
    bestd = Z.abs (x - t) ->
    bestd = 0 \/ In t rest ->
    let r := nearest_from rest t i best bestd in
    0 <= r < Z.of_nat (length (pre ++ rest)) /\
    nth_error (pre ++ rest) (Z.to_nat r) = Some t.
Proof.
  induction rest as [|y rest IH]; intros pre t i best bestd x Hi Hb Hx Hd Ht;
    cbn [nearest_from].
  - destruct Ht as [Ht|[]]. rewrite app_nil_r. split; [lia|].
    rewrite Hx. f_equal. lia.
  - replace (pre ++ y :: rest) with ((pre ++ [y]) ++ rest)
      by (now rewrite <- app_assoc).
    destruct (Z.abs (y - t) <? bestd) eqn:E.
    + apply Z.ltb_lt in E.
      apply (IH (pre ++ [y]) t (i + 1) i (Z.abs (y - t)) y).
      * rewrite length_app. cbn. lia.
      * lia.
      * subst i. rewrite Nat2Z.id. apply nth_error_last.
      * reflexivity.
      * destruct Ht as [Ht|[Ht|Ht]]; [lia | left; lia | now right].
    + apply Z.ltb_ge in E.
      apply (IH (pre ++ [y]) t (i + 1) best bestd x).
      * rewrite length_app. cbn. lia.
      * lia.
      * rewrite nth_error_app1 by lia. assumption.
      * assumption.
      * destruct Ht as [Ht|[Ht|Ht]]; [now left | left; lia | now right].
Qed.

Lemma get_loc_nearest_exact idx t r :
  In t idx -> get_loc_nearest idx t = Some r ->
  0 <= r < Z.of_nat (length idx) /\ nth_error idx (Z.to_nat r) = Some t.
Proof.
  destruct idx as [|x rest]; [contradiction|]. intros Hin H.
  cbn in H. inversion H; subst; clear H.
  apply (nearest_from_exact rest [x] t 1 0 (Z.abs (x - t)) x);
    try reflexivity; try (cbn; lia).
  destruct Hin as [->|Hin]; [left; lia | now right].
Qed.

Lemma py_slice_head {A} (l : list A) i j x rest :
  0 <= i -> py_slice l i j = x :: rest -> nth_error l (Z.to_nat i) = Some x.
Proof.
  unfold py_slice, slice_bound. intros Hi H.
  assert (E : (i <? 0) = false) by (apply Z.ltb_ge; lia).
  rewrite E in H.
  set (len := Z.of_nat (length l)) in *.
  destruct (Z_lt_le_dec i len) as [Hlt|Hge].
  - replace (Z.min i len) with i in H by lia.
    rewrite <- hd_error_skipn.
    destruct (skipn (Z.to_nat i) l) as [|y ys].
    + now rewrite firstn_nil in H.
    + destruct (Z.to_nat _) in H; cbn in H; [discriminate|].
      inversion H; subst. reflexivity.
  - replace (Z.min i len) with len in H by lia.
    rewrite skipn_all2 in H by (subst len; lia).
    now rewrite firstn_nil in H.
Qed.

(** The duration of an accepted sample exceeds the nominal one by less than
    the tolerated gap. *)
Lemma accepted_within_gap s prefix type ep :
  accepted s prefix type ep ->
  exists rows duration len gap,
    data ep = Some rows /\ realized_duration rows = Some duration /\
    max_sample_len_delta s = Some len /\ max_time_gap s = Some gap /\
    duration - len < gap.
Proof.
  intros (df & cand & first_row & _ & Hacc).
  destruct Hacc as (_ & _ & _ & Hdata & _ & _ & _ & d & l & g & Hd & Hrest).
  eauto 10.
Qed.

(** Without midnight alignment, an accepted sample starts on an allowed
    weekday: its first row has the timestamp of the candidate record. *)
Lemma accepted_start_weekday s prefix type ep :
  start_00 s = false ->
  accepted s prefix type ep ->
  exists day,
    first_weekday ep = Some day /\ py_in day (start_weekdays s) = true.
Proof.
  intros H00 (df & cand & first_row & _ & Hacc).
  destruct Hacc as (Hin & Hday & Hnear & Hdata & _ & _ & _ & d & _ & _ & Hd & _).
  unfold anchor_of in Hnear. rewrite H00 in Hnear. cbn in Hnear.
  destruct (get_loc_nearest_exact _ _ _ Hin Hnear) as [Hrange Hnth].
  unfold first_weekday. rewrite Hdata.
  unfold realized_duration, time_last in Hd.
  destruct (py_slice df first_row (first_row + sample_num_records s))
    as [|r rows] eqn:E; [discriminate|].
  apply py_slice_head in E; [|lia].
  apply (map_nth_error index) in E. rewrite Hnth in E.
  inversion E; subst. eauto.
Qed.

(** What [_sample_interval] returns is a new sample within the gap
    tolerance, which starts on an allowed weekday when [start_00] is off. *)
Lemma sample_interval_accepts interval a b name w l w' :
  _sample_interval interval a b name w = (Ok l, w') ->
  exists ep,
    sample_at l w' = Some ep /\
    (exists rows duration len gap,
       data ep = Some rows /\ realized_duration rows = Some duration /\
       max_sample_len_delta (obj w) = Some len /\
       max_time_gap (obj w) = Some gap /\ duration - len < gap) /\
    (start_00 (obj w) = false ->
     exists day,
       first_weekday ep = Some day /\
       py_in day (start_weekdays (obj w)) = true).
Proof.
  intros H.
  pose proof (post_run _ _ _ _ _ (sample_interval_spec interval a b name w) H)
    as (k & ep & -> & -> & Hacc).
  exists ep. unfold sample_at, drawn_alloc. cbn [heap].
  rewrite nth_error_last. split; [reflexivity|]. split.
  - eapply accepted_within_gap; eauto.
  - intros H00. eapply accepted_start_weekday; eauto.
Qed.

(** C2, on the code.  The last two records of a Sunday, then Monday from
    00:05 on; samples may only start on a Monday, at midnight.  The candidate
    drawn is the Monday 00:05 record (row 2), its midnight is nearest to the
    Sunday 23:59 record (row 1), and the sample made of rows 1 and 2 is
    accepted (its six minutes exceed the nominal two by less than the hour
    allowed): a sample within the gap tolerance whose first row is a Sunday,
    weekday 6, which is not in [start_weekdays]. *)
Theorem midnight_snap_starts_on_sunday :
  start_weekdays (obj planned_gap_world) = [0] /\
  start_00 (obj planned_gap_world) = true /\
  fst (_sample_interval [0; 6] 1 1 "train_" planned_gap_world) = Ok 0%nat /\
  option_map (fun ep => md_first_row (metadata ep))
    (sample_at 0%nat
       (after (_sample_interval [0; 6] 1 1 "train_") planned_gap_world))
    = Some (Some (PyInt 1)) /\
  option_map first_weekday
    (sample_at 0%nat
       (after (_sample_interval [0; 6] 1 1 "train_") planned_gap_world))
    = Some (Some 6) /\
  py_in 6 (start_weekdays (obj planned_gap_world)) = false.
Proof. vm_compute. repeat split; reflexivity. Qed.

(** C6, on the code.  The first draw truncates, the redraws round: for an
    interval of five rows and samples of two, a draw of one half gives row 1
    at the first draw and row 2 at a redraw.  On the Monday rows, whose row 0
    is a Sunday, a first draw of 0 is refused and the redraw of one half
    makes the sample start at row 2. *)
Theorem interval_redraw_rounds :
  interval_first_row 0 5 2 (1 # 2) = 1 /\
  interval_redraw_row 0 5 2 (1 # 2) = 2 /\
  fst (_sample_interval [0; 5] 1 1 "train_" planned_redraw_world)
    = Ok 0%nat /\
  pos (rng (after (_sample_interval [0; 5] 1 1 "train_")
              planned_redraw_world)) = 2%nat /\
  option_map (fun ep => md_first_row (metadata ep))
    (sample_at 0%nat
       (after (_sample_interval [0; 5] 1 1 "train_") planned_redraw_world))
    = Some (Some (PyInt 2)).
Proof. vm_compute. repeat split; reflexivity. Qed.

(** ** The random search and the interval search *)

Lemma first_row_agree rows n u :
  random_first_row rows n u = interval_first_row 0 (rows - 1) n u.
Proof.
  unfold random_first_row, interval_first_row.
  replace (rows - 1 - 0 - n) with (rows - n - 1) by lia. lia.
Qed.

Lemma draws_agree_drawn rows n k w :
  draws_agree rows n w -> draws_agree rows n (drawn k w).
Proof. intros H j Hj. apply H. cbn in Hj. lia. Qed.

Lemma same_search_refl_raise e m w :
  same_search (@Raise loc e m, w) (Raise e m, w).
Proof. cbn. auto. Qed.

Lemma same_search_bind {A} (m : M A) (k_r k_i : A -> M loc) w :
  (forall a w1, m w = (Ok a, w1) -> same_search (k_r a w1) (k_i a w1)) ->
  same_search (bind m k_r w) (bind m k_i w).
Proof.
  intros H. unfold bind. destruct (m w) as [[a|e n|] w1]; cbn; auto.
Qed.

Lemma bind_random_agree {B} rows n (k : Q -> M B) w :
  draws_agree rows n w ->
  bind random_random k w = bind (random_beta 1 1) k w.
Proof.
  intros H. unfold bind, random_random, random_beta.
  now rewrite (proj1 (H _ (Nat.le_refl _))).
Qed.

Lemma random_beta_run a b w u w1 :
  random_beta a b w = (Ok u, w1) ->
  u = beta (rng w) a b (pos (rng w)) /\ w1 = drawn 1 w.
Proof. unfold random_beta. intros H. inversion H. auto. Qed.

Lemma seek_weekday_random_interval s df fuel :
  forall fr d att w,
    draws_agree (shape0 df) (sample_num_records s) w ->
    seek_weekday_random fuel s df fr d att w =
    seek_weekday_interval fuel s df 0 (shape0 df - 1) (sample_num_records s)
      1 1 fr d att w.
Proof.
  induction fuel as [|fuel IH]; intros fr d att w Hagree;
    cbn [seek_weekday_random seek_weekday_interval];
    destruct (negb _ && _); try reflexivity.
  rewrite (bind_random_agree _ _ _ _ Hagree).
  unfold bind at 1 3. unfold random_beta. cbv beta iota.
  rewrite (proj2 (Hagree _ (Nat.le_refl _))).
  rewrite first_row_agree.
  unfold bind.
  destruct (index_first _ _) as [[t|e m|] w1] eqn:E; try reflexivity.
  assert (w1 = drawn 1 w) as ->.
  { unfold index_first, some_or in E.
    destruct (time_first _); inversion E; reflexivity. }
  apply IH. now apply draws_agree_drawn.
Qed.

Lemma same_search_new_sample s p_r p_i num anchor rows t_r t_i fr w :
  same_search
    (new_sample s (SampleId p_r num anchor) rows t_r fr w)
    (new_sample s (SampleId p_i num anchor) rows t_i fr w).
Proof.
  unfold new_sample. destruct (nested_class_ref s).
  - cbn. split; [reflexivity|]. do 3 eexists.
    split; [reflexivity|]. split; [reflexivity|]. split; [reflexivity|].
    split; [|split; reflexivity].
    unfold same_sample. cbn. split; [reflexivity|]. split; [reflexivity|].
    do 4 eexists. split; reflexivity.
  - apply same_search_refl_raise.
Qed.

Lemma index_first_run df w t w1 :
  index_first df w = (Ok t, w1) -> w1 = w.
Proof.
  unfold index_first, some_or. destruct (time_first df); intros H;
    inversion H; reflexivity.
Qed.

Lemma index_last_run df w t w1 :
  index_last df w = (Ok t, w1) -> w1 = w.
Proof.
  unfold index_last, some_or. destruct (time_last df); intros H;
    inversion H; reflexivity.
Qed.

Lemma some_or_run {A} e (o : option A) w a w1 :
  some_or e o w = (Ok a, w1) -> w1 = w.
Proof. unfold some_or. destruct o; intros H; inversion H; reflexivity. Qed.

Lemma bind_eq_at {A B} (m1 m2 : M A) (k : A -> M B) w :
  m1 w = m2 w -> bind m1 k w = bind m2 k w.
Proof. intros H. unfold bind. now rewrite H. Qed.

Lemma sample_random_interval_loop s df name_r name_i fuel :
  forall att w,
    0 <= att ->
    draws_agree (shape0 df) (sample_num_records s) w ->
    same_search
      (sample_random_loop fuel s df name_r att w)
      (sample_interval_loop fuel s df 0 (shape0 df - 1)
         (sample_num_records s) 1 1 name_i att w).
Proof.
  induction fuel as [|fuel IH]; intros att w Hatt Hagree;
    cbn [sample_random_loop sample_interval_loop];
    destruct (att <=? max_attempts);
    try apply same_search_refl_raise; try exact I.
  rewrite (bind_random_agree _ _ _ _ Hagree).
  apply same_search_bind. intros u w1 Hu.
  apply random_beta_run in Hu as [-> ->]. cbv zeta.
  rewrite first_row_agree.
  apply same_search_bind. intros t w1 Ht.
  apply index_first_run in Ht as ->.
  rewrite (bind_eq_at _ _ _ _
             (seek_weekday_random_interval s df loop_fuel _ _ _ _
                (draws_agree_drawn _ _ 1 _ Hagree))).
  apply same_search_bind. intros [[fr' d'] att'] w2 Hseek.
  pose proof (post_run _ _ _ _ _
                (seek_weekday_interval_spec s df 0 (shape0 df - 1)
                   (sample_num_records s) 1 1 loop_fuel _ t att (drawn 1 w)
                   (loop_fuel_enough att Hatt)) Hseek)
    as (k & -> & Hatt' & _).
  destruct (negb (att' <=? max_attempts)).
  { cbn. split; [reflexivity|]. split; [reflexivity|]. right.
    repeat split; congruence. }
  apply same_search_bind. intros first_row w3 H3.
  apply some_or_run in H3 as ->.
  apply same_search_bind. intros t_last w3 H3.
  apply index_last_run in H3 as ->.
  apply same_search_bind. intros t_first w3 H3.
  apply index_first_run in H3 as ->.
  apply same_search_bind. intros len w3 H3.
  apply some_or_run in H3 as ->.
  apply same_search_bind. intros gap w3 H3.
  apply some_or_run in H3 as ->.
  destruct (t_last - t_first - len <? gap).
  - apply same_search_new_sample.
  - apply IH; [lia|]. rewrite drawn_drawn. now apply draws_agree_drawn.
Qed.

Lemma same_search_total out_r out_i :
  same_search out_r out_i -> fst out_i <> OutOfFuel -> fst out_r <> OutOfFuel.
Proof.
  unfold same_search. destruct (fst out_r), (fst out_i); congruence || tauto.
Qed.

Lemma sample_interval_enter lo hi a b name w df :
  data (obj w) = Some df ->
  Qltb 0 a = true -> Qltb 0 b = true -> 0 <= lo < hi -> hi <= shape0 df ->
  _sample_interval [lo; hi] a b name w =
    sample_interval_loop loop_fuel (obj w) df lo hi
      (sample_num_records (obj w)) a b name 0 w.
Proof.
  intros Hdata Ha Hb Hlo Hhi.
  unfold _sample_interval, bind, self, loaded_data, py_assert, ret.
  rewrite Hdata. destruct df as [|r0 rest]; [cbn in Hhi; lia|].
  cbn [length Nat.eqb nth last]. rewrite Ha, Hb. cbn [andb].
  assert (E : (lo <? hi) && (hi <=? shape0 (r0 :: rest)) = true).
  { apply andb_true_intro. split; [apply Z.ltb_lt|apply Z.leb_le]; lia. }
  rewrite E. reflexivity.
Qed.

Lemma sample_random_enter name w df :
  data (obj w) = Some df -> 1 <= shape0 df ->
  _sample_random name w = sample_random_loop loop_fuel (obj w) df name 0 w.
Proof.
  intros Hdata Hrows.
  unfold _sample_random, bind, self, loaded_data, ret.
  rewrite Hdata. destruct df as [|r0 rest]; [cbn in Hrows; lia|].
  reflexivity.
Qed.

(** ** The random search on its own *)

Lemma seek_weekday_random_spec s df fuel :
  forall fr d att w,
    max_attempts + 1 - att <= Z.of_nat fuel ->
    post (seek_weekday_random fuel s df fr d att) w
      (fun r w' =>
         exists k, w' = drawn k w /\
         match r with
         | Ok (_, d', att') =>
             att' = att + Z.of_nat k /\
             att' <= Z.max att (max_attempts + 1) /\
             (att' <= max_attempts ->
              py_in (weekday d') (start_weekdays s) = true) /\
             (In d (map index df) -> In d' (map index df))
         | Raise e m => e = IndexError /\ m = None
         | OutOfFuel => False
         end).
Proof.
  induction fuel as [|fuel IH]; intros fr d att w Hfuel;
    cbn [seek_weekday_random]; wp_step.
  - apply seek_enter in Heqb. lia.
  - wp_step. exists 0%nat. rewrite drawn_0. split; [reflexivity|].
    repeat split; try lia; eauto using seek_exit.
  - apply seek_enter in Heqb. wp.
    + eapply post_mono; [apply IH; lia|].
      cbv beta. intros r w' [k [Hw Hr]].
      exists (S k). split.
      { rewrite Hw, drawn_1, drawn_drawn. f_equal. lia. }
      destruct r as [[[fr' d'] att']|e m|]; auto.
      destruct Hr as (Ha & Hb & Hc & Hd). repeat split; try lia; auto.
      intros _. apply Hd. eapply time_first_in; eauto.
    + exists 1%nat. split; [reflexivity|]. auto.
  - wp_step. exists 0%nat. rewrite drawn_0. split; [reflexivity|].
    repeat split; try lia; eauto using seek_exit.
Qed.

Lemma sample_random_loop_spec s df name fuel :
  data s = Some df ->
  forall att w,
    obj w = s ->
    0 <= att <= max_attempts + 1 ->
    max_attempts + 1 - att <= Z.of_nat fuel ->
    post (sample_random_loop fuel s df name att) w
      (search_post (name ++ "n") "random_sample" w).
Proof.
  intros Hdata.
  induction fuel as [|fuel IH]; intros att w Hobj Hatt Hfuel;
    cbn [sample_random_loop]; wp_step.
  - apply Z.leb_le in Heqb. attempts.
  - wp_step. apply Z.leb_gt in Heqb. cbn. split.
    + exists 0%nat. now rewrite drawn_0.
    + intros _. f_equal. attempts.
  - apply Z.leb_le in Heqb. do 6 wp_step.
    2:{ cbn. split; [exists 1%nat; reflexivity|congruence]. }
    do 2 wp_step.
    eapply post_mono;
      [apply seek_weekday_random_spec; apply loop_fuel_enough; lia|].
    cbv beta. intros r w1 [k [Hw1 Hr]].
    rewrite drawn_1, drawn_drawn in Hw1.
    destruct r as [[[fr' d'] att']|e m|]; [| |contradiction].
    2:{ destruct Hr as [-> ->]. cbn. split; [eauto|congruence]. }
    destruct Hr as (Hatt' & Hmax & Hday & Hin).
    wp_step.
    { wp_step. apply negb_true_iff, Z.leb_gt in Heqb0. cbn. split; [eauto|].
      intros _. f_equal. attempts. }
    apply negb_false_iff, Z.leb_le in Heqb0.
    wp.
    all: try (cbn; split; [eauto|congruence]).
    + subst w1. cbn. eexists (k + 1)%nat, _. split; [reflexivity|].
      split; [reflexivity|].
      exists df, d', z. rewrite Hobj. split; [assumption|].
      unfold accepted_at. cbn.
      repeat split; auto.
      * apply Hin. eapply time_first_in; eauto.
      * exists (t0 - t1), z0, z1. unfold realized_duration.
        rewrite Heqo1, Heqo2. apply Z.ltb_lt in Heqb1. auto.
    + eapply post_mono; [apply IH; [subst w1; assumption|attempts..]|].
      cbv beta. intros r w' H. subst w1.
      eapply search_post_drawn; eauto.
  - wp_step. apply Z.leb_gt in Heqb. cbn. split.
    + exists 0%nat. now rewrite drawn_0.
    + intros _. f_equal. attempts.
Qed.

(** [_sample_random] always ends, like [_sample_interval]. *)
Lemma sample_random_spec name w :
  post (_sample_random name) w (search_post (name ++ "n") "random_sample" w).
Proof.
  unfold _sample_random. wp.
  all: try (cbn; split; [exists 0%nat; now rewrite drawn_0|congruence]).
  eapply sample_random_loop_spec; eauto.
  - attempts.
  - apply loop_fuel_enough; lia.
Qed.

(** No call of a search is cut short by the fuel of the model. *)
Lemma sample_interval_total interval a b name w :
  fst (_sample_interval interval a b name w) <> OutOfFuel.
Proof.
  pose proof (sample_interval_spec interval a b name w) as H.
  unfold post in H. intros E. now rewrite E in H.
Qed.

Lemma sample_random_total name w :
  fst (_sample_random name w) <> OutOfFuel.
Proof.
  pose proof (sample_random_spec name w) as H.
  unfold post in H. intros E. now rewrite E in H.
Qed.

(** A factor of 0 gives row 0 whatever the draw. *)
Lemma py_int_scaled_zero (u : Q) : py_int (inject_Z 0 * u) = 0.
Proof. destruct u as [p q]. reflexivity. Qed.

(** A negative factor gives a row above it and not above 0. *)
Lemma py_int_scaled_neg (m : Z) (u : Q) :
  m < 0 -> (0 <= u)%Q -> (u < 1)%Q -> m < py_int (inject_Z m * u) <= 0.
Proof.
  intros Hm H0 H1.
  assert (Hn : (inject_Z m < 0)%Q)
    by (change 0%Q with (inject_Z 0); now rewrite <- Zlt_Qlt).
  assert (Hx0 : (inject_Z m * u <= 0)%Q) by nra.
  assert (Hxm : (inject_Z m < inject_Z m * u)%Q) by nra.
  unfold py_int. destruct (Qle_bool 0 (inject_Z m * u)) eqn:E.
  - apply Qle_bool_iff in E.
    assert (Ez : inject_Z m * u == inject_Z 0)
      by (change (inject_Z 0) with 0%Q; lra).
    rewrite (Qfloor_comp _ _ Ez), Qfloor_Z. lia.
  - pose proof (Qle_ceiling (inject_Z m * u)) as Hc.
    pose proof (Qceiling_lt (inject_Z m * u)) as Hl.
    assert (Hlo : (inject_Z m < inject_Z (Qceiling (inject_Z m * u)))%Q)
      by lra.
    assert (Hhi : (inject_Z (Qceiling (inject_Z m * u) - 1) < inject_Z 0)%Q)
      by (change (inject_Z 0) with 0%Q; lra).
    rewrite <- Zlt_Qlt in Hlo, Hhi. lia.
Qed.

(** C7, as the code has it.  [_sample_random] draws its candidate row as
    [int((rows - n - 1) * u)], [u] uniform in [0, 1).  When [rows - n - 1]
    is positive this is every row of [0, rows - n - 1) and no other, so that
    row [rows - n - 1] is not drawn; when it is 0 every draw is row 0, and
    when it is negative every draw lies above it and not above 0.  From the
    draw on it is the search of [_sample_interval] over [0, rows - 1]: on a
    frame of two rows or more and on draws where the two generators agree
    and the rounding of the redraws is a truncation, both end alike, with
    the same rows accepted at the same first row under the same number and
    anchor, or with the same attempts reported, up to the prefix and type
    labels of the sample and to the class of the exception (assertion for
    runtime error) when the weekday search runs out.  The search always
    ends. *)
Theorem sample_random_as_interval name_r name_i w df :
  data (obj w) = Some df ->
  let rows := shape0 df in
  let n := sample_num_records (obj w) in
  (0 < rows - n - 1 ->
   (forall u, (0 <= u)%Q -> (u < 1)%Q ->
      0 <= random_first_row rows n u < rows - n - 1) /\
   (forall k, 0 <= k < rows - n - 1 ->
      exists u, (0 <= u)%Q /\ (u < 1)%Q /\ random_first_row rows n u = k)) /\
  (rows - n - 1 = 0 -> forall u, random_first_row rows n u = 0) /\
  (rows - n - 1 < 0 ->
   forall u, (0 <= u)%Q -> (u < 1)%Q ->
     rows - n - 1 < random_first_row rows n u <= 0) /\
  (2 <= rows -> draws_agree rows n w ->
   same_search (_sample_random name_r w)
     (_sample_interval [0; rows - 1] 1 1 name_i w)) /\
  fst (_sample_random name_r w) <> OutOfFuel.
Proof.
  intros Hdata rows n.
  split; [|split; [|split; [|split]]].
  - intros Hpos. split.
    + intros u H0 H1. unfold random_first_row.
      now apply py_int_scaled_lt.
    + intros k Hk.
      destruct (py_int_scaled_onto (rows - n - 1) k Hk) as (H0 & H1 & E).
      eauto.
  - intros Hzero u. unfold random_first_row. rewrite Hzero.
    apply py_int_scaled_zero.
  - intros Hneg u H0 H1. unfold random_first_row.
    now apply py_int_scaled_neg.
  - intros Hrows Hagree.
    rewrite (sample_random_enter name_r w df Hdata) by (subst rows; lia).
    rewrite (sample_interval_enter 0 (rows - 1) 1 1 name_i w df Hdata)
      by (reflexivity || (subst rows; lia)).
    apply sample_random_interval_loop; [lia|assumption].
  - pose proof (sample_random_spec name_r w) as Hspec.
    unfold post in Hspec. intros E. rewrite E in Hspec. exact Hspec.
Qed.

(** A run of C7 as the code has it, on the five Monday rows with draws of one
    half. *)
Lemma sample_random_as_interval_witness :
  same_search
    (_sample_random "random_sample_" planned_monday_world)
    (_sample_interval [0; 4] 1 1 "interval_sample_" planned_monday_world).
Proof.
  refine (proj1 (proj2 (proj2 (proj2
            (sample_random_as_interval "random_sample_" "interval_sample_"
               planned_monday_world monday_rows _)))) _ _).
  - reflexivity.
  - vm_compute. intro Hc; discriminate Hc.
  - intros k _. split; vm_compute; reflexivity.
Defined.

(** C7 as stated fails: with ten rows and samples of two, no uniform draw
    makes row 10 - 2 - 1 = 7 the candidate. *)
Lemma random_start_never_last :
  ~ exists u, (0 <= u)%Q /\ (u < 1)%Q /\ random_first_row 10 2 u = 10 - 2 - 1.
Proof.
  intros (u & H0 & H1 & E). unfold random_first_row in E.
  assert (H7 : 0 < 10 - 2 - 1) by lia.
  pose proof (py_int_scaled_lt _ u H7 H0 H1). lia.
Qed.

(** What [_sample_random] returns is a new sample within the gap tolerance,
    which starts on an allowed weekday when [start_00] is off. *)
Lemma sample_random_accepts name w l w' :
  _sample_random name w = (Ok l, w') ->
  exists ep,
    sample_at l w' = Some ep /\
    (exists rows duration len gap,
       data ep = Some rows /\ realized_duration rows = Some duration /\
       max_sample_len_delta (obj w) = Some len /\
       max_time_gap (obj w) = Some gap /\ duration - len < gap) /\
    (start_00 (obj w) = false ->
     exists day,
       first_weekday ep = Some day /\
       py_in day (start_weekdays (obj w)) = true).
Proof.
  intros H.
  pose proof (post_run _ _ _ _ _ (sample_random_spec name w) H)
    as (k & ep & -> & -> & Hacc).
  exists ep. unfold sample_at, drawn_alloc. cbn [heap].
  rewrite nth_error_last. split; [reflexivity|]. split.
  - eapply accepted_within_gap; eauto.
  - intros H00. eapply accepted_start_weekday; eauto.
Qed.

(** * Further properties *)

(** Closed facts about the example data, by computation. *)
Ltac by_run := vm_compute; reflexivity.

Ltac by_calc :=
  vm_compute;
  repeat match goal with |- _ /\ _ => split end;
  first [reflexivity | let H := fresh in intro H; discriminate H].

Ltac by_draws := let k := fresh "k" in intros k; by_calc.

Ltac by_nodup :=
  vm_compute;
  repeat (apply NoDup_cons;
          [let H := fresh in intro H; cbn in H; intuition discriminate|]);
  apply NoDup_nil.

Ltac by_planned :=
  unfold planned; repeat (split; [by_calc|]);
  first [ let H := fresh in intros H; vm_compute in H; discriminate H
        | intros _; by_calc ].

(** ** Candidate rows *)

Lemma time_first_nth df i :
  0 <= i < shape0 df ->
  exists t,
    time_first (py_slice df i (i + 1)) = Some t /\
    nth_error (map index df) (Z.to_nat i) = Some t.
Proof.
  intros Hi. destruct (py_slice_row df i Hi) as (r & Hs & Hn).
  exists (index r). rewrite Hs. split; [reflexivity|].
  now apply map_nth_error.
Qed.

Lemma seek_leave (good : bool) att :
  good = true -> negb good && (att <=? max_attempts) = false.
Proof. intros ->. reflexivity. Qed.

(** The weekday loop on candidate rows that exist: it never fails. *)
Lemma seek_weekday_interval_rows s df lo hi n a b fuel :
  0 <= lo -> 0 <= hi - lo - n -> hi - n < shape0 df ->
  forall fr d att w,
    unit_draws a b w ->
    lo <= fr <= hi - n ->
    nth_error (map index df) (Z.to_nat fr) = Some d ->
    max_attempts + 1 - att <= Z.of_nat fuel ->
    post (seek_weekday_interval fuel s df lo hi n a b fr d att) w
      (fun r w' =>
         exists k fr' d' att',
           w' = drawn k w /\ r = Ok (fr', d', att') /\
           att' = att + Z.of_nat k /\
           att' <= Z.max att (max_attempts + 1) /\
           (att' <= max_attempts ->
            py_in (weekday d') (start_weekdays s) = true) /\
           lo <= fr' <= hi - n /\
           nth_error (map index df) (Z.to_nat fr') = Some d').
Proof.
  intros Hlo Hspan Hhi.
  induction fuel as [|fuel IH]; intros fr d att w Hu Hfr Hd Hfuel;
    cbn [seek_weekday_interval];
    destruct (negb (py_in (weekday d) (start_weekdays s))
              && (att <=? max_attempts)) eqn:Econd.
  - apply seek_enter in Econd. lia.
  - wp_step. exists 0%nat, fr, d, att. rewrite drawn_0.
    repeat split; try lia; eauto using seek_exit.
  - apply seek_enter in Econd. do 3 wp_step.
    destruct (Hu (pos (rng w))) as [Hu0 Hu1].
    pose proof (py_round_scaled (hi - lo - n) _ Hspan Hu0 Hu1) as Hr.
    destruct (time_first_nth df
                (interval_redraw_row lo hi n (beta (rng w) a b (pos (rng w)))))
      as (t & Ht & Hnth).
    { unfold interval_redraw_row. lia. }
    unfold index_first. rewrite Ht. do 2 wp_step.
    eapply post_mono.
    { apply IH; try eassumption; try lia.
      unfold interval_redraw_row. lia. }
    cbv beta. intros r w' (k & fr' & d' & att' & -> & -> & Ha & Hb & Hc & Hd').
    exists (S k), fr', d', att'.
    rewrite drawn_1, drawn_drawn.
    repeat split; try lia; try tauto.
    f_equal. lia.
  - wp_step. exists 0%nat, fr, d, att. rewrite drawn_0.
    repeat split; try lia; eauto using seek_exit.
Qed.

Lemma nearest_from_range rest :
  forall t i best bestd,
    0 <= best < i ->
    0 <= nearest_from rest t i best bestd < i + Z.of_nat (length rest).
Proof.
  induction rest as [|y rest IH]; intros t i best bestd Hb;
    cbn [nearest_from length].
  - lia.
  - destruct (Z.abs (y - t) <? bestd).
    + specialize (IH t (i + 1) i (Z.abs (y - t))). lia.
    + specialize (IH t (i + 1) best bestd). lia.
Qed.

(** A lookup in an index that has a row finds a row of the index. *)
Lemma get_loc_nearest_range idx t :
  idx <> [] ->
  exists r, get_loc_nearest idx t = Some r /\ 0 <= r < Z.of_nat (length idx).
Proof.
  destruct idx as [|x rest]; [congruence|]. intros _.
  eexists. split; [reflexivity|].
  pose proof (nearest_from_range rest t 1 0 (Z.abs (x - t))).
  cbn [length]. lia.
Qed.

Lemma get_loc_nearest_some idx t r :
  get_loc_nearest idx t = Some r -> 0 <= r < Z.of_nat (length idx).
Proof.
  intros H. destruct idx as [|x rest]; [discriminate|].
  destruct (get_loc_nearest_range (x :: rest) t) as (r' & E & Hr);
    [discriminate|].
  congruence.
Qed.

Lemma py_slice_nonempty {A} (l : list A) i n :
  0 <= i < Z.of_nat (length l) -> 1 <= n -> py_slice l i (i + n) <> [].
Proof.
  intros Hi Hn. unfold py_slice, slice_bound.
  assert (E1 : (i <? 0) = false) by (apply Z.ltb_ge; lia).
  assert (E2 : (i + n <? 0) = false) by (apply Z.ltb_ge; lia).
  rewrite E1, E2.
  set (len := Z.of_nat (length l)) in *.
  replace (Z.min i len) with i by lia.
  destruct (skipn (Z.to_nat i) l) as [|x rest] eqn:E.
  - apply (f_equal (@length A)) in E. rewrite length_skipn in E.
    cbn in E. lia.
  - destruct (Z.to_nat (Z.min (i + n) len - i)) eqn:En; [lia|].
    cbn. discriminate.
Qed.

Lemma slice_times df i n :
  0 <= i < shape0 df -> 1 <= n ->
  exists t_last t_first,
    time_last (py_slice df i (i + n)) = Some t_last /\
    time_first (py_slice df i (i + n)) = Some t_first.
Proof.
  intros Hi Hn. pose proof (py_slice_nonempty df i n Hi Hn) as H.
  destruct (py_slice df i (i + n)) as [|r rest]; [congruence|].
  cbn. eauto.
Qed.

Lemma map_index_nonempty df : 1 <= shape0 df -> map index df <> [].
Proof. destruct df; cbn; [lia|discriminate]. Qed.

Lemma shape0_map_index df : Z.of_nat (length (map index df)) = shape0 df.
Proof. unfold shape0. now rewrite length_map. Qed.

Lemma window_post_drawn s df lo top prefix type exc j w r w' :
  window_post s df lo top prefix type exc (drawn j w) r w' ->
  window_post s df lo top prefix type exc w r w'.
Proof.
  destruct r as [l|e m|]; cbn; auto.
  - intros (k & c & d & fr & du & len & gap & Hw & Hrest).
    exists (k + j)%nat, c, d, fr, du, len, gap. split; [|exact Hrest].
    rewrite Hw. unfold drawn_alloc. rewrite drawn_drawn. reflexivity.
  - intros [[k Hw] Hm]. split; [|assumption].
    exists (k + j)%nat. now rewrite Hw, drawn_drawn.
Qed.

(** Steps over the parts of a call that only compute. *)
Ltac wp_pure :=
  repeat (first [apply post_bind | apply post_ret]; cbv beta iota zeta).

(** The search loop of [_sample_interval] on an interval of existing rows
    that can hold a sample of one row or more. *)
Lemma sample_interval_loop_window s df lo hi a b name fuel :
  0 <= lo -> 1 <= sample_num_records s <= hi - lo -> hi <= shape0 df ->
  forall att w,
    unit_draws a b w ->
    0 <= att <= max_attempts + 1 ->
    max_attempts + 1 - att <= Z.of_nat fuel ->
    post (sample_interval_loop fuel s df lo hi (sample_num_records s)
            a b name att) w
      (window_post s df lo (hi - sample_num_records s)
         (name ++ "num_") "interval_sample" RuntimeError w).
Proof.
  intros Hlo Hn Hhi. set (n := sample_num_records s) in *.
  induction fuel as [|fuel IH]; intros att w Hu Hatt Hfuel;
    cbn [sample_interval_loop];
    destruct (att <=? max_attempts) eqn:Eatt.
  - apply Z.leb_le in Eatt. attempts.
  - wp_step. apply Z.leb_gt in Eatt. cbn. split.
    + exists 0%nat. now rewrite drawn_0.
    + left. split; [f_equal; attempts|auto].
  - apply Z.leb_le in Eatt. do 3 wp_step.
    destruct (Hu (pos (rng w))) as [Hu0 Hu1].
    assert (Hspan : 0 <= hi - lo - n) by lia.
    pose proof (py_int_scaled _ _ Hspan Hu0 Hu1) as Hr.
    destruct (time_first_nth df
                (interval_first_row lo hi n (beta (rng w) a b (pos (rng w)))))
      as (t & Ht & Hnth).
    { unfold interval_first_row. lia. }
    unfold index_first. rewrite Ht. do 3 wp_step.
    eapply post_mono.
    { apply (seek_weekday_interval_rows s df lo hi n a b); try eassumption;
        try lia.
      - unfold interval_first_row. lia.
      - apply loop_fuel_enough; lia. }
    cbv beta.
    intros r w1 (k & c & d & att' & -> & -> & Hatt' & Hmax & Hday & Hc & Hd).
    rewrite drawn_1, drawn_drawn.
    destruct (negb (att' <=? max_attempts)) eqn:Eover.
    { cbv beta iota. wp_step. apply negb_true_iff, Z.leb_gt in Eover.
      cbn. split; [eauto|].
      left. split; [f_equal; attempts|auto]. }
    apply negb_false_iff, Z.leb_le in Eover.
    destruct (get_loc_nearest_range (map index df)
                (anchor_time (anchor_of s d))) as (first_row & Enear & Hrow).
    { apply map_index_nonempty. lia. }
    rewrite shape0_map_index in Hrow.
    destruct (slice_times df first_row n Hrow (proj1 Hn))
      as (t_last & t_first & Elast & Efirst).
    cbv beta iota zeta.
    wp_step. rewrite Enear. wp_pure.
    unfold index_last. rewrite Elast. wp_pure. rewrite Efirst. wp_pure.
    destruct (max_sample_len_delta s) as [len|] eqn:Elen;
      [|wp_step; cbn; split; [eauto|right; auto]].
    wp_pure.
    destruct (max_time_gap s) as [gap|] eqn:Egap;
      [|wp_step; cbn; split; [eauto|right; auto]].
    wp_pure.
    destruct (t_last - t_first - len <? gap) eqn:Egapok.
    + unfold new_sample.
      destruct (nested_class_ref s) as [cls|] eqn:Ecls;
        [|wp_step; cbn; split; [eauto|right; auto]].
      wp_step. cbn.
      exists (k + 1)%nat, c, d, first_row, (t_last - t_first), len, gap.
      unfold realized_duration. fold n. rewrite Elast, Efirst.
      apply Z.ltb_lt in Egapok.
      repeat split; auto; try lia; congruence.
    + eapply post_mono.
      { apply IH; [|attempts|attempts]. intros j. apply Hu. }
      cbv beta. intros r w' H. apply (window_post_drawn _ _ _ _ _ _ _ (k + 1)%nat).
      exact H.
  - wp_step. apply Z.leb_gt in Eatt. cbn. split.
    + exists 0%nat. now rewrite drawn_0.
    + left. split; [f_equal; attempts|auto].
Qed.

(** The weekday loop of [_sample_random] on candidate rows that exist. *)
Lemma seek_weekday_random_rows s df fuel :
  0 <= shape0 df - sample_num_records s - 1 ->
  0 <= sample_num_records s ->
  forall fr d att w,
    unit_uniform w ->
    0 <= fr <= shape0 df - sample_num_records s - 1 ->
    nth_error (map index df) (Z.to_nat fr) = Some d ->
    max_attempts + 1 - att <= Z.of_nat fuel ->
    post (seek_weekday_random fuel s df fr d att) w
      (fun r w' =>
         exists k fr' d' att',
           w' = drawn k w /\ r = Ok (fr', d', att') /\
           att' = att + Z.of_nat k /\
           att' <= Z.max att (max_attempts + 1) /\
           (att' <= max_attempts ->
            py_in (weekday d') (start_weekdays s) = true) /\
           0 <= fr' <= shape0 df - sample_num_records s - 1 /\
           nth_error (map index df) (Z.to_nat fr') = Some d').
Proof.
  intros Hspan Hn. pose (n := sample_num_records s).
  fold n in Hspan, Hn.
  induction fuel as [|fuel IH]; intros fr d att w Hu Hfr Hd Hfuel;
    cbn [seek_weekday_random]; fold n;
    destruct (negb (py_in (weekday d) (start_weekdays s))
              && (att <=? max_attempts)) eqn:Econd.
  - apply seek_enter in Econd. lia.
  - wp_step. exists 0%nat, fr, d, att. rewrite drawn_0.
    repeat split; try lia; eauto using seek_exit.
  - apply seek_enter in Econd. do 3 wp_step.
    destruct (Hu (pos (rng w))) as [Hu0 Hu1].
    pose proof (py_int_scaled (shape0 df - n - 1) _ Hspan Hu0 Hu1) as Hr.
    destruct (time_first_nth df
                (random_first_row (shape0 df) n (uniform (rng w) (pos (rng w)))))
      as (t & Ht & Hnth).
    { unfold random_first_row. lia. }
    unfold index_first. rewrite Ht. do 2 wp_step.
    eapply post_mono.
    { apply IH; try eassumption; try lia;
        try (unfold random_first_row; fold n; lia). }
    cbv beta. intros r w' (k & fr' & d' & att' & -> & -> & Ha & Hb & Hc & Hd').
    exists (S k), fr', d', att'.
    rewrite drawn_1, drawn_drawn.
    repeat split; try lia; try tauto.
    f_equal. lia.
  - wp_step. exists 0%nat, fr, d, att. rewrite drawn_0.
    repeat split; try lia; eauto using seek_exit.
Qed.

(** The search loop of [_sample_random] on a frame that can hold a sample of
    one row or more and one row besides. *)
Lemma sample_random_loop_window s df name fuel :
  1 <= sample_num_records s <= shape0 df - 1 ->
  forall att w,
    unit_uniform w ->
    0 <= att <= max_attempts + 1 ->
    max_attempts + 1 - att <= Z.of_nat fuel ->
    post (sample_random_loop fuel s df name att) w
      (window_post s df 0 (shape0 df - sample_num_records s - 1)
         (name ++ "n") "random_sample" AssertionError w).
Proof.
  intros Hn. pose (n := sample_num_records s). fold n in Hn.
  induction fuel as [|fuel IH]; intros att w Hu Hatt Hfuel;
    cbn [sample_random_loop]; fold n;
    destruct (att <=? max_attempts) eqn:Eatt.
  - apply Z.leb_le in Eatt. attempts.
  - wp_step. apply Z.leb_gt in Eatt. cbn. split.
    + exists 0%nat. now rewrite drawn_0.
    + left. split; [f_equal; attempts|auto].
  - apply Z.leb_le in Eatt. do 3 wp_step.
    destruct (Hu (pos (rng w))) as [Hu0 Hu1].
    assert (Hspan : 0 <= shape0 df - n - 1) by lia.
    pose proof (py_int_scaled _ _ Hspan Hu0 Hu1) as Hr.
    destruct (time_first_nth df
                (random_first_row (shape0 df) n (uniform (rng w) (pos (rng w)))))
      as (t & Ht & Hnth).
    { unfold random_first_row. lia. }
    unfold index_first. rewrite Ht. do 3 wp_step.
    eapply post_mono.
    { apply (seek_weekday_random_rows s df); try eassumption; fold n;
        try lia; try (unfold random_first_row; fold n; lia).
      apply loop_fuel_enough; lia. }
    cbv beta.
    intros r w1 (k & c & d & att' & -> & -> & Hatt' & Hmax & Hday & Hc & Hd).
    fold n in Hc.
    rewrite drawn_1, drawn_drawn.
    destruct (negb (att' <=? max_attempts)) eqn:Eover.
    { cbv beta iota. wp_step. apply negb_true_iff, Z.leb_gt in Eover.
      cbn. split; [eauto|].
      left. split; [f_equal; attempts|auto]. }
    apply negb_false_iff, Z.leb_le in Eover.
    destruct (get_loc_nearest_range (map index df)
                (anchor_time (anchor_of s d))) as (first_row & Enear & Hrow).
    { apply map_index_nonempty. lia. }
    rewrite shape0_map_index in Hrow.
    destruct (slice_times df first_row n Hrow (proj1 Hn))
      as (t_last & t_first & Elast & Efirst).
    cbv beta iota zeta. fold n.
    wp_step. rewrite Enear. wp_pure.
    unfold index_last. rewrite Elast. wp_pure. rewrite Efirst. wp_pure.
    destruct (max_sample_len_delta s) as [len|] eqn:Elen;
      [|wp_step; cbn; split; [eauto|right; auto]].
    wp_pure.
    destruct (max_time_gap s) as [gap|] eqn:Egap;
      [|wp_step; cbn; split; [eauto|right; auto]].
    wp_pure.
    destruct (t_last - t_first - len <? gap) eqn:Egapok.
    + unfold new_sample.
      destruct (nested_class_ref s) as [cls|] eqn:Ecls;
        [|wp_step; cbn; split; [eauto|right; auto]].
      wp_step. cbn.
      exists (k + 1)%nat, c, d, first_row, (t_last - t_first), len, gap.
      unfold realized_duration. fold n. rewrite Elast, Efirst.
      apply Z.ltb_lt in Egapok.
      repeat split; auto; try lia; congruence.
    + eapply post_mono.
      { apply IH; [|attempts|attempts]. intros j. apply Hu. }
      cbv beta. intros r w' H.
      apply (window_post_drawn _ _ _ _ _ _ _ (k + 1)%nat).
      exact H.
  - wp_step. apply Z.leb_gt in Eatt. cbn. split.
    + exists 0%nat. now rewrite drawn_0.
    + left. split; [f_equal; attempts|auto].
Qed.

(** ** Requests *)

Lemma sample_interval_invalid interval a b name w :
  valid_request (obj w) interval a b = false ->
  _sample_interval interval a b name w = (Raise AssertionError None, w).
Proof.
  unfold valid_request, _sample_interval, bind, self, loaded_data, py_assert,
    ret, raise.
  destruct (data (obj w)) as [[|r rest]|]; try reflexivity.
  destruct (Nat.eqb (length interval) 2); [|reflexivity].
  destruct (Qltb 0 a && Qltb 0 b); [|reflexivity].
  cbn [andb]. intros ->. reflexivity.
Qed.

Lemma sample_interval_valid interval a b name w :
  valid_request (obj w) interval a b = true ->
  exists df lo hi,
    data (obj w) = Some df /\ interval = [lo; hi] /\
    lo < hi <= shape0 df /\ Qltb 0 a = true /\ Qltb 0 b = true /\
    _sample_interval interval a b name w =
      sample_interval_loop loop_fuel (obj w) df lo hi
        (sample_num_records (obj w)) a b name 0 w.
Proof.
  unfold valid_request, _sample_interval, bind, self, loaded_data, py_assert,
    ret, raise.
  destruct (data (obj w)) as [[|r rest]|]; try discriminate.
  destruct interval as [|lo [|hi [|x rest']]]; try discriminate.
  cbn [length Nat.eqb andb nth last].
  destruct (Qltb 0 a); [|discriminate]. destruct (Qltb 0 b); [|discriminate].
  cbn [andb]. intros H. rewrite H.
  apply andb_prop in H as [H1 H2]. apply Z.ltb_lt in H1. apply Z.leb_le in H2.
  exists (r :: rest), lo, hi. repeat split; auto.
Qed.

(** The loops never raise an assertion error of their own in
    [_sample_interval], and create at most the sample they return. *)
Lemma seek_weekday_interval_frame s df lo hi n a b fuel :
  forall fr d att w,
    post (seek_weekday_interval fuel s df lo hi n a b fr d att) w
      (fun r w' =>
         heap w' = heap w /\ obj w' = obj w /\
         forall e m, r = Raise e m -> e = IndexError).
Proof.
  induction fuel as [|fuel IH]; intros fr d att w;
    cbn [seek_weekday_interval]; wp.
  all: try (cbn; repeat split; congruence).
  eapply post_mono; [apply IH|]. cbv beta. cbn. tauto.
Qed.

Lemma sample_interval_loop_frame s df lo hi n a b name fuel :
  forall att w,
    post (sample_interval_loop fuel s df lo hi n a b name att) w
      (fun r w' =>
         obj w' = obj w /\
         match r with
         | Ok l =>
             nested_class_ref s <> None /\ l = length (heap w) /\
             exists id rows first_row,
               heap w' =
                 heap w ++ [made_sample s id rows "interval_sample" first_row]
         | Raise e m => heap w' = heap w /\ search_exception e
         | OutOfFuel => heap w' = heap w
         end).
Proof.
  unfold search_exception.
  induction fuel as [|fuel IH]; intros att w;
    cbn [sample_interval_loop]; wp_step.
  - wp_step. auto.
  - wp_step. auto.
  - do 6 wp_step; [|cbn; auto 6].
    do 2 wp_step.
    eapply post_mono; [apply seek_weekday_interval_frame|].
    cbv beta. intros r w1. cbn [heap obj]. intros (Hh & Ho & He).
    destruct r as [[[fr' d'] att']|e m|];
      [|rewrite Hh, Ho; split; [reflexivity|]; split; [reflexivity|];
        rewrite (He _ _ eq_refl); auto|rewrite Hh, Ho; auto].
    wp.
    all: try (cbn; rewrite Hh, Ho; auto 7; fail).
    + cbn. rewrite Hh, Ho. split; [reflexivity|].
      split; [congruence|]. split; [reflexivity|].
      do 3 eexists. unfold made_sample. reflexivity.
    + eapply post_mono; [apply IH|]. cbv beta. intros r w2.
      rewrite Hh, Ho. tauto.
  - wp_step. auto.
Qed.

(** X1.  [_sample_interval] checks its request before it draws.  When the
    instance holds no row, the interval is not a pair, [b_alpha] or [b_beta]
    is not positive, or the interval is not [lo < hi <= rows], the call
    raises [AssertionError] and leaves the world as it was, random generators
    included; and when the request passes these checks the call never raises
    [AssertionError]. *)
Theorem sample_interval_fails_fast interval a b name w :
  (valid_request (obj w) interval a b = false ->
   _sample_interval interval a b name w = (Raise AssertionError None, w)) /\
  (valid_request (obj w) interval a b = true ->
   forall m w',
     _sample_interval interval a b name w <> (Raise AssertionError m, w')).
Proof.
  split; [apply sample_interval_invalid|].
  intros Hv m w' Hrun.
  destruct (sample_interval_valid _ _ _ name _ Hv)
    as (df & lo & hi & _ & _ & _ & _ & _ & E).
  rewrite E in Hrun.
  pose proof (post_run _ _ _ _ _
                (sample_interval_loop_frame _ _ _ _ _ _ _ _ _ _ _) Hrun)
    as [_ [_ H]].
  unfold search_exception in H. intuition discriminate.
Qed.

(** A run of X1: an interval that ends before it starts. *)
Lemma sample_interval_fails_fast_witness :
  _sample_interval [3; 2] 1 1 "train_" planned_monday_world
    = (Raise AssertionError None, planned_monday_world).
Proof.
  apply (proj1 (sample_interval_fails_fast [3; 2] 1 1 "train_"
                  planned_monday_world)).
  by_run.
Defined.

(** ** Searches of an interval *)

Lemma py_slice_length {A} (l : list A) i n :
  0 <= i < Z.of_nat (length l) -> 0 <= n ->
  Z.of_nat (length (py_slice l i (i + n))) = Z.min n (Z.of_nat (length l) - i).
Proof.
  intros Hi Hn. unfold py_slice, slice_bound.
  assert (E1 : (i <? 0) = false) by (apply Z.ltb_ge; lia).
  assert (E2 : (i + n <? 0) = false) by (apply Z.ltb_ge; lia).
  rewrite E1, E2. rewrite length_firstn, length_skipn. lia.
Qed.

Lemma py_slice_inside {A} (l : list A) i n :
  0 <= i -> 0 <= n -> i + n <= Z.of_nat (length l) ->
  py_slice l i (i + n) = firstn (Z.to_nat n) (skipn (Z.to_nat i) l).
Proof.
  intros Hi Hn Hin. unfold py_slice, slice_bound.
  assert (E1 : (i <? 0) = false) by (apply Z.ltb_ge; lia).
  assert (E2 : (i + n <? 0) = false) by (apply Z.ltb_ge; lia).
  rewrite E1, E2. repeat f_equal; lia.
Qed.

Lemma window_sample_at k ep w :
  sample_at (length (heap w)) (drawn_alloc k ep w) = Some ep.
Proof. unfold sample_at, drawn_alloc. cbn [heap]. apply nth_error_last. Qed.

Lemma sample_interval_window lo hi a b name w df :
  data (obj w) = Some df ->
  0 <= lo -> 1 <= sample_num_records (obj w) <= hi - lo -> hi <= shape0 df ->
  Qltb 0 a = true -> Qltb 0 b = true ->
  unit_draws a b w ->
  post (_sample_interval [lo; hi] a b name) w
    (window_post (obj w) df lo (hi - sample_num_records (obj w))
       (name ++ "num_") "interval_sample" RuntimeError w).
Proof.
  intros Hdata Hlo Hn Hhi Ha Hb Hu. unfold post.
  rewrite (sample_interval_enter lo hi a b name w df) by (assumption || lia).
  apply sample_interval_loop_window; try assumption.
  - attempts.
  - apply loop_fuel_enough; lia.
Qed.

(** X2.  On data whose timestamps do not repeat, a request with positive
    beta parameters for an interval of existing rows that can hold a sample
    ([0 <= lo], [hi <= rows], [1 <= sample_num_records <= hi - lo]), with
    draws in [0, 1], ends in one of three ways only: a sample whose
    [first_row] is a row of the data and whose rows are
    [data[first_row : first_row + sample_num_records]], at least one and at
    most [sample_num_records] of them; a [RuntimeError] that reports 101
    attempts; or a [TypeError], when the instance has no sample class or was
    never planned.  No slice it takes is empty and the lookup of the nearest
    row has a row to find, so it raises neither [IndexError] nor [KeyError],
    and it returns. *)
Theorem sample_interval_well_posed lo hi a b name w df r w' :
  data (obj w) = Some df -> NoDup (map index df) ->
  0 <= lo -> 1 <= sample_num_records (obj w) <= hi - lo -> hi <= shape0 df ->
  Qltb 0 a = true -> Qltb 0 b = true ->
  unit_draws a b w ->
  _sample_interval [lo; hi] a b name w = (r, w') ->
  match r with
  | Ok l =>
      exists ep first_row rows,
        sample_at l w' = Some ep /\
        md_first_row (metadata ep) = Some (PyInt first_row) /\
        0 <= first_row < shape0 df /\
        data ep = Some rows /\
        rows = py_slice df first_row (first_row + sample_num_records (obj w)) /\
        1 <= Z.of_nat (length rows) <= sample_num_records (obj w)
  | Raise e m =>
      (e = RuntimeError /\ m = Some 101) \/
      (e = TypeError /\ m = None /\
       (nested_class_ref (obj w) = None \/
        max_sample_len_delta (obj w) = None \/
        max_time_gap (obj w) = None))
  | OutOfFuel => False
  end.
Proof.
  intros Hdata _ Hlo Hn Hhi Ha Hb Hu Hrun.
  pose proof (post_run _ _ _ _ _
                (sample_interval_window lo hi a b name w df
                   Hdata Hlo Hn Hhi Ha Hb Hu) Hrun) as H.
  destruct r as [l|e m|]; cbn in H; [| |exact H].
  - destruct H as (k & c & d & fr & du & len & gap & -> & -> & Hc & Hd &
                   Hday & Hnear & Hdur & _).
    apply get_loc_nearest_some in Hnear. rewrite shape0_map_index in Hnear.
    eexists _, fr, _. rewrite window_sample_at.
    split; [reflexivity|]. split; [reflexivity|]. split; [assumption|].
    split; [reflexivity|]. split; [reflexivity|].
    rewrite py_slice_length by (unfold shape0 in *; lia).
    unfold shape0 in *. lia.
  - destruct H as [_ [[-> [->| ->]] | (-> & -> & H)]]; auto.
Qed.

(** A run of X2: the whole of the planned Monday rows. *)
Lemma sample_interval_well_posed_witness :
  exists ep first_row,
    sample_at 0%nat
      (after (_sample_interval [0; 5] 1 1 "train_") planned_monday_world)
      = Some ep /\
    md_first_row (metadata ep) = Some (PyInt first_row) /\
    0 <= first_row < 5.
Proof.
  unshelve epose proof
    (sample_interval_well_posed 0 5 1 1 "train_" planned_monday_world
       monday_rows (Ok 0%nat)
       (after (_sample_interval [0; 5] 1 1 "train_") planned_monday_world)
       _ _ _ _ _ _ _ _ _) as H.
  1: by_run. 1: by_nodup. 1: by_calc. 1: by_calc. 1: by_calc. 1: by_run.
  1: by_run. 1: by_draws. 1: by_run.
  destruct H as (ep & fr & rows & H1 & H2 & H3 & _).
  exists ep, fr. split; [exact H1|]. split; [exact H2|exact H3].
Defined.

Lemma nearest_of_row idx c d first_row :
  NoDup idx ->
  0 <= c ->
  nth_error idx (Z.to_nat c) = Some d ->
  get_loc_nearest idx d = Some first_row ->
  first_row = c.
Proof.
  intros Hnd Hc Hd Hnear.
  assert (Hin : In d idx) by (eapply nth_error_In; eauto).
  destruct (get_loc_nearest_exact _ _ _ Hin Hnear) as [Hr Hnth].
  rewrite NoDup_nth_error in Hnd.
  assert (E : Z.to_nat first_row = Z.to_nat c).
  { apply Hnd; [lia|congruence]. }
  lia.
Qed.

Lemma window_in_place s df lo top prefix type exc w l w' :
  NoDup (map index df) -> start_00 s = false ->
  0 <= lo -> 0 <= sample_num_records s ->
  top + sample_num_records s <= shape0 df ->
  window_post s df lo top prefix type exc w (Ok l) w' ->
  exists k ep first_row day,
    w' = drawn_alloc k ep w /\ l = length (heap w) /\
    md_first_row (metadata ep) = Some (PyInt first_row) /\
    lo <= first_row <= top /\
    data ep = Some (firstn (Z.to_nat (sample_num_records s))
                      (skipn (Z.to_nat first_row) df)) /\
    first_weekday ep = Some day /\
    py_in day (start_weekdays s) = true.
Proof.
  intros Hnd H00 Hlo Hn Htop
    (k & c & d & fr & du & len & gap & -> & -> & Hc & Hd & Hday & Hnear &
     Hdur & _).
  unfold anchor_of in Hnear. rewrite H00 in Hnear. cbn in Hnear.
  assert (fr = c) as ->
    by (apply (nearest_of_row (map index df) c d fr);
        [assumption|lia|assumption|assumption]).
  eexists k, _, c, (weekday d).
  split; [reflexivity|]. split; [reflexivity|].
  split; [reflexivity|]. split; [assumption|].
  unfold first_weekday, cut_sample, made_sample. cbn [data set_metadata set_data].
  rewrite py_slice_inside in * by (unfold shape0 in *; lia).
  split; [reflexivity|]. split; [|assumption].
  unfold realized_duration, time_last in Hdur.
  destruct (firstn _ (skipn (Z.to_nat c) df)) as [|r rows] eqn:E;
    [discriminate|].
  assert (Hr : nth_error df (Z.to_nat c) = Some r).
  { rewrite <- hd_error_skipn.
    destruct (skipn (Z.to_nat c) df) as [|y ys];
      [now rewrite firstn_nil in E|].
    destruct (Z.to_nat (sample_num_records s)); [discriminate|].
    cbn in E. inversion E; subst. reflexivity. }
  apply (map_nth_error index) in Hr. rewrite Hd in Hr.
  inversion Hr; subst. reflexivity.
Qed.

(** A sample of [_sample_interval], when no timestamp repeats and samples
    start at their candidate record. *)
Lemma interval_sample_placed lo hi a b name w df l w' :
  data (obj w) = Some df ->
  NoDup (map index df) -> start_00 (obj w) = false ->
  0 <= lo -> 1 <= sample_num_records (obj w) <= hi - lo ->
  unit_draws a b w ->
  _sample_interval [lo; hi] a b name w = (Ok l, w') ->
  exists k ep first_row day,
    w' = drawn_alloc k ep w /\ l = length (heap w) /\
    md_first_row (metadata ep) = Some (PyInt first_row) /\
    lo <= first_row <= hi - sample_num_records (obj w) /\ hi <= shape0 df /\
    data ep = Some (firstn (Z.to_nat (sample_num_records (obj w)))
                      (skipn (Z.to_nat first_row) df)) /\
    first_weekday ep = Some day /\
    py_in day (start_weekdays (obj w)) = true.
Proof.
  intros Hdata Hnd H00 Hlo Hn Hu Hrun.
  assert (Hvalid : valid_request (obj w) [lo; hi] a b = true).
  { destruct (valid_request (obj w) [lo; hi] a b) eqn:E; [reflexivity|].
    rewrite sample_interval_invalid in Hrun by assumption. discriminate. }
  destruct (sample_interval_valid _ _ _ name _ Hvalid)
    as (df' & lo' & hi' & Hdata' & Hint & Hhi & Ha & Hb & _).
  rewrite Hdata in Hdata'. inversion Hdata'; subst df'.
  inversion Hint; subst lo' hi'.
  assert (Hhi' : hi <= shape0 df) by lia.
  pose proof (post_run _ _ _ _ _
                (sample_interval_window lo hi a b name w df
                   Hdata Hlo Hn Hhi' Ha Hb Hu) Hrun) as H.
  assert (Hn0 : 0 <= sample_num_records (obj w)) by lia.
  assert (Htop : hi - sample_num_records (obj w) + sample_num_records (obj w)
                 <= shape0 df) by lia.
  destruct (window_in_place _ _ _ _ _ _ _ _ _ _ Hnd H00 Hlo Hn0 Htop H)
    as (k & ep & fr & day & H1 & H2 & H3 & H4 & H5 & H6 & H7).
  exists k, ep, fr, day. auto 10.
Qed.

(** X3.  When no timestamp repeats and [start_00] is off, the sample
    [_sample_interval] returns lies inside the interval it was asked for:
    [lo <= first_row] and [first_row + sample_num_records <= hi], its rows
    are exactly the [sample_num_records] rows from [first_row] on, and its
    first record is on an allowed weekday. *)
Theorem sample_interval_in_place lo hi a b name w df l w' :
  data (obj w) = Some df ->
  NoDup (map index df) -> start_00 (obj w) = false ->
  0 <= lo -> 1 <= sample_num_records (obj w) <= hi - lo ->
  unit_draws a b w ->
  _sample_interval [lo; hi] a b name w = (Ok l, w') ->
  exists ep first_row day,
    sample_at l w' = Some ep /\
    md_first_row (metadata ep) = Some (PyInt first_row) /\
    lo <= first_row /\ first_row + sample_num_records (obj w) <= hi /\
    data ep = Some (firstn (Z.to_nat (sample_num_records (obj w)))
                      (skipn (Z.to_nat first_row) df)) /\
    first_weekday ep = Some day /\
    py_in day (start_weekdays (obj w)) = true.
Proof.
  intros Hdata Hnd H00 Hlo Hn Hu Hrun.
  destruct (interval_sample_placed _ _ _ _ _ _ _ _ _
              Hdata Hnd H00 Hlo Hn Hu Hrun)
    as (k & ep & fr & day & -> & -> & H3 & H4 & _ & H5 & H6 & H7).
  exists ep, fr, day. rewrite window_sample_at.
  repeat split; auto; lia.
Qed.

(** A run of X3: the whole of the planned Monday rows. *)
Lemma sample_interval_in_place_witness :
  exists ep first_row day,
    sample_at 0%nat
      (after (_sample_interval [0; 5] 1 1 "train_") planned_monday_world)
      = Some ep /\
    md_first_row (metadata ep) = Some (PyInt first_row) /\
    0 <= first_row /\ first_row + 2 <= 5 /\
    first_weekday ep = Some day /\ py_in day [0] = true.
Proof.
  unshelve epose proof
    (sample_interval_in_place 0 5 1 1 "train_" planned_monday_world
       monday_rows 0%nat
       (after (_sample_interval [0; 5] 1 1 "train_") planned_monday_world)
       _ _ _ _ _ _ _) as H.
  1: by_run. 1: by_nodup. 1: by_run. 1: by_calc. 1: by_calc. 1: by_draws.
  1: by_run.
  destruct H as (ep & fr & day & H1 & H2 & H3 & H4 & _ & H5 & H6).
  exists ep, fr, day. repeat (split; [assumption|]). exact H6.
Defined.

Lemma bind_ok_at {A B} (m : M A) (k : A -> M B) w a w1 :
  m w = (Ok a, w1) -> bind m k w = k a w1.
Proof. intros H. unfold bind. now rewrite H. Qed.

Lemma random_beta_at a b w :
  random_beta a b w = (Ok (beta (rng w) a b (pos (rng w))), drawn 1 w).
Proof. unfold random_beta. now rewrite drawn_1. Qed.

Lemma some_or_at {A} e (a : A) w : some_or e (Some a) w = (Ok a, w).
Proof. reflexivity. Qed.

Lemma seek_weekday_interval_done s df lo hi n a b fuel fr d att w :
  py_in (weekday d) (start_weekdays s) = true ->
  seek_weekday_interval fuel s df lo hi n a b fr d att w = (Ok (fr, d, att), w).
Proof. intros H. destruct fuel; cbn [seek_weekday_interval]; now rewrite H. Qed.

(** One turn of the outer loop of [_sample_interval] whose candidate record
    is on an allowed weekday: one draw, then the sample or the next turn. *)
Lemma sample_interval_loop_turn s df lo hi n a b name fuel att w c d fr du
    len gap :
  att <= max_attempts ->
  c = interval_first_row lo hi n (beta (rng w) a b (pos (rng w))) ->
  0 <= c -> nth_error (map index df) (Z.to_nat c) = Some d ->
  py_in (weekday d) (start_weekdays s) = true ->
  get_loc_nearest (map index df) (anchor_time (anchor_of s d)) = Some fr ->
  realized_duration (py_slice df fr (fr + n)) = Some du ->
  max_sample_len_delta s = Some len -> max_time_gap s = Some gap ->
  sample_interval_loop (S fuel) s df lo hi n a b name att w =
    if du - len <? gap then
      new_sample s (SampleId (name ++ "num_") (sample_num s) (anchor_of s d))
        (py_slice df fr (fr + n)) "interval_sample" fr (drawn 1 w)
    else
      sample_interval_loop fuel s df lo hi n a b name (att + 1) (drawn 1 w).
Proof.
  intros Hatt Hc Hc0 Hd Hday Hnear Hdur Hlen Hgap.
  assert (Hrow : 0 <= c < shape0 df).
  { split; [assumption|].
    assert (H : (Z.to_nat c < length (map index df))%nat)
      by (apply nth_error_Some; congruence).
    rewrite length_map in H. unfold shape0. lia. }
  destruct (time_first_nth df c Hrow) as (t & Ht & Hnth).
  assert (t = d) as -> by congruence.
  cbn [sample_interval_loop].
  assert (E : (att <=? max_attempts) = true) by (apply Z.leb_le; lia).
  rewrite E.
  rewrite (bind_ok_at _ _ _ _ _ (random_beta_at a b w)). cbv zeta.
  rewrite <- Hc. unfold index_first at 1. rewrite Ht.
  rewrite (bind_ok_at _ _ _ _ _ (some_or_at _ _ _)).
  rewrite (bind_ok_at _ _ _ _ _
             (seek_weekday_interval_done _ _ _ _ _ _ _ _ _ _ _ _ Hday)).
  rewrite E. cbn [negb]. rewrite Hnear.
  rewrite (bind_ok_at _ _ _ _ _ (some_or_at _ _ _)). cbv zeta.
  unfold realized_duration in Hdur. unfold index_last, index_first.
  destruct (time_last (py_slice df fr (fr + n))) as [tl|]; [|discriminate].
  destruct (time_first (py_slice df fr (fr + n))) as [tf|]; [|discriminate].
  inversion Hdur; subst du.
  rewrite !(bind_ok_at _ _ _ _ _ (some_or_at _ _ _)).
  rewrite Hlen, Hgap.
  rewrite !(bind_ok_at _ _ _ _ _ (some_or_at _ _ _)).
  destruct (tl - tf - len <? gap); reflexivity.
Qed.

(** X4.  The first draw is enough when its record qualifies.  On a request
    that passes the checks ([lo < hi <= rows], positive beta parameters) of
    an instance with a sample class, if the record the first draw points to
    (row [c], at [d]) is on an allowed weekday, and the rows from the row
    nearest to its anchor ([fr]) on last less than
    [max_sample_len_delta + max_time_gap], then [_sample_interval] returns
    after this one draw with a new object, made of these rows, labelled
    ["interval_sample"] and named after the sample number and the anchor. *)
Theorem sample_interval_first_draw lo hi a b name w df c d fr du len gap cls :
  data (obj w) = Some df ->
  lo < hi <= shape0 df -> Qltb 0 a = true -> Qltb 0 b = true ->
  c = interval_first_row lo hi (sample_num_records (obj w))
        (beta (rng w) a b (pos (rng w))) ->
  0 <= c -> nth_error (map index df) (Z.to_nat c) = Some d ->
  py_in (weekday d) (start_weekdays (obj w)) = true ->
  get_loc_nearest (map index df) (anchor_time (anchor_of (obj w) d))
    = Some fr ->
  realized_duration (py_slice df fr (fr + sample_num_records (obj w)))
    = Some du ->
  max_sample_len_delta (obj w) = Some len ->
  max_time_gap (obj w) = Some gap ->
  du - len < gap ->
  nested_class_ref (obj w) = Some cls ->
  _sample_interval [lo; hi] a b name w =
    (Ok (length (heap w)),
     drawn_alloc 1
       (cut_sample (obj w) df (name ++ "num_") "interval_sample" d fr) w).
Proof.
  intros Hdata Hhi Ha Hb Hc Hc0 Hd Hday Hnear Hdur Hlen Hgap Hfit Hcls.
  assert (Hv : valid_request (obj w) [lo; hi] a b = true).
  { unfold valid_request. rewrite Hdata.
    destruct df as [|r rest];
      [destruct (Z.to_nat c); discriminate Hd|].
    cbn [length Nat.eqb nth last andb]. rewrite Ha, Hb. cbn [andb].
    apply andb_true_intro. split; [apply Z.ltb_lt|apply Z.leb_le]; lia. }
  destruct (sample_interval_valid _ _ _ name _ Hv)
    as (df' & lo' & hi' & Hdata' & Hint & _ & _ & _ & ->).
  rewrite Hdata in Hdata'. inversion Hdata'; subst df'.
  inversion Hint; subst lo' hi'.
  change loop_fuel with (S (Nat.pred loop_fuel)).
  rewrite (sample_interval_loop_turn _ _ _ _ _ _ _ _ _ _ _ c d fr du len gap)
    by (assumption || (unfold max_attempts; lia)).
  assert (E : (du - len <? gap) = true) by (apply Z.ltb_lt; lia).
  rewrite E. unfold new_sample. rewrite Hcls. reflexivity.
Qed.

(** A run of X4: a draw of one half points to the first Monday record. *)
Lemma sample_interval_first_draw_witness :
  _sample_interval [0; 5] 1 1 "train_" planned_monday_world =
    (Ok (length (heap planned_monday_world)),
     drawn_alloc 1
       (cut_sample (obj planned_monday_world) monday_rows
          ("train_" ++ "num_") "interval_sample" (86400 * 11) 1)
       planned_monday_world).
Proof.
  apply (sample_interval_first_draw 0 5 1 1 "train_" planned_monday_world
           monday_rows 1 (86400 * 11) 1 60 120 3600 "BTgymDataset").
  1: by_run. 1: by_calc. 1: by_run. 1: by_run. 1: by_run. 1: by_calc.
  1: by_run. 1: by_run. 1: by_run. 1: by_run. 1: by_run. 1: by_run.
  1: by_calc. by_run.
Defined.

Lemma get_loc_nearest_row idx c d :
  NoDup idx -> 0 <= c -> nth_error idx (Z.to_nat c) = Some d ->
  get_loc_nearest idx d = Some c.
Proof.
  intros Hnd Hc Hd.
  destruct (get_loc_nearest_range idx d) as (r & Hr & _).
  { intros ->. destruct (Z.to_nat c); discriminate. }
  rewrite Hr. f_equal. eapply nearest_of_row; eauto.
Qed.

Lemma sample_interval_loop_gap s df lo hi a b name len gap fuel :
  NoDup (map index df) -> start_00 s = false ->
  0 <= lo -> 1 <= sample_num_records s <= hi - lo -> hi <= shape0 df ->
  (forall t, In t (map index df) ->
     py_in (weekday t) (start_weekdays s) = true) ->
  max_sample_len_delta s = Some len -> max_time_gap s = Some gap ->
  (forall c du, lo <= c <= hi - sample_num_records s ->
     realized_duration (py_slice df c (c + sample_num_records s)) = Some du ->
     gap <= du - len) ->
  forall att w,
    unit_draws a b w ->
    0 <= att <= max_attempts + 1 ->
    max_attempts + 1 - att <= Z.of_nat fuel ->
    sample_interval_loop fuel s df lo hi (sample_num_records s) a b name att w
      = (Raise RuntimeError (Some (max_attempts + 1)),
         drawn (Z.to_nat (max_attempts + 1 - att)) w).
Proof.
  intros Hnd H00 Hlo Hn Hhi Hdays Hlen Hgap Hlong.
  induction fuel as [|fuel IH]; intros att w Hu Hatt Hfuel.
  - assert (att = max_attempts + 1) as -> by lia.
    cbn. rewrite drawn_0. reflexivity.
  - destruct (Z.eq_dec att (max_attempts + 1)) as [->|Hne].
    + cbn [sample_interval_loop].
      change (max_attempts + 1 <=? max_attempts) with false. cbv iota.
      rewrite Z.sub_diag. cbn [Z.to_nat]. rewrite drawn_0. reflexivity.
    + destruct (Hu (pos (rng w))) as [Hu0 Hu1].
      assert (Hspan : 0 <= hi - lo - sample_num_records s) by lia.
      pose proof (py_int_scaled _ _ Hspan Hu0 Hu1) as Hr.
      set (c := interval_first_row lo hi (sample_num_records s)
                  (beta (rng w) a b (pos (rng w)))).
      assert (Hc : lo <= c <= hi - sample_num_records s)
        by (subst c; unfold interval_first_row; lia).
      assert (Hrow : 0 <= c < shape0 df) by lia.
      destruct (time_first_nth df c Hrow) as (d & _ & Hd).
      assert (Hin : In d (map index df)) by (eapply nth_error_In; eauto).
      assert (Hnear : get_loc_nearest (map index df)
                        (anchor_time (anchor_of s d)) = Some c).
      { unfold anchor_of. rewrite H00. cbn [anchor_time].
        apply get_loc_nearest_row; [assumption|lia|assumption]. }
      destruct (slice_times df c (sample_num_records s) Hrow (proj1 Hn))
        as (tl & tf & Htl & Htf).
      assert (Hdur : realized_duration
                       (py_slice df c (c + sample_num_records s))
                     = Some (tl - tf))
        by (unfold realized_duration; now rewrite Htl, Htf).
      rewrite (sample_interval_loop_turn _ _ _ _ _ _ _ _ _ _ _ c d c (tl - tf)
                 len gap)
        by (auto; lia).
      assert (E : (tl - tf - len <? gap) = false).
      { apply Z.ltb_ge. apply (Hlong c); assumption. }
      rewrite E, IH.
      * rewrite drawn_drawn. do 2 f_equal. lia.
      * intros k. apply Hu.
      * lia.
      * lia.
Qed.

(** X5.  On data without repeated timestamps, with [start_00] off and draws
    in [0, 1]: when every record is on an allowed weekday but every run of
    [sample_num_records] rows that starts in the interval is too long for
    the gap tolerance, [_sample_interval] gives up with a [RuntimeError] that
    reports 101 attempts, after 101 draws: one per attempt, where running
    out of weekdays takes 102. *)
Theorem sample_interval_gap_exhausts lo hi a b name w df len gap :
  data (obj w) = Some df ->
  NoDup (map index df) -> start_00 (obj w) = false ->
  0 <= lo -> 1 <= sample_num_records (obj w) <= hi - lo -> hi <= shape0 df ->
  Qltb 0 a = true -> Qltb 0 b = true ->
  unit_draws a b w ->
  (forall t, In t (map index df) ->
     py_in (weekday t) (start_weekdays (obj w)) = true) ->
  max_sample_len_delta (obj w) = Some len ->
  max_time_gap (obj w) = Some gap ->
  (forall c du, lo <= c <= hi - sample_num_records (obj w) ->
     realized_duration (py_slice df c (c + sample_num_records (obj w)))
       = Some du ->
     gap <= du - len) ->
  _sample_interval [lo; hi] a b name w =
    (Raise RuntimeError (Some 101), drawn 101 w).
Proof.
  intros Hdata Hnd H00 Hlo Hn Hhi Ha Hb Hu Hdays Hlen Hgap Hlong.
  rewrite (sample_interval_enter lo hi a b name w df) by (assumption || lia).
  rewrite (sample_interval_loop_gap (obj w) df lo hi a b name len gap
             loop_fuel Hnd H00 Hlo Hn Hhi Hdays Hlen Hgap Hlong 0 w Hu).
  - reflexivity.
  - unfold max_attempts. lia.
  - apply loop_fuel_enough. lia.
Qed.

(** A run of X5: daily records, two-minute samples, a gap of one hour. *)
Lemma sample_interval_gap_exhausts_witness :
  _sample_interval [0; 4] 1 1 "train_" planned_daily_world =
    (Raise RuntimeError (Some 101), drawn 101 planned_daily_world).
Proof.
  apply (sample_interval_gap_exhausts 0 4 1 1 "train_" planned_daily_world
           daily_rows 120 3600).
  1: by_run. 1: by_nodup. 1: by_run. 1: by_calc. 1: by_calc. 1: by_calc.
  1: by_run. 1: by_run. 1: by_draws.
  - intros t Hin. vm_compute in Hin.
    destruct Hin as [<-|[<-|[<-|[<-|[]]]]]; by_run.
  - by_run.
  - by_run.
  - intros c du Hc.
    change (sample_num_records (obj planned_daily_world)) with 2 in *.
    assert (Hcases : c = 0 \/ c = 1 \/ c = 2) by lia.
    destruct Hcases as [->|[->| ->]]; vm_compute;
      intros Hdu; injection Hdu as <-; intros Hgt; discriminate Hgt.
Defined.

(** ** Random searches *)

Lemma sample_random_window name w df :
  data (obj w) = Some df ->
  1 <= sample_num_records (obj w) <= shape0 df - 1 ->
  unit_uniform w ->
  post (_sample_random name) w
    (window_post (obj w) df 0 (shape0 df - sample_num_records (obj w) - 1)
       (name ++ "n") "random_sample" AssertionError w).
Proof.
  intros Hdata Hn Hu. unfold post.
  rewrite (sample_random_enter name w df) by (assumption || lia).
  apply sample_random_loop_window; try assumption.
  - attempts.
  - apply loop_fuel_enough; lia.
Qed.

(** X6.  On data whose timestamps do not repeat and that has room for a
    sample ([1 <= sample_num_records <= rows - 1]), with draws in [0, 1],
    [_sample_random] ends in one of three ways only: a sample of at least
    one and at most [sample_num_records] rows that starts at a row of the
    data; an exception that reports 101 attempts, which is an
    [AssertionError] when the weekdays ran out and a [RuntimeError] when the
    gap check did; or a [TypeError], when the instance has no sample class or
    was never planned. *)
Theorem sample_random_well_posed name w df r w' :
  data (obj w) = Some df -> NoDup (map index df) ->
  1 <= sample_num_records (obj w) <= shape0 df - 1 ->
  unit_uniform w ->
  _sample_random name w = (r, w') ->
  match r with
  | Ok l =>
      exists ep first_row rows,
        sample_at l w' = Some ep /\
        md_first_row (metadata ep) = Some (PyInt first_row) /\
        0 <= first_row < shape0 df /\
        data ep = Some rows /\
        rows = py_slice df first_row (first_row + sample_num_records (obj w)) /\
        1 <= Z.of_nat (length rows) <= sample_num_records (obj w)
  | Raise e m =>
      ((e = AssertionError \/ e = RuntimeError) /\ m = Some 101) \/
      (e = TypeError /\ m = None /\
       (nested_class_ref (obj w) = None \/
        max_sample_len_delta (obj w) = None \/
        max_time_gap (obj w) = None))
  | OutOfFuel => False
  end.
Proof.
  intros Hdata _ Hn Hu Hrun.
  pose proof (post_run _ _ _ _ _
                (sample_random_window name w df Hdata Hn Hu) Hrun) as H.
  destruct r as [l|e m|]; cbn in H; [| |exact H].
  - destruct H as (k & c & d & fr & du & len & gap & -> & -> & Hc & Hd &
                   Hday & Hnear & Hdur & _).
    apply get_loc_nearest_some in Hnear. rewrite shape0_map_index in Hnear.
    eexists _, fr, _. rewrite window_sample_at.
    split; [reflexivity|]. split; [reflexivity|]. split; [assumption|].
    split; [reflexivity|]. split; [reflexivity|].
    rewrite py_slice_length by (unfold shape0 in *; lia).
    unfold shape0 in *. lia.
  - destruct H as [_ [[-> [->| ->]] | (-> & -> & H)]]; auto.
Qed.

(** A run of X6: the planned Monday rows. *)
Lemma sample_random_well_posed_witness :
  exists ep first_row,
    sample_at 0%nat
      (after (_sample_random "random_sample_") planned_monday_world)
      = Some ep /\
    md_first_row (metadata ep) = Some (PyInt first_row) /\
    0 <= first_row < 5.
Proof.
  unshelve epose proof
    (sample_random_well_posed "random_sample_" planned_monday_world
       monday_rows (Ok 0%nat)
       (after (_sample_random "random_sample_") planned_monday_world)
       _ _ _ _ _) as H.
  1: by_run. 1: by_nodup. 1: by_calc. 1: by_draws. 1: by_run.
  destruct H as (ep & fr & rows & H1 & H2 & H3 & _).
  exists ep, fr. split; [exact H1|]. split; [exact H2|exact H3].
Defined.

(** X7.  On data that has room for a sample besides its last row
    ([1 <= sample_num_records <= rows - 1]), when no timestamp repeats,
    [start_00] is off and the draws are in [0, 1], a sample of
    [_sample_random] ends before the last row of the data:
    [first_row + sample_num_records <= rows - 1], so the last record is not
    part of it; its rows are exactly the [sample_num_records] rows from
    [first_row] on, and its first record is on an allowed weekday. *)
Theorem sample_random_in_place name w df l w' :
  data (obj w) = Some df ->
  NoDup (map index df) -> start_00 (obj w) = false ->
  1 <= sample_num_records (obj w) <= shape0 df - 1 ->
  unit_uniform w ->
  _sample_random name w = (Ok l, w') ->
  exists ep first_row day,
    sample_at l w' = Some ep /\
    md_first_row (metadata ep) = Some (PyInt first_row) /\
    0 <= first_row /\
    first_row + sample_num_records (obj w) <= shape0 df - 1 /\
    data ep = Some (firstn (Z.to_nat (sample_num_records (obj w)))
                      (skipn (Z.to_nat first_row) df)) /\
    first_weekday ep = Some day /\
    py_in day (start_weekdays (obj w)) = true.
Proof.
  intros Hdata Hnd H00 Hn Hu Hrun.
  pose proof (post_run _ _ _ _ _
                (sample_random_window name w df Hdata Hn Hu) Hrun) as H.
  assert (Hn0 : 0 <= sample_num_records (obj w)) by lia.
  assert (Htop : shape0 df - sample_num_records (obj w) - 1
                 + sample_num_records (obj w) <= shape0 df) by lia.
  destruct (window_in_place _ _ _ _ _ _ _ _ _ _ Hnd H00 (Z.le_refl 0)
              Hn0 Htop H)
    as (k & ep & fr & day & -> & -> & H2 & H3 & H4 & H5 & H6).
  exists ep, fr, day. rewrite window_sample_at.
  repeat split; auto; lia.
Qed.

(** A run of X7: the planned Monday rows, whose last row is row 4. *)
Lemma sample_random_in_place_witness :
  exists ep first_row,
    sample_at 0%nat
      (after (_sample_random "random_sample_") planned_monday_world)
      = Some ep /\
    md_first_row (metadata ep) = Some (PyInt first_row) /\
    0 <= first_row /\ first_row + 2 <= 4.
Proof.
  unshelve epose proof
    (sample_random_in_place "random_sample_" planned_monday_world
       monday_rows 0%nat
       (after (_sample_random "random_sample_") planned_monday_world)
       _ _ _ _ _ _) as H.
  1: by_run. 1: by_nodup. 1: by_run. 1: by_calc. 1: by_draws. 1: by_run.
  destruct H as (ep & fr & day & H1 & H2 & H3 & H4 & _).
  exists ep, fr. repeat (split; [assumption|]). exact H4.
Defined.

Lemma seek_weekday_random_exhausts s df fuel :
  no_start_day s df ->
  0 <= shape0 df - sample_num_records s - 1 ->
  0 <= sample_num_records s ->
  forall fr d att w,
    unit_uniform w ->
    In d (map index df) ->
    att <= max_attempts + 1 ->
    max_attempts + 1 - att <= Z.of_nat fuel ->
    post (seek_weekday_random fuel s df fr d att) w
      (fun r w' =>
         w' = drawn (Z.to_nat (max_attempts + 1 - att)) w /\
         exists fr' d', r = Ok (fr', d', max_attempts + 1)).
Proof.
  intros Hno Hspan Hn.
  induction fuel as [|fuel IH]; intros fr d att w Hu Hd Hatt Hfuel;
    cbn [seek_weekday_random]; rewrite (Hno d Hd); cbn [negb andb];
    wp_step.
  - apply Z.leb_le in Heqb. lia.
  - wp_step. apply Z.leb_gt in Heqb.
    replace (max_attempts + 1 - att) with 0 by lia.
    rewrite drawn_0. split; [reflexivity|].
    exists fr, d. repeat f_equal. lia.
  - apply Z.leb_le in Heqb. do 3 wp_step.
    destruct (Hu (pos (rng w))) as [Hu0 Hu1].
    pose proof (py_int_scaled _ _ Hspan Hu0 Hu1) as Hr.
    destruct (time_first_row df
                (random_first_row (shape0 df) (sample_num_records s)
                   (uniform (rng w) (pos (rng w)))))
      as (t & Ht & Hin).
    { unfold random_first_row. lia. }
    unfold index_first. rewrite Ht. do 2 wp_step.
    eapply post_mono.
    { apply IH; try assumption; try lia. }
    cbv beta. intros r w' [-> Hr']. split; [|assumption].
    rewrite drawn_1, drawn_drawn. f_equal. lia.
  - wp_step. apply Z.leb_gt in Heqb.
    replace (max_attempts + 1 - att) with 0 by lia.
    rewrite drawn_0. split; [reflexivity|].
    exists fr, d. repeat f_equal. lia.
Qed.

(** X8.  With no record on an allowed weekday and draws in [0, 1],
    [_sample_random] on data with room for a sample
    ([0 <= sample_num_records <= rows - 1]) gives up after 102 draws with a
    bare [AssertionError] at 101 attempts, from its
    [assert attempts <= max_attempts], where [_sample_interval] raises a
    [RuntimeError]. *)
Theorem sample_random_exhausts name w df :
  data (obj w) = Some df ->
  no_start_day (obj w) df ->
  0 <= sample_num_records (obj w) <= shape0 df - 1 ->
  unit_uniform w ->
  _sample_random name w =
    (Raise AssertionError (Some 101), drawn 102 w).
Proof.
  intros Hdata Hno Hn Hu.
  rewrite (sample_random_enter name w df) by (assumption || lia).
  apply post_eq.
  change loop_fuel with (S (Nat.pred loop_fuel)).
  cbn [sample_random_loop]. change (0 <=? max_attempts) with true.
  cbv beta iota. do 3 wp_step.
  destruct (Hu (pos (rng w))) as [Hu0 Hu1].
  assert (Hspan : 0 <= shape0 df - sample_num_records (obj w) - 1) by lia.
  pose proof (py_int_scaled _ _ Hspan Hu0 Hu1) as Hr.
  destruct (time_first_row df
              (random_first_row (shape0 df) (sample_num_records (obj w))
                 (uniform (rng w) (pos (rng w)))))
    as (t & Ht & Hin).
  { unfold random_first_row. lia. }
  unfold index_first. rewrite Ht. do 3 wp_step.
  eapply post_mono.
  { apply seek_weekday_random_exhausts; try assumption; try lia.
    - unfold max_attempts; lia.
    - unfold loop_fuel, max_attempts; lia. }
  cbv beta. intros r w' [-> (fr' & d' & ->)].
  change (negb (max_attempts + 1 <=? max_attempts)) with true. cbv beta iota.
  wp_step. split; [reflexivity|].
  rewrite drawn_1, drawn_drawn. reflexivity.
Qed.

(** A run of X8: weekday rows, samples that may only start on a Sunday. *)
Lemma sample_random_exhausts_witness :
  _sample_random "random_sample_" (planned_weekdays_world half) =
    (Raise AssertionError (Some 101), drawn 102 (planned_weekdays_world half)).
Proof.
  apply (sample_random_exhausts "random_sample_" (planned_weekdays_world half)
           weekdays_rows).
  - by_run.
  - apply no_start_day_check. by_run.
  - by_calc.
  - by_draws.
Defined.

(** ** When no sample can be made *)

Lemma no_start_day_rejects s df prefix type ep :
  data s = Some df -> no_start_day s df -> ~ accepted s prefix type ep.
Proof.
  intros Hd Hno (df' & cand & fr & Hd' & Hin & Hday & _).
  rewrite Hd in Hd'. inversion Hd'; subst df'.
  rewrite (Hno _ Hin) in Hday. discriminate.
Qed.

Lemma no_rows_rejects s prefix type ep :
  sample_num_records s = 0 -> ~ accepted s prefix type ep.
Proof.
  intros Hn (df & cand & fr & _ & _ & _ & _ & _ & _ & _ & _ &
             du & len & gap & Hdur & _).
  rewrite Hn in Hdur. unfold realized_duration, time_last, py_slice in Hdur.
  replace (slice_bound (Z.of_nat (length df)) (fr + 0)
           - slice_bound (Z.of_nat (length df)) fr) with 0 in Hdur
    by (rewrite Z.add_0_r; lia).
  discriminate.
Qed.

(** A fresh [_sample] that returns has made an accepted sample. *)
Lemma sample_fresh_accepted get_new sample_type b_alpha b_beta w l w' :
  fresh_request get_new (obj w) ->
  _sample get_new sample_type b_alpha b_beta w = (Ok l, w') ->
  exists ep prefix k,
    accepted (obj w) prefix "interval_sample" ep /\
    l = length (heap w) /\
    w' = stamped sample_type l (drawn_alloc k ep w).
Proof.
  intros Hfresh Hrun.
  destruct (is_ready (obj w)) eqn:Hready;
    [|rewrite sample_not_ready in Hrun by assumption; discriminate].
  destruct (py_in sample_type [0; 1]) eqn:Htype.
  2:{ unfold _sample, bind, self, py_assert in Hrun. cbn [obj] in Hrun.
      rewrite Hready, Htype in Hrun. discriminate. }
  rewrite (sample_fresh _ _ _ _ _ Hready Htype Hfresh) in Hrun.
  destruct (dispatched_spec sample_type b_alpha b_beta w) as [prefix Hpost].
  unfold post in Hpost.
  destruct (dispatched sample_type b_alpha b_beta (obj w) w) as [[l1|e m|] w1];
    try discriminate.
  inversion Hrun; subst. cbn in Hpost.
  destruct Hpost as (k & ep & -> & -> & Hacc).
  exists ep, prefix, k. auto.
Qed.

(** The default [start_weekdays = []] allows no weekday. *)
Lemma no_start_day_default s df : start_weekdays s = [] -> no_start_day s df.
Proof. intros H t _. now rewrite H. Qed.

(** X9.  When no record of the data is on an allowed weekday, as with the
    default [start_weekdays = []], no search returns a sample, whatever the
    draws: not [_sample_interval], not [_sample_random], and no [_sample]
    that makes a new sample. *)
Theorem no_start_day_no_sample w df :
  data (obj w) = Some df -> no_start_day (obj w) df ->
  (forall interval a b name l w',
     _sample_interval interval a b name w <> (Ok l, w')) /\
  (forall name l w', _sample_random name w <> (Ok l, w')) /\
  (forall get_new sample_type b_alpha b_beta l w',
     fresh_request get_new (obj w) ->
     _sample get_new sample_type b_alpha b_beta w <> (Ok l, w')).
Proof.
  intros Hd Hno. split; [|split].
  - intros interval a b name l w' Hrun.
    pose proof (post_run _ _ _ _ _ (sample_interval_spec _ _ _ _ _) Hrun) as H.
    destruct H as (k & ep & _ & _ & Hacc).
    exact (no_start_day_rejects _ _ _ _ _ Hd Hno Hacc).
  - intros name l w' Hrun.
    pose proof (post_run _ _ _ _ _ (sample_random_spec _ _) Hrun) as H.
    destruct H as (k & ep & _ & _ & Hacc).
    exact (no_start_day_rejects _ _ _ _ _ Hd Hno Hacc).
  - intros get_new t a b l w' Hfresh Hrun.
    destruct (sample_fresh_accepted _ _ _ _ _ _ _ Hfresh Hrun)
      as (ep & prefix & k & Hacc & _).
    exact (no_start_day_rejects _ _ _ _ _ Hd Hno Hacc).
Qed.

(** A run of X9: weekday rows, samples that may only start on a Sunday. *)
Lemma no_start_day_no_sample_witness :
  ~ exists l w',
      _sample true 0 1 1 (planned_weekdays_world half) = (Ok l, w').
Proof.
  intros (l & w' & Hrun).
  unshelve epose proof
    (no_start_day_no_sample (planned_weekdays_world half) weekdays_rows _ _)
    as H.
  1: by_run. 1: apply no_start_day_check; by_run.
  destruct H as (_ & _ & H).
  exact (H true 0 1%Q 1%Q l w' (or_introl eq_refl) Hrun).
Defined.

(** X10.  When [sample_num_records] is 0, as it is after a [_reset] with the
    default [sample_duration] of no time, no search returns a sample: the
    rows cut for it would be none. *)
Theorem no_rows_no_sample w :
  sample_num_records (obj w) = 0 ->
  (forall interval a b name l w',
     _sample_interval interval a b name w <> (Ok l, w')) /\
  (forall name l w', _sample_random name w <> (Ok l, w')) /\
  (forall get_new sample_type b_alpha b_beta l w',
     fresh_request get_new (obj w) ->
     _sample get_new sample_type b_alpha b_beta w <> (Ok l, w')).
Proof.
  intros Hn. split; [|split].
  - intros interval a b name l w' Hrun.
    pose proof (post_run _ _ _ _ _ (sample_interval_spec _ _ _ _ _) Hrun) as H.
    destruct H as (k & ep & _ & _ & Hacc).
    exact (no_rows_rejects _ _ _ _ Hn Hacc).
  - intros name l w' Hrun.
    pose proof (post_run _ _ _ _ _ (sample_random_spec _ _) Hrun) as H.
    destruct H as (k & ep & _ & _ & Hacc).
    exact (no_rows_rejects _ _ _ _ Hn Hacc).
  - intros get_new t a b l w' Hfresh Hrun.
    destruct (sample_fresh_accepted _ _ _ _ _ _ _ Hfresh Hrun)
      as (ep & prefix & k & Hacc & _).
    exact (no_rows_rejects _ _ _ _ Hn Hacc).
Qed.

(** A run of X10: the default sampling parameters. *)
Lemma no_rows_no_sample_witness :
  ~ exists l w', _sample true 0 1 1 planned_default_world = (Ok l, w').
Proof.
  intros (l & w' & Hrun).
  unshelve epose proof (no_rows_no_sample planned_default_world _) as H.
  1: by_run.
  destruct H as (_ & _ & H).
  exact (H true 0 1%Q 1%Q l w' (or_introl eq_refl) Hrun).
Defined.

Lemma seek_weekday_random_frame s df fuel :
  forall fr d att w,
    post (seek_weekday_random fuel s df fr d att) w
      (fun r w' =>
         heap w' = heap w /\ obj w' = obj w /\
         forall e m, r = Raise e m -> e = IndexError).
Proof.
  induction fuel as [|fuel IH]; intros fr d att w;
    cbn [seek_weekday_random]; wp.
  all: try (cbn; repeat split; congruence).
  eapply post_mono; [apply IH|]. cbv beta. cbn. tauto.
Qed.

Lemma sample_random_loop_frame s df name fuel :
  forall att w,
    post (sample_random_loop fuel s df name att) w
      (fun r w' =>
         obj w' = obj w /\
         match r with
         | Ok l =>
             nested_class_ref s <> None /\ l = length (heap w) /\
             exists id rows first_row,
               heap w' =
                 heap w ++ [made_sample s id rows "random_sample" first_row]
         | Raise e m =>
             heap w' = heap w /\ (e = AssertionError \/ search_exception e)
         | OutOfFuel => heap w' = heap w
         end).
Proof.
  unfold search_exception.
  induction fuel as [|fuel IH]; intros att w;
    cbn [sample_random_loop]; wp_step.
  - wp_step. auto.
  - wp_step. auto 6.
  - do 6 wp_step; [|cbn; auto 7].
    do 2 wp_step.
    eapply post_mono; [apply seek_weekday_random_frame|].
    cbv beta. intros r w1. cbn [heap obj]. intros (Hh & Ho & He).
    destruct r as [[[fr' d'] att']|e m|];
      [|rewrite Hh, Ho; split; [reflexivity|]; split; [reflexivity|];
        rewrite (He _ _ eq_refl); auto 6|rewrite Hh, Ho; auto].
    wp.
    all: try (cbn; rewrite Hh, Ho; auto 8; fail).
    + cbn. rewrite Hh, Ho. split; [reflexivity|].
      split; [congruence|]. split; [reflexivity|].
      do 3 eexists. unfold made_sample. reflexivity.
    + eapply post_mono; [apply IH|]. cbv beta. intros r w2.
      rewrite Hh, Ho. tauto.
  - wp_step. auto 6.
Qed.

(** What a search that returns has made, and with what. *)
Lemma sample_interval_made interval a b name w l w' :
  _sample_interval interval a b name w = (Ok l, w') ->
  nested_class_ref (obj w) <> None /\ l = length (heap w) /\
  obj w' = obj w /\
  exists id rows first_row,
    heap w' =
      heap w ++ [made_sample (obj w) id rows "interval_sample" first_row].
Proof.
  intros Hrun.
  destruct (valid_request (obj w) interval a b) eqn:Hv;
    [|rewrite sample_interval_invalid in Hrun by assumption; discriminate].
  destruct (sample_interval_valid _ _ _ name _ Hv)
    as (df & lo & hi & _ & _ & _ & _ & _ & E).
  rewrite E in Hrun.
  pose proof (post_run _ _ _ _ _
                (sample_interval_loop_frame _ _ _ _ _ _ _ _ _ _ _) Hrun)
    as (Ho & Hc & Hl & H).
  auto.
Qed.

Lemma sample_random_made name w l w' :
  _sample_random name w = (Ok l, w') ->
  nested_class_ref (obj w) <> None /\ l = length (heap w) /\
  obj w' = obj w /\
  exists id rows first_row,
    heap w' =
      heap w ++ [made_sample (obj w) id rows "random_sample" first_row].
Proof.
  intros Hrun. unfold _sample_random, bind, self, loaded_data in Hrun.
  destruct (data (obj w)) as [[|r rest]|]; try discriminate.
  cbv [ret] in Hrun.
  pose proof (post_run _ _ _ _ _
                (sample_random_loop_frame _ _ _ _ _ _) Hrun)
    as (Ho & Hc & Hl & H).
  auto.
Qed.

Lemma sample_fresh_dispatched get_new sample_type b_alpha b_beta w l w' :
  fresh_request get_new (obj w) ->
  _sample get_new sample_type b_alpha b_beta w = (Ok l, w') ->
  exists w1,
    dispatched sample_type b_alpha b_beta (obj w) w = (Ok l, w1) /\
    w' = stamped sample_type l w1.
Proof.
  intros Hfresh Hrun.
  destruct (is_ready (obj w)) eqn:Hready;
    [|rewrite sample_not_ready in Hrun by assumption; discriminate].
  destruct (py_in sample_type [0; 1]) eqn:Htype.
  2:{ unfold _sample, bind, self, py_assert in Hrun. cbn [obj] in Hrun.
      rewrite Hready, Htype in Hrun. discriminate. }
  rewrite (sample_fresh _ _ _ _ _ Hready Htype Hfresh) in Hrun.
  destruct (dispatched sample_type b_alpha b_beta (obj w) w) as [[l1|e m|] w1];
    try discriminate.
  inversion Hrun; subst. eauto.
Qed.

(** X11.  An instance without a sample class ([nested_class_ref] is [None],
    as when it was made with an empty [_config_stack]) never returns a
    sample. *)
Theorem no_class_no_sample w :
  nested_class_ref (obj w) = None ->
  (forall interval a b name l w',
     _sample_interval interval a b name w <> (Ok l, w')) /\
  (forall name l w', _sample_random name w <> (Ok l, w')) /\
  (forall get_new sample_type b_alpha b_beta l w',
     fresh_request get_new (obj w) ->
     _sample get_new sample_type b_alpha b_beta w <> (Ok l, w')).
Proof.
  intros Hc. split; [|split].
  - intros interval a b name l w' Hrun.
    apply sample_interval_made in Hrun as [H _]. contradiction.
  - intros name l w' Hrun.
    apply sample_random_made in Hrun as [H _]. contradiction.
  - intros get_new t a b l w' Hfresh Hrun.
    destruct (sample_fresh_dispatched _ _ _ _ _ _ _ Hfresh Hrun)
      as (w1 & Hd & _).
    unfold dispatched in Hd.
    destruct (t =? 0); apply sample_interval_made in Hd as [H _];
      contradiction.
Qed.

(** A run of X11: an instance made with an empty stack. *)
Lemma no_class_no_sample_witness :
  ~ exists l w',
      _sample_interval [0; 5] 1 1 "train_" planned_leaf_world = (Ok l, w').
Proof.
  intros (l & w' & Hrun).
  unshelve epose proof (no_class_no_sample planned_leaf_world _) as H.
  1: by_run.
  destruct H as (H & _).
  exact (H [0; 5] 1%Q 1%Q "train_"%string l w' Hrun).
Defined.

(** X12.  A search, of an interval or random, only draws and allocates: it
    leaves the instance and the files as they were, never moves the random
    position back, makes exactly one object when it returns, the one it
    returns, and none when it raises. *)
Theorem search_frame w r w' :
  (exists interval a b name, _sample_interval interval a b name w = (r, w')) \/
  (exists name, _sample_random name w = (r, w')) ->
  obj w' = obj w /\ files w' = files w /\
  (pos (rng w) <= pos (rng w'))%nat /\
  match r with
  | Ok l => l = length (heap w) /\ exists ep, heap w' = heap w ++ [ep]
  | _ => heap w' = heap w
  end.
Proof.
  intros Hrun.
  assert (H : exists prefix type, search_post prefix type w r w').
  { destruct Hrun as [(interval & a & b & name & Hrun)|(name & Hrun)].
    - do 2 eexists.
      exact (post_run _ _ _ _ _ (sample_interval_spec _ _ _ _ _) Hrun).
    - do 2 eexists.
      exact (post_run _ _ _ _ _ (sample_random_spec _ _) Hrun). }
  destruct H as (prefix & type & H).
  destruct r as [l|e m|]; cbn in H; [| |contradiction].
  - destruct H as (k & ep & -> & -> & _). cbn.
    repeat split; try lia. eauto.
  - destruct H as [[k ->] _]. cbn. repeat split; lia.
Qed.

(** A run of X12: a search of the planned Monday rows. *)
Lemma search_frame_witness :
  obj (after (_sample_interval [0; 5] 1 1 "train_") planned_monday_world)
    = obj planned_monday_world /\
  exists ep,
    heap (after (_sample_interval [0; 5] 1 1 "train_") planned_monday_world)
      = heap planned_monday_world ++ [ep].
Proof.
  unshelve epose proof
    (search_frame planned_monday_world (Ok 0%nat)
       (after (_sample_interval [0; 5] 1 1 "train_") planned_monday_world) _)
    as H.
  1: left; exists [0; 5], 1%Q, 1%Q, "train_"%string; by_run.
  destruct H as (H1 & _ & _ & _ & H2). split; [exact H1|exact H2].
Defined.

(** ** New samples *)

Lemma stamped_sample_at sample_type h ep w1 :
  heap w1 = h ++ [ep] ->
  sample_at (length h) (stamped sample_type (length h) w1)
    = Some (stamp sample_type (set_sample_instance (Some (length h)) (obj w1))
              ep) /\
  forall i ep0, nth_error h i = Some ep0 ->
    sample_at i (stamped sample_type (length h) w1) = Some ep0.
Proof.
  intros Hh. unfold sample_at, stamped. cbn [heap].
  rewrite Hh, update_nth_last. split; [apply nth_error_last|].
  intros i ep0 Hi. rewrite nth_error_app1; [assumption|].
  apply nth_error_Some. congruence.
Qed.

(** X13.  The sample a [_sample] call makes is a fresh instance of the nested
    class: it is not ready and holds no sample of its own, it has the
    timeframe of the nested parameters and the stack of its parent without
    the last entry, and when that stack was empty it has no sample class.
    Sampling from it before it is reset fails on the readiness assertion. *)
Theorem new_sample_unplanned get_new sample_type b_alpha b_beta w l w' :
  fresh_request get_new (obj w) ->
  _sample get_new sample_type b_alpha b_beta w = (Ok l, w') ->
  exists ep,
    sample_at l w' = Some ep /\
    is_ready ep = false /\ sample_instance ep = None /\
    timeframe ep = kw_timeframe (nested_params (obj w)) /\
    config_stack ep = removelast (config_stack (obj w)) /\
    (config_stack (obj w) = [] -> nested_class_ref ep = None) /\
    forall g t a b w2,
      obj w2 = ep -> _sample g t a b w2 = (Raise AssertionError None, w2).
Proof.
  intros Hfresh Hrun.
  destruct (sample_fresh_dispatched _ _ _ _ _ _ _ Hfresh Hrun)
    as (w1 & Hd & ->).
  assert (Hmade : l = length (heap w) /\
            exists id rows first_row,
              heap w1 = heap w ++
                [made_sample (obj w) id rows "interval_sample" first_row]).
  { unfold dispatched in Hd.
    destruct (sample_type =? 0);
      apply sample_interval_made in Hd as (_ & Hl & _ & H); auto. }
  destruct Hmade as (-> & id & rows & fr & Hh).
  destruct (stamped_sample_at sample_type _ _ _ Hh) as [Hat _].
  eexists. split; [exact Hat|].
  split; [reflexivity|]. split; [reflexivity|]. split; [reflexivity|].
  split; [reflexivity|]. split.
  - intros Hs. cbn. rewrite Hs. reflexivity.
  - intros g t a b w2 Hw2. apply sample_not_ready. rewrite Hw2. reflexivity.
Qed.

(** A run of X13: the first sample of the planned Monday rows. *)
Lemma new_sample_unplanned_witness :
  exists ep,
    sample_at 0%nat sampled_monday_world = Some ep /\
    is_ready ep = false /\ nested_class_ref ep = None.
Proof.
  unshelve epose proof
    (new_sample_unplanned true 0 1 1 planned_monday_world 0%nat
       sampled_monday_world _ _) as H.
  1: left; reflexivity. 1: by_run.
  destruct H as (ep & H1 & H2 & _ & _ & _ & H3 & _).
  exists ep. split; [exact H1|]. split; [exact H2|]. apply H3. by_run.
Defined.

(** X14.  Whatever its outcome, a call of [_sample] leaves every object made
    before it as it was: a new sample never alters the samples handed out
    earlier. *)
Theorem sample_keeps_earlier get_new sample_type b_alpha b_beta w r w' :
  _sample get_new sample_type b_alpha b_beta w = (r, w') ->
  forall i ep0, sample_at i w = Some ep0 -> sample_at i w' = Some ep0.
Proof.
  intros Hrun i ep0 Hi.
  pose proof (sample_outcome _ _ _ _ _ _ _ Hrun) as H.
  destruct r as [l|e m|]; [| |contradiction].
  - destruct H as [[-> _]|(k & ep & prefix & -> & -> & _)]; [assumption|].
    refine (proj2 (stamped_sample_at sample_type (heap w) ep
                     (drawn_alloc k ep w) eq_refl) i ep0 Hi).
  - destruct H as [_ Hh]. unfold sample_at in *. now rewrite Hh.
Qed.

(** A run of X14: a second sample of the planned Monday rows. *)
Lemma sample_keeps_earlier_witness :
  exists ep0,
    sample_at 0%nat sampled_monday_world = Some ep0 /\
    sample_at 0%nat (after (_sample true 0 1 1) sampled_monday_world) = Some ep0.
Proof.
  eexists. split; [by_run|].
  apply (sample_keeps_earlier true 0 1 1 sampled_monday_world (Ok 1%nat)
           (after (_sample true 0 1 1) sampled_monday_world)).
  - by_run.
  - by_run.
Defined.

Lemma sample_cached sample_type b_alpha b_beta w l :
  is_ready (obj w) = true -> sample_instance (obj w) = Some l ->
  sample_type = 0 \/ sample_type = 1 ->
  _sample false sample_type b_alpha b_beta w = (Ok l, w).
Proof.
  intros Hr Hc Ht. unfold _sample, bind, self, py_assert. cbn [obj].
  rewrite Hr, (py_in_sample_type _ Ht), Hc. reflexivity.
Qed.

Lemma sample_ok_ready get_new sample_type b_alpha b_beta w l w' :
  _sample get_new sample_type b_alpha b_beta w = (Ok l, w') ->
  is_ready (obj w) = true.
Proof.
  intros Hrun. destruct (is_ready (obj w)) eqn:E; [reflexivity|].
  rewrite sample_not_ready in Hrun by assumption. discriminate.
Qed.

(** X15.  After a [_sample] call that returned a sample, every call with
    [get_new=False] returns this same sample and changes nothing, whatever
    the sample type and the beta parameters it asks for: a test request
    gets the train sample back. *)
Theorem sample_then_reuse get_new sample_type b_alpha b_beta w l w' :
  _sample get_new sample_type b_alpha b_beta w = (Ok l, w') ->
  forall sample_type' b_alpha' b_beta',
    sample_type' = 0 \/ sample_type' = 1 ->
    _sample false sample_type' b_alpha' b_beta' w' = (Ok l, w').
Proof.
  intros Hrun t' a' b' Ht'.
  pose proof (sample_ok_ready _ _ _ _ _ _ _ Hrun) as Hready.
  pose proof (sample_outcome _ _ _ _ _ _ _ Hrun) as H. cbv beta iota in H.
  destruct H as [[-> Hc]|(k & ep & prefix & -> & _ & _)].
  - now apply sample_cached.
  - apply sample_cached; [exact Hready|reflexivity|assumption].
Qed.

(** A run of X15: a test request after a train sample. *)
Lemma sample_then_reuse_witness :
  _sample false 1 1 1 sampled_monday_world = (Ok 0%nat, sampled_monday_world).
Proof.
  apply (sample_then_reuse true 0 1 1 planned_monday_world 0%nat
           sampled_monday_world).
  - by_run.
  - right. reflexivity.
Defined.

(** ** Plans *)

Lemma read_csv_noop fn w df :
  data (obj w) = Some df -> read_csv fn w = (Ok tt, w).
Proof.
  intros H. unfold read_csv, bind, self. cbn [obj]. now rewrite H.
Qed.

Lemma read_csv_frame fn w :
  post (read_csv fn) w (fun r w1 =>
    heap w1 = heap w /\ rng w1 = rng w /\ files w1 = files w).
Proof. unfold read_csv. wp. all: cbn; auto. Qed.

Lemma reset_frame fn w :
  post (_reset fn) w (fun r w1 =>
    heap w1 = heap w /\ rng w1 = rng w /\ files w1 = files w).
Proof.
  unfold _reset. apply post_bind.
  eapply post_mono; [apply read_csv_frame|]. cbv beta.
  intros r w1 (Hh & Hr & Hf). rewrite <- Hh, <- Hr, <- Hf.
  destruct r as [[]|e m|]; [|auto|auto].
  wp. all: cbn; auto.
Qed.

Lemma reset_planned fn w :
  post (_reset fn) w (fun r w' =>
    r = Ok tt ->
    (exists df, planned (obj w') df) /\
    sample_num (obj w') = 0 /\
    sample_instance (obj w') = sample_instance (obj w) /\
    max_time_gap (obj w') <> None /\ max_sample_len_delta (obj w') <> None).
Proof.
  unfold _reset. apply post_bind.
  eapply post_mono; [apply read_csv_loaded|]. cbv beta.
  intros r w1 [Hcfg Hdf].
  destruct r as [[]|e m|]; [|discriminate|discriminate].
  destruct (Hdf eq_refl) as [df Hd]. clear Hdf.
  destruct Hcfg as (_ & _ & _ & _ & _ & Hsi).
  wp.
  all: try discriminate.
  all: intros _; unfold planned;
    cbn [obj data is_ready train_interval test_interval train_num_records
         test_num_records sample_num_records sample_num sample_instance
         max_time_gap max_sample_len_delta set_plan set_split
         set_sample_num_records set_max_deltas].
  all: repeat match goal with
         | H : (_ <=? _) = true |- _ => apply Z.leb_le in H
         | H : (_ <? _) = true |- _ => apply Z.ltb_lt in H
         | H : (_ <? _) = false |- _ => apply Z.ltb_ge in H
         end.
  all: split; [eexists; repeat split; try eassumption; try reflexivity; lia|].
  all: repeat split; try assumption; discriminate.
Qed.

(** X16.  A [_reset] that succeeds leaves a planned instance: it is ready,
    [train_interval = [0, train_num_records]] and
    [test_interval = [train_num_records, rows]], one sample fits into the
    train rows and, when there are test rows, into the test rows; its sample
    counter is 0 and its cached sample is the one it had; the objects made
    before, the random generators and the files are untouched. *)
Theorem reset_plans fn w w' :
  _reset fn w = (Ok tt, w') ->
  (exists df, planned (obj w') df) /\
  sample_num (obj w') = 0 /\
  sample_instance (obj w') = sample_instance (obj w) /\
  heap w' = heap w /\ rng w' = rng w /\ files w' = files w.
Proof.
  intros Hrun.
  destruct (post_run _ _ _ _ _ (reset_planned fn w) Hrun eq_refl)
    as (Hplan & Hnum & Hsi & _).
  destruct (post_run _ _ _ _ _ (reset_frame fn w) Hrun) as (Hh & Hr & Hf).
  auto 10.
Qed.

(** A run of X16: the Monday rows. *)
Lemma reset_plans_witness :
  (exists df, planned (obj planned_monday_world) df) /\
  sample_num (obj planned_monday_world) = 0.
Proof.
  unshelve epose proof
    (reset_plans None fresh_monday_world planned_monday_world _) as H.
  1: by_run.
  destruct H as (H1 & H2 & _). split; [exact H1|exact H2].
Defined.

(** A successful [_reset] has loaded data and a timeframe that is not 0. *)
Lemma reset_ok_inv fn w w' :
  _reset fn w = (Ok tt, w') ->
  exists w1 df,
    read_csv fn w = (Ok tt, w1) /\ data (obj w1) = Some df /\
    timeframe (obj w1) <> 0.
Proof.
  intros Hrun.
  destruct (read_csv fn w) as [r w1] eqn:Hload.
  pose proof (post_run _ _ _ _ _ (read_csv_loaded fn w) Hload) as [_ Hdf].
  unfold _reset in Hrun. unfold bind at 1 in Hrun. rewrite Hload in Hrun.
  destruct r as [[]|e m|]; try discriminate.
  destruct (Hdf eq_refl) as [df Hd].
  exists w1, df. split; [reflexivity|]. split; [assumption|].
  intros Htf.
  cbv [bind self assign per_timeframe] in Hrun.
  cbn [obj timeframe set_max_deltas] in Hrun.
  rewrite Htf in Hrun. cbn in Hrun. discriminate.
Qed.

Lemma counted_plan_of s df :
  sample_num_records (counted (plan_of s df) df)
    = sample_num_records (counted s df) /\
  train_num_records (counted (plan_of s df) df)
    = train_num_records (counted s df) /\
  test_num_records (counted (plan_of s df) df)
    = test_num_records (counted s df) /\
  plan_of (plan_of s df) df = plan_of s df.
Proof. destruct s. repeat split; reflexivity. Qed.

(** X17.  [_reset] right after a [_reset] that succeeded changes nothing and
    succeeds too, whatever file name it is given: the data is loaded, so the
    name is ignored. *)
Theorem reset_twice fn fn' w w' :
  _reset fn w = (Ok tt, w') -> _reset fn' w' = (Ok tt, w').
Proof.
  intros Hrun.
  destruct (reset_ok_inv _ _ _ Hrun) as (w1 & df & Hload & Hd & Htf).
  pose proof (reset_outcome fn w w1 df Hload Hd Htf) as Hout.
  cbv zeta in Hout. rewrite Hrun in Hout.
  destruct ((sample_num_records (counted (obj w1) df)
             <=? train_num_records (counted (obj w1) df))
            && (negb (0 <? test_num_records (counted (obj w1) df))
                || (sample_num_records (counted (obj w1) df)
                    <=? test_num_records (counted (obj w1) df)))) eqn:Hc;
    [|discriminate].
  fold (plan_of (obj w1) df) in Hout.
  injection Hout as Hw'. subst w'.
  set (w2 := with_obj (plan_of (obj w1) df) w1).
  assert (Hd' : data (obj w2) = Some df) by exact Hd.
  assert (Htf' : timeframe (obj w2) <> 0) by exact Htf.
  pose proof (reset_outcome fn' w2 w2 df (read_csv_noop fn' w2 df Hd') Hd' Htf')
    as Hout.
  cbv zeta in Hout. rewrite Hout. clear Hout.
  fold (plan_of (obj w2) df).
  change (obj w2) with (plan_of (obj w1) df).
  destruct (counted_plan_of (obj w1) df) as (-> & -> & -> & ->).
  rewrite Hc. reflexivity.
Qed.

(** A run of X17: a second [_reset], with the name of another file. *)
Lemma reset_twice_witness :
  _reset (Some (FileStr "other.csv")) planned_monday_world
    = (Ok tt, planned_monday_world).
Proof.
  apply (reset_twice None (Some (FileStr "other.csv")) fresh_monday_world).
  by_run.
Defined.

(** X18.  A [_reset] that succeeds restarts the sample counter at 0 but keeps
    the cached sample: a call of [_sample] with [get_new=False] after it
    returns the sample made before the reset, and draws nothing. *)
Theorem reset_keeps_cache fn w w' l :
  sample_instance (obj w) = Some l ->
  _reset fn w = (Ok tt, w') ->
  sample_num (obj w') = 0 /\ heap w' = heap w /\
  forall sample_type b_alpha b_beta,
    sample_type = 0 \/ sample_type = 1 ->
    _sample false sample_type b_alpha b_beta w' = (Ok l, w').
Proof.
  intros Hc Hrun.
  destruct (post_run _ _ _ _ _ (reset_planned fn w) Hrun eq_refl)
    as ((df & _ & Hready & _) & Hnum & Hsi & _).
  destruct (post_run _ _ _ _ _ (reset_frame fn w) Hrun) as (Hh & _).
  split; [assumption|]. split; [assumption|].
  intros t a b Ht. apply sample_cached; [assumption|congruence|assumption].
Qed.

(** A run of X18: a [_reset] after the first sample. *)
Lemma reset_keeps_cache_witness :
  sample_num (obj (after (_reset None) sampled_monday_world)) = 0 /\
  _sample false 0 1 1 (after (_reset None) sampled_monday_world)
    = (Ok 0%nat, after (_reset None) sampled_monday_world).
Proof.
  unshelve epose proof
    (reset_keeps_cache None sampled_monday_world
       (after (_reset None) sampled_monday_world) 0%nat _ _) as H.
  1: by_run. 1: by_run.
  destruct H as (H1 & _ & H2). split; [exact H1|].
  apply H2. left. reflexivity.
Defined.

Lemma planned_kept s df l n :
  planned s df -> planned (set_sample_num n (set_sample_instance l s)) df.
Proof. unfold planned. cbn. auto. Qed.

(** X19.  On a planned instance whose timestamps do not repeat, with
    [start_00] off and draws in [0, 1], a new train sample
    ([sample_type = 0]) is made of rows before [train_num_records] and a new
    test sample of rows from [train_num_records] on: train and test samples
    never share a row.  The instance is still planned after the call. *)
Theorem train_test_apart get_new sample_type a b w df l w' :
  planned (obj w) df ->
  NoDup (map index df) -> start_00 (obj w) = false ->
  1 <= sample_num_records (obj w) ->
  unit_draws a b w -> unit_draws 1 1 w ->
  fresh_request get_new (obj w) ->
  _sample get_new sample_type a b w = (Ok l, w') ->
  exists ep first_row,
    sample_at l w' = Some ep /\
    md_first_row (metadata ep) = Some (PyInt first_row) /\
    data ep = Some (firstn (Z.to_nat (sample_num_records (obj w)))
                      (skipn (Z.to_nat first_row) df)) /\
    (if sample_type =? 0
     then 0 <= first_row /\
          first_row + sample_num_records (obj w) <= train_num_records (obj w)
     else train_num_records (obj w) <= first_row /\
          first_row + sample_num_records (obj w) <= shape0 df) /\
    train_num_records (obj w) <= shape0 df /\
    planned (obj w') df.
Proof.
  intros Hplan Hnd H00 Hn Hu Hu1 Hfresh Hrun.
  destruct (sample_fresh_dispatched _ _ _ _ _ _ _ Hfresh Hrun)
    as (w1 & Hd & ->).
  destruct Hplan as (Hdata & Hready & Htrain & Htest & Hsplit & Hfit & Hfit').
  assert (Hplan : planned (obj w) df) by (unfold planned; auto 10).
  unfold dispatched in Hd. rewrite Htrain, Htest in Hd.
  destruct (sample_type =? 0) eqn:Htype.
  - assert (Hsize : 1 <= sample_num_records (obj w)
                    <= train_num_records (obj w) - 0) by lia.
    destruct (interval_sample_placed _ _ _ _ _ _ _ _ _
                Hdata Hnd H00 (Z.le_refl 0) Hsize Hu Hd)
      as (k & ep & fr & day & -> & -> & H3 & H4 & Hhi & H5 & _).
    destruct (stamped_sample_at sample_type (heap w) ep
                (drawn_alloc k ep w) eq_refl) as [Hat _].
    eexists _, fr. split; [exact Hat|].
    split; [exact H3|]. split; [exact H5|].
    split; [lia|]. split; [lia|].
    apply planned_kept. exact Hplan.
  - assert (Hlo : 0 <= train_num_records (obj w)) by lia.
    destruct (valid_request (obj w)
                [train_num_records (obj w); shape0 df] 1 1) eqn:Hv;
      [|rewrite sample_interval_invalid in Hd by assumption; discriminate].
    destruct (sample_interval_valid _ _ _ ("test_" ++ sample_name (obj w))%string
                _ Hv)
      as (df' & lo' & hi' & _ & Hint & Hhi & _).
    inversion Hint; subst lo' hi'.
    assert (Hsize : 1 <= sample_num_records (obj w)
                    <= shape0 df - train_num_records (obj w)) by lia.
    destruct (interval_sample_placed _ _ _ _ _ _ _ _ _
                Hdata Hnd H00 Hlo Hsize Hu1 Hd)
      as (k & ep & fr & day & -> & -> & H3 & H4 & _ & H5 & _).
    destruct (stamped_sample_at sample_type (heap w) ep
                (drawn_alloc k ep w) eq_refl) as [Hat _].
    eexists _, fr. split; [exact Hat|].
    split; [exact H3|]. split; [exact H5|].
    split; [lia|]. split; [lia|].
    apply planned_kept. exact Hplan.
Qed.

(** A run of X19: a test sample of four train rows and two test rows. *)
Lemma train_test_apart_witness :
  exists ep first_row,
    sample_at 0%nat (after (_sample true 1 1 1) planned_test_world) = Some ep /\
    md_first_row (metadata ep) = Some (PyInt first_row) /\
    4 <= first_row /\ first_row + 2 <= 6.
Proof.
  unshelve epose proof
    (train_test_apart true 1 1 1 planned_test_world monday_test_rows 0%nat
       (after (_sample true 1 1 1) planned_test_world) _ _ _ _ _ _ _ _) as H.
  1: by_planned.
  1: by_nodup. 1: by_run. 1: by_calc. 1: by_draws. 1: by_draws.
  1: left; reflexivity. 1: by_run.
  destruct H as (ep & fr & H1 & H2 & _ & H3 & _).
  exists ep, fr. split; [exact H1|]. split; [exact H2|exact H3].
Defined.

(** X20.  On a planned instance without test rows, as with the default
    [test_period] of no time, a request for a new test sample raises
    [AssertionError] and changes nothing: the test interval is empty. *)
Theorem empty_test_set get_new b_alpha b_beta w df :
  planned (obj w) df -> test_num_records (obj w) <= 0 ->
  fresh_request get_new (obj w) ->
  _sample get_new 1 b_alpha b_beta w = (Raise AssertionError None, w).
Proof.
  intros Hplan Htest Hfresh.
  destruct Hplan as (Hdata & Hready & _ & Hint & Hsplit & _).
  assert (Hd : dispatched 1 b_alpha b_beta (obj w) w
               = (Raise AssertionError None, w)).
  { unfold dispatched. cbn [Z.eqb]. rewrite Hint.
    apply sample_interval_invalid. unfold valid_request. rewrite Hdata.
    destruct df as [|r rest]; [reflexivity|].
    cbn [length Nat.eqb nth last andb].
    assert (E : (train_num_records (obj w) <? shape0 (r :: rest)) = false)
      by (apply Z.ltb_ge; lia).
    rewrite E. now rewrite andb_false_r. }
  rewrite (sample_fresh_from get_new 1 _ _ _ _ _ Hready eq_refl Hfresh Hd).
  reflexivity.
Qed.

(** A run of X20: the Monday rows, planned without a test period. *)
Lemma empty_test_set_witness :
  _sample true 1 1 1 planned_monday_world
    = (Raise AssertionError None, planned_monday_world).
Proof.
  apply (empty_test_set true 1 1 planned_monday_world monday_rows).
  - by_planned.
  - by_calc.
  - left. reflexivity.
Defined.

(** ** Loading *)

Lemma py_in_In x l : py_in x l = true <-> In x l.
Proof.
  unfold py_in. rewrite existsb_exists. split.
  - intros (y & Hy & E). apply Z.eqb_eq in E. now subst.
  - intros H. exists x. split; [assumption|apply Z.eqb_refl].
Qed.

Lemma drop_duplicated_in seen df r :
  In r (drop_duplicated seen df) -> In r df /\ ~ In (index r) seen.
Proof.
  revert seen. induction df as [|x rest IH]; intros seen; cbn [drop_duplicated].
  - intros [].
  - destruct (py_in (index x) seen) eqn:E.
    + intros H. destruct (IH _ H). split; [now right|assumption].
    + intros [->|H].
      * split; [now left|]. rewrite <- py_in_In. congruence.
      * destruct (IH _ H) as [H1 H2]. split; [now right|].
        intros Hin. apply H2. now right.
Qed.

Lemma drop_duplicated_nodup seen df :
  NoDup (map index (drop_duplicated seen df)).
Proof.
  revert seen. induction df as [|x rest IH]; intros seen; cbn [drop_duplicated].
  - constructor.
  - destruct (py_in (index x) seen); [apply IH|].
    cbn [map]. constructor; [|apply IH].
    intros Hin. apply in_map_iff in Hin as (r & Hr & Hin).
    apply drop_duplicated_in in Hin as [_ Hn]. apply Hn. left. congruence.
Qed.

(** The row kept for a timestamp is the first row of the file with it. *)
Lemma drop_duplicated_first seen df t :
  ~ In t seen ->
  find (fun r => index r =? t) (drop_duplicated seen df)
    = find (fun r => index r =? t) df.
Proof.
  revert seen. induction df as [|x rest IH]; intros seen Hseen;
    cbn [drop_duplicated find]; [reflexivity|].
  destruct (py_in (index x) seen) eqn:E.
  - apply py_in_In in E.
    destruct (index x =? t) eqn:Et;
      [apply Z.eqb_eq in Et; congruence|].
    now apply IH.
  - cbn [find]. destruct (index x =? t) eqn:Et; [reflexivity|].
    apply IH. intros [H|H]; [|contradiction].
    apply Z.eqb_neq in Et. contradiction.
Qed.

Lemma find_index_in df t :
  In t (map index df) <-> find (fun r => index r =? t) df <> None.
Proof.
  induction df as [|x rest IH]; cbn [map In find]; [tauto|].
  destruct (index x =? t) eqn:E.
  - apply Z.eqb_eq in E. split; [discriminate|auto].
  - apply Z.eqb_neq in E. rewrite <- IH. tauto.
Qed.

Lemma drop_duplicated_nonempty df : df <> [] -> drop_duplicated [] df <> [].
Proof. destruct df; [congruence|discriminate]. Qed.

(** X21.  [read_csv] of one file with rows, on an instance without data: the
    data it leaves holds each timestamp of the file once, with the first row
    the file has for it, [filename] is the list of this one name, and
    [data_range_delta] is the last timestamp minus the first. *)
Theorem read_csv_one_file f df w :
  data (obj w) = None -> f <> ""%string -> files w f = Some df -> df <> [] ->
  exists w' rows,
    read_csv (Some (FileStr f)) w = (Ok tt, w') /\
    data (obj w') = Some rows /\
    filename (obj w') = Some (FileList [f]) /\
    NoDup (map index rows) /\
    (forall t, In t (map index rows) <-> In t (map index df)) /\
    (forall t, find (fun r => index r =? t) rows
               = find (fun r => index r =? t) df) /\
    data_range_delta (obj w') = realized_duration rows.
Proof.
  intros Hdata Hf Hfile Hne.
  apply String.eqb_neq in Hf.
  pose proof (drop_duplicated_nonempty df Hne) as Hrows.
  unfold read_csv, bind, self, assign, some_or, file_system, ret.
  cbn [obj heap files rng truthy names_of filename set_filename data
       read_files negb]. rewrite Hdata, Hf. cbn [negb].
  cbn [obj heap files rng truthy names_of filename set_filename data
       read_files]. rewrite Hf, Hfile.
  cbn [concat app]. rewrite app_nil_r.
  destruct (drop_duplicated [] df) as [|r rest] eqn:E; [congruence|].
  cbn [obj heap files rng data set_data].
  do 2 eexists. split; [reflexivity|].
  cbn [obj data set_data set_data_range_delta filename set_filename
       data_range_delta].
  split; [reflexivity|]. split; [reflexivity|].
  rewrite <- E. split; [apply drop_duplicated_nodup|].
  assert (Hfind : forall t,
            find (fun r => index r =? t) (drop_duplicated [] df)
            = find (fun r => index r =? t) df)
    by (intros t; apply drop_duplicated_first; auto).
  split; [|split; [exact Hfind|]].
  - intros t. rewrite !find_index_in, Hfind. tauto.
  - rewrite E. reflexivity.
Qed.

(** A run of X21: the file of the Monday rows. *)
Lemma read_csv_one_file_witness :
  exists w' rows,
    read_csv (Some (FileStr "data.csv")) fresh_monday_world = (Ok tt, w') /\
    data (obj w') = Some rows /\
    NoDup (map index rows).
Proof.
  unshelve epose proof
    (read_csv_one_file "data.csv" monday_rows fresh_monday_world _ _ _ _)
    as H.
  1: by_run. 1: discriminate. 1: by_run. 1: discriminate.
  destruct H as (w' & rows & H1 & H2 & _ & H3 & _).
  exists w', rows. split; [exact H1|]. split; [exact H2|exact H3].
Defined.

Lemma read_files_two fs f1 f2 df1 df2 :
  f1 <> ""%string -> f2 <> ""%string ->
  fs f1 = Some df1 -> fs f2 = Some df2 ->
  read_files fs [f1; f2]
    = Some [drop_duplicated [] df1; drop_duplicated [] df2].
Proof.
  intros H1 H2 E1 E2. apply String.eqb_neq in H1, H2.
  cbn [read_files]. now rewrite H1, H2, E1, E2.
Qed.

Lemma drop_duplicated_index df t :
  In t (map index df) -> In t (map index (drop_duplicated [] df)).
Proof.
  rewrite !find_index_in, drop_duplicated_first; auto.
Qed.

Lemma NoDup_app_disjoint {A} (l1 l2 : list A) x :
  NoDup (l1 ++ l2) -> In x l1 -> In x l2 -> False.
Proof.
  induction l1 as [|y l1 IH]; cbn; [tauto|].
  intros Hnd [->|Hin] H2.
  - inversion Hnd; subst. apply H1. apply in_or_app. now right.
  - inversion Hnd; subst. auto.
Qed.

(** X22.  Duplicates are removed inside a file, not across files: after
    [read_csv] of two files (or of one file named twice) that share a
    timestamp, the data is the two cleaned frames one after the other, and
    its index repeats that timestamp. *)
Theorem read_csv_across_files f1 f2 df1 df2 t w :
  data (obj w) = None ->
  f1 <> ""%string -> f2 <> ""%string ->
  files w f1 = Some df1 -> files w f2 = Some df2 ->
  In t (map index df1) -> In t (map index df2) ->
  exists w',
    read_csv (Some (FileList [f1; f2])) w = (Ok tt, w') /\
    data (obj w')
      = Some (drop_duplicated [] df1 ++ drop_duplicated [] df2) /\
    ~ NoDup (map index (drop_duplicated [] df1 ++ drop_duplicated [] df2)).
Proof.
  intros Hdata H1 H2 E1 E2 Hin1 Hin2.
  apply drop_duplicated_index in Hin1, Hin2.
  unfold read_csv, bind, self, assign, some_or, file_system, ret.
  cbn [obj heap files rng truthy names_of filename set_filename data].
  rewrite Hdata.
  cbn [obj heap files rng truthy names_of filename set_filename data].
  rewrite (read_files_two _ _ _ _ _ H1 H2 E1 E2).
  cbn [concat]. rewrite app_nil_r.
  destruct (drop_duplicated [] df1 ++ drop_duplicated [] df2)
    as [|r rest] eqn:E.
  - apply app_eq_nil in E as [E _]. rewrite E in Hin1. destruct Hin1.
  - eexists. split; [reflexivity|]. split; [reflexivity|].
    rewrite <- E, map_app. intros Hnd.
    exact (NoDup_app_disjoint _ _ t Hnd Hin1 Hin2).
Qed.

(** A run of X22: the file of the Monday rows, given twice. *)
Lemma read_csv_across_files_witness :
  exists w',
    read_csv (Some (FileList ["data.csv"%string; "data.csv"%string])) fresh_monday_world
      = (Ok tt, w') /\
    data (obj w')
      = Some (drop_duplicated [] monday_rows
              ++ drop_duplicated [] monday_rows) /\
    ~ NoDup (map index (drop_duplicated [] monday_rows
                        ++ drop_duplicated [] monday_rows)).
Proof.
  apply (read_csv_across_files "data.csv" "data.csv" monday_rows monday_rows
           (index (at_minute 10 1439)) fresh_monday_world).
  1: by_run. 1: discriminate. 1: discriminate. 1: by_run. 1: by_run.
  1: left; reflexivity. left; reflexivity.
Defined.

Lemma read_files_none fs names :
  read_files fs names = None <->
  exists f, In f names /\ (f = ""%string \/ fs f = None).
Proof.
  induction names as [|f rest IH]; cbn [read_files In].
  - split; [discriminate|intros (f & [] & _)].
  - destruct (String.eqb f "") eqn:E.
    + apply String.eqb_eq in E. split; [|reflexivity].
      intros _. exists f. auto.
    + apply String.eqb_neq in E. destruct (fs f) as [df|] eqn:Ef.
      * destruct (read_files fs rest) as [dfs|].
        -- split; [discriminate|].
           intros (g & [<-|Hin] & Hg).
           ++ destruct Hg; congruence.
           ++ assert (Hc : Some dfs = None) by (apply IH; eauto).
              discriminate Hc.
        -- split; [|reflexivity]. intros _.
           destruct (proj1 IH eq_refl) as (g & Hin & Hg). eauto.
      * split; [|reflexivity]. intros _. exists f. auto.
Qed.

(** X23.  When one of the file names is empty or does not resolve, [read_csv]
    on an instance without data raises [FileNotFoundError] and loads
    nothing, not even the files it could read; what it changes is
    [filename], which now holds the list of names. *)
Theorem read_csv_missing_file fn w names :
  data (obj w) = None ->
  names_of (if truthy fn then fn else filename (obj w)) = Some names ->
  (exists f, In f names /\ (f = ""%string \/ files w f = None)) ->
  read_csv fn w =
    (Raise FileNotFoundError None,
     with_obj (set_filename (Some (FileList names)) (obj w)) w).
Proof.
  intros Hdata Hnames Hbad. apply read_files_none in Hbad.
  unfold read_csv, bind, self, assign, some_or, file_system, ret, raise,
    with_obj.
  cbn [obj]. rewrite Hdata.
  destruct (truthy fn); cbn [obj heap files rng filename set_filename];
    rewrite Hnames; cbn [obj heap files rng]; rewrite Hbad;
    destruct (obj w); reflexivity.
Qed.

(** A run of X23: a file that is not there. *)
Lemma read_csv_missing_file_witness :
  read_csv (Some (FileStr "none.csv")) fresh_monday_world =
    (Raise FileNotFoundError None,
     with_obj (set_filename (Some (FileList ["none.csv"%string]))
                 (obj fresh_monday_world))
       fresh_monday_world).
Proof.
  apply (read_csv_missing_file (Some (FileStr "none.csv")) fresh_monday_world
           ["none.csv"%string]).
  - by_run.
  - by_run.
  - exists "none.csv"%string. split; [left; reflexivity|].
    right. by_run.
Defined.

Lemma read_csv_index_error fn w :
  post (read_csv fn) w (fun r w' =>
    forall m, r = Raise IndexError m -> data (obj w') = Some []).
Proof.
  unfold read_csv. wp.
  all: intros m Hm; try discriminate Hm.
  all: reflexivity.
Qed.

(** X24.  An empty load sticks.  When [read_csv] fails with [IndexError], on
    taking the first timestamp of data without rows, the empty frame stays
    assigned: later calls of [read_csv] load nothing and succeed, and both
    searches fail on their first assertion. *)
Theorem read_csv_empty fn w m w' :
  read_csv fn w = (Raise IndexError m, w') ->
  data (obj w') = Some [] /\
  (forall fn', read_csv fn' w' = (Ok tt, w')) /\
  (forall interval a b name,
     _sample_interval interval a b name w' = (Raise AssertionError None, w')) /\
  (forall name, _sample_random name w' = (Raise AssertionError None, w')).
Proof.
  intros Hrun.
  pose proof (post_run _ _ _ _ _ (read_csv_index_error fn w) Hrun m eq_refl)
    as Hd.
  split; [assumption|]. split; [|split].
  - intros fn'. now apply (read_csv_noop fn' w' []).
  - intros. apply sample_interval_invalid. unfold valid_request.
    now rewrite Hd.
  - intros. unfold _sample_random, bind, self, loaded_data. cbn [obj].
    now rewrite Hd.
Qed.

(** A run of X24: a file without rows. *)
Lemma read_csv_empty_witness :
  data (obj (after (read_csv None) empty_file_world)) = Some [] /\
  _sample_random "random_sample_" (after (read_csv None) empty_file_world)
    = (Raise AssertionError None, after (read_csv None) empty_file_world).
Proof.
  unshelve epose proof
    (read_csv_empty None empty_file_world None
       (after (read_csv None) empty_file_world) _) as H.
  1: by_run.
  destruct H as (H1 & _ & _ & H2). split; [exact H1|apply H2].
Defined.

(** ** Conversion and summary *)

Lemma to_btfeed_rows w r rest :
  data (obj w) = Some (r :: rest) ->
  to_btfeed w =
    (Ok (mkFeed (r :: rest) (timeframe (obj w)) (shape0 (r :: rest))), w).
Proof.
  intros H. unfold to_btfeed, bind, self. cbn [obj]. now rewrite H.
Qed.

(** An instance without rows converts to no feed. *)
Lemma to_btfeed_no_data w :
  data (obj w) = None \/ data (obj w) = Some [] ->
  to_btfeed w = (Raise AssertionError None, w).
Proof.
  intros [H|H]; unfold to_btfeed, bind, self; cbn [obj]; now rewrite H.
Qed.

Lemma accepted_rows s prefix type ep :
  accepted s prefix type ep ->
  exists r rest,
    data ep = Some (r :: rest) /\
    (0 <= sample_num_records s ->
     shape0 (r :: rest) <= sample_num_records s).
Proof.
  intros Hacc.
  destruct (accepted_nonempty _ _ _ _ Hacc) as (r & rest & Hrows).
  exists r, rest. split; [assumption|]. intros Hn.
  destruct Hacc as (df & cand & fr & _ & _ & _ & Hnear & Hdata & _).
  apply get_loc_nearest_some in Hnear. rewrite length_map in Hnear.
  assert (E : r :: rest = py_slice df fr (fr + sample_num_records s))
    by congruence.
  unfold shape0. rewrite E, py_slice_length by lia. lia.
Qed.

(** X25.  A new sample always converts: [to_btfeed] on the sample a [_sample]
    call has made returns a feed over the rows of the sample, with its
    timeframe and with [numrecords] the number of these rows, which is at
    least 1 and, for a sample length that is not negative, at most
    [sample_num_records]. *)
Theorem sample_to_btfeed get_new sample_type b_alpha b_beta w l w' :
  fresh_request get_new (obj w) ->
  _sample get_new sample_type b_alpha b_beta w = (Ok l, w') ->
  exists ep rows,
    sample_at l w' = Some ep /\ data ep = Some rows /\
    1 <= shape0 rows /\
    (0 <= sample_num_records (obj w) ->
     shape0 rows <= sample_num_records (obj w)) /\
    forall w2, obj w2 = ep ->
      to_btfeed w2 = (Ok (mkFeed rows (timeframe ep) (shape0 rows)), w2).
Proof.
  intros Hfresh Hrun.
  destruct (sample_fresh_accepted _ _ _ _ _ _ _ Hfresh Hrun)
    as (ep & prefix & k & Hacc & -> & ->).
  destruct (accepted_rows _ _ _ _ Hacc) as (r & rest & Hrows & Hlen).
  destruct (stamped_sample_at sample_type (heap w) ep
              (drawn_alloc k ep w) eq_refl) as [Hat _].
  eexists _, (r :: rest). split; [exact Hat|].
  split; [exact Hrows|]. split; [unfold shape0; cbn [length]; lia|].
  split; [exact Hlen|].
  intros w2 Hw2. rewrite (to_btfeed_rows w2 r rest) by (now rewrite Hw2).
  now rewrite Hw2.
Qed.

(** A run of X25: the first sample of the planned Monday rows. *)
Lemma sample_to_btfeed_witness :
  exists ep rows,
    sample_at 0%nat sampled_monday_world = Some ep /\
    data ep = Some rows /\
    to_btfeed (with_obj ep sampled_monday_world)
      = (Ok (mkFeed rows (timeframe ep) (shape0 rows)),
         with_obj ep sampled_monday_world).
Proof.
  unshelve epose proof
    (sample_to_btfeed true 0 1 1 planned_monday_world 0%nat
       sampled_monday_world _ _) as H.
  1: left; reflexivity. 1: by_run.
  destruct H as (ep & rows & H1 & H2 & _ & _ & H3).
  exists ep, rows. split; [exact H1|]. split; [exact H2|].
  apply H3. reflexivity.
Defined.

Lemma read_csv_ok_inv fn w w1 :
  data (obj w) = None -> truthy fn = false ->
  read_csv fn w = (Ok tt, w1) ->
  exists names dfs first rest,
    names_of (filename (obj w)) = Some names /\
    read_files (files w) names = Some dfs /\
    concat dfs = first :: rest /\
    w1 = with_obj (loaded names (first :: rest) first (obj w)) w.
Proof.
  intros Hdata Hfn. unfold read_csv, bind, self, assign, some_or, file_system,
    ret, raise. cbn [obj]. rewrite Hdata, Hfn.
  cbn [obj heap files rng filename set_filename].
  destruct (names_of (filename (obj w))) as [names|] eqn:Hnames;
    [|discriminate].
  cbn [obj heap files rng filename set_filename].
  destruct (read_files (files w) names) as [dfs|] eqn:Hfiles; [|discriminate].
  destruct dfs as [|df0 dfs]; [discriminate|].
  cbn [obj heap files rng].
  destruct (concat (df0 :: dfs)) as [|first rest] eqn:E; [discriminate|].
  intros H. inversion H. exists names, (df0 :: dfs), first, rest.
  split; [reflexivity|]. split; [assumption|]. split; [assumption|].
  reflexivity.
Qed.

Lemma read_csv_reload fn w names dfs first rest :
  truthy fn = false ->
  names_of (filename (obj w)) = Some names ->
  read_files (files w) names = Some dfs ->
  concat dfs = first :: rest ->
  read_csv fn
    (with_obj (set_data None (loaded names (first :: rest) first (obj w))) w)
  = (Ok tt, with_obj (loaded names (first :: rest) first (obj w)) w).
Proof.
  intros Hfn Hnames Hfiles Hcat.
  unfold read_csv, bind, self, assign, some_or, file_system, ret, raise,
    with_obj, loaded.
  cbn [obj heap files rng data set_data set_data_range_delta set_filename
       filename names_of]. rewrite Hfn.
  cbn [obj heap files rng data set_data set_data_range_delta set_filename
       filename names_of]. rewrite Hfiles.
  destruct dfs as [|df0 dfs]; [discriminate|]. rewrite Hcat.
  cbn [obj heap files rng]. destruct (obj w). reflexivity.
Qed.

Lemma bind_eq_worlds {A B} (m : M A) (k : A -> M B) w1 w2 :
  m w1 = m w2 -> bind m k w1 = bind m k w2.
Proof. unfold bind. now intros ->. Qed.

(** [describe] on an instance that holds rows assigns the summary and
    changes nothing else. *)
Lemma describe_loaded {S : Type} (summary : DataFrame -> S) w stat r rest :
  data (obj w) = Some (r :: rest) ->
  describe summary w stat
    = (Ok (summary (r :: rest)), (w, Some (summary (r :: rest)))).
Proof.
  intros H. unfold describe, bind, self, some_or, ret. cbn [obj].
  rewrite H. cbn [obj]. rewrite H. reflexivity.
Qed.

(** When the load of [describe] raises, [data_stat] is what it was. *)
Lemma describe_raises {S : Type} (summary : DataFrame -> S) w stat e m w'
    stat' :
  describe summary w stat = (Raise e m, (w', stat')) -> stat' = stat.
Proof.
  unfold describe. cbv zeta.
  match goal with |- context [match ?x with _ => _ end] =>
    destruct x as [[[flush df]|e' m'|] w1] end.
  - discriminate.
  - intros H. now inversion H.
  - discriminate.
Qed.

(** X26.  [describe] on an instance without data loads the data for the
    summary and flushes it: the summary is the one of the frame [read_csv]
    loads, it is returned and kept in [data_stat], and the instance holds no
    data afterwards.  [_reset] neither reads nor writes [data_stat], and in
    everything else a later [_reset] that names no file ends as it would
    have without the summary: same outcome, same world. *)
Theorem describe_then_reset {S : Type} (summary : DataFrame -> S)
    w stat st w' stat' :
  data (obj w) = None ->
  describe summary w stat = (Ok st, (w', stat')) ->
  stat' = Some st /\
  data (obj w') = None /\
  (exists w1 df,
     read_csv None w = (Ok tt, w1) /\ data (obj w1) = Some df /\
     st = summary df /\ w' = with_obj (set_data None (obj w1)) w1) /\
  forall fn, truthy fn = false -> _reset fn w' = _reset fn w.
Proof.
  intros Hdata Hrun.
  unfold describe in Hrun. cbv zeta in Hrun.
  unfold bind at 1, self at 1 in Hrun.
  cbn [obj] in Hrun. rewrite Hdata in Hrun.
  unfold bind at 1 2 in Hrun.
  destruct (read_csv None w) as [[[]|e m|] w1] eqn:Hload; try discriminate.
  destruct (read_csv_ok_inv None w w1 Hdata eq_refl Hload)
    as (names & dfs & first & rest & Hnames & Hfiles & Hcat & ->).
  cbv [ret bind self some_or assign] in Hrun.
  cbn [obj heap files rng with_obj loaded data set_data
       set_data_range_delta snd] in Hrun.
  inversion Hrun; subst st w' stat'. clear Hrun.
  split; [reflexivity|]. split; [reflexivity|]. split.
  - do 2 eexists. split; [reflexivity|]. split; [reflexivity|].
    split; [reflexivity|]. reflexivity.
  - intros fn Hfn. unfold _reset. apply bind_eq_worlds.
    assert (E : read_csv fn w = read_csv None w).
    { unfold read_csv. now rewrite Hfn. }
    rewrite E, Hload.
    exact (read_csv_reload fn w names dfs first rest Hfn Hnames Hfiles Hcat).
Qed.

(** A run of X26: a summary that counts the rows, before the first
    [_reset]. *)
Lemma describe_then_reset_witness :
  describe shape0 fresh_monday_world None
    = (Ok 5, (described_monday_world, Some 5)) /\
  data (obj described_monday_world) = None /\
  _reset None described_monday_world = _reset None fresh_monday_world.
Proof.
  assert (Hrun : describe shape0 fresh_monday_world None
                 = (Ok 5, (described_monday_world, Some 5))) by by_run.
  unshelve epose proof
    (describe_then_reset shape0 fresh_monday_world None 5
       described_monday_world (Some 5) _ Hrun) as H.
  1: by_run.
  destruct H as (_ & H1 & _ & H2).
  split; [exact Hrun|]. split; [exact H1|]. apply H2. reflexivity.
Defined.
